(** * Movie industry analytics: the three chart components

  The repository ships three React function components,
  [GenreVisualization], [BudgetEfficiencyAnalysis] and [StudioPerformance].
  Each one builds literal arrays of records, hands them to Recharts
  elements and returns an element tree.

  The components are embedded as computations over a small model of the
  JavaScript run time they use: untyped values, a heap of objects and
  arrays addressed by reference, and an outcome that is a value, a thrown
  exception, or an operation this model leaves out. *)

From Stdlib Require Import List String Ascii Bool Arith ZArith QArith Qabs Qround Lia Lqa.
From Stdlib Require Import DecimalString.
Import ListNotations.

Local Close Scope Q_scope.
Local Open Scope nat_scope.
Local Open Scope string_scope.
Local Open Scope list_scope.

(** ** JavaScript numbers *)

Module Num.

(** A finite double is the rational it denotes; a decimal literal of the
    source is taken at the value it writes. Every finite double is a
    rational, so a statement over all [number]s covers every JavaScript
    number. *)
Inductive number : Type :=
| NaN
| PosInf
| NegInf
| Fin (q : Q).

(** [a > b] as the language defines it on numbers: false as soon as one
    side is NaN. *)
Definition gt (a b : number) : bool :=
  match a, b with
  | NaN, _ | _, NaN => false
  | PosInf, PosInf => false
  | PosInf, _ => true
  | _, PosInf => false
  | NegInf, _ => false
  | Fin _, NegInf => true
  | Fin x, Fin y => match Qcompare x y with Gt => true | _ => false end
  end.

(** [a >= b]: again false with a NaN on either side. *)
Definition ge (a b : number) : bool :=
  match a, b with
  | NaN, _ | _, NaN => false
  | PosInf, _ => true
  | _, NegInf => true
  | NegInf, _ => false
  | Fin _, PosInf => false
  | Fin x, Fin y => match Qcompare x y with Lt => false | _ => true end
  end.

(** Equality of numeric value ([===] on two numbers). *)
Definition same (a b : number) : bool :=
  match a, b with
  | PosInf, PosInf | NegInf, NegInf => true
  | Fin x, Fin y => Qeq_bool x y
  | _, _ => false
  end.

Definition is_zero (a : number) : bool :=
  match a with Fin q => Qeq_bool q 0 | _ => false end.

Definition of_nat (n : nat) : number := Fin (inject_Z (Z.of_nat n)).

(** *** Decimal output *)

Definition digits_of (n : Z) : string :=
  NilZero.string_of_uint (N.to_uint (Z.to_N n)).

Fixpoint zeros (k : nat) : string :=
  match k with O => "" | S k' => String "0" (zeros k') end.

(** The digits of the natural number [n] with a point before the last
    [f] of them, zero-padded on the left as [toFixed] does. *)
Definition place_point (n : Z) (f : nat) : string :=
  let ds := digits_of n in
  let ds := (zeros (S f - String.length ds) ++ ds)%string in
  match f with
  | O => ds
  | _ => let k := (String.length ds - f)%nat in
         (substring 0 k ds ++ "." ++ substring k f ds)%string
  end.

(** [n] such that [n / 10^f] is nearest to [q >= 0], the larger one on a
    tie (Number.prototype.toFixed, step 10.a). *)
Definition nearest_scaled (q : Q) (f : nat) : Z :=
  Qfloor (q * inject_Z (10 ^ Z.of_nat f) + (1 # 2))%Q.

Definition below_1e21 (q : Q) : bool :=
  match Qcompare (Qabs q) (inject_Z (10 ^ 21)) with Lt => true | _ => false end.

(** [x.toFixed(f)] for [0 <= f <= 100]; [None] where the language falls
    back to exponent notation (magnitude 1e21 and above), which is not
    modelled. *)
Definition to_fixed (x : number) (f : nat) : option string :=
  match x with
  | NaN => Some "NaN"
  | PosInf => Some "Infinity"
  | NegInf => Some "-Infinity"
  | Fin q =>
      if below_1e21 q then
        let body := place_point (nearest_scaled (Qabs q) f) f in
        Some (match Qcompare q 0 with Lt => ("-" ++ body)%string | _ => body end)
      else None
  end.

(** Least [k <= fuel + from] at which [q * 10^k] is an integer. *)
Fixpoint exact_scale (q : Q) (from fuel : nat) : option nat :=
  if (Qnum q * 10 ^ Z.of_nat from mod Zpos (Qden q) =? 0)%Z then Some from
  else match fuel with
       | O => None
       | S fuel' => exact_scale q (S from) fuel'
       end.

Definition plain_range (q : Q) : bool :=
  Qeq_bool q 0
  || (below_1e21 q
      && match Qcompare (Qabs q) (1 # 1000000)%Q with Lt => false | _ => true end).

(** A decimal of at most fifteen significant digits is the shortest
    decimal that reads back as the double it denotes, so it is the one
    [String(x)] prints. [n] is the decimal without its point. *)
Definition short_decimal (n : Z) : bool :=
  Nat.leb (String.length (digits_of n)) 15.

(** [String(x)] where it is the decimal expansion of [x] written out in
    full: an integer of magnitude below 1e21, printed digit by digit
    (what the language prints for every integer below 2^53, the indices
    of an array among them), or a fraction of magnitude 1e-6 and above
    with at most fifteen significant digits. [None] otherwise: exponent
    notation, or a number whose shortest decimal that reads back is not
    its expansion. *)
Definition to_string (x : number) : option string :=
  match x with
  | NaN => Some "NaN"
  | PosInf => Some "Infinity"
  | NegInf => Some "-Infinity"
  | Fin q =>
      if plain_range q then
        match exact_scale q 0 20 with
        | Some k =>
            let n := Z.abs (Qnum q * 10 ^ Z.of_nat k / Zpos (Qden q)) in
            if Nat.eqb k 0 || short_decimal n then
              let body := place_point n k in
              Some (match Qcompare q 0 with Lt => ("-" ++ body)%string | _ => body end)
            else None
        | None => None
        end
      else None
  end.

End Num.
Export Num.

(** ** The run-time model *)

Module JS.

Definition loc := nat.

(** What a JSX tag names: a host element ([div], [p]) or a component,
    imported from Recharts or defined in the file. *)
Inductive etype : Type :=
| Host (tag : string)
| Component (name : string).

(** Values. Objects and arrays are held by reference; a React element is
    an immutable tree of its type, its props and its children; a function
    value is known by the name it is bound to. *)
#[warnings="-register-all"]
Inductive value : Type :=
| VUndefined
| VNull
| VBool (b : bool)
| VNum (n : number)
| VStr (s : string)
| VRef (l : loc)
| VClosure (name : string)
| VElem (type : etype) (props : list (string * value)) (children : list value).

Inductive cell : Type :=
| CObj (fields : list (string * value))
| CArr (items : list value).

(** The heap: the cell of reference [l] is the [l]-th one; allocation
    adds a cell at the end. *)
Definition heap := list cell.

Inductive exn : Type :=
| TypeError (msg : string)
| RangeError (msg : string).

(** A computation ends with a value, throws, or steps outside the part
    of the language modelled here. *)
Inductive outcome (A : Type) : Type :=
| Ok (a : A)
| Throw (e : exn)
| Unmodelled (what : string).
Arguments Ok {A} a.
Arguments Throw {A} e.
Arguments Unmodelled {A} what.

Definition M (A : Type) : Type := heap -> outcome A * heap.

Definition ret {A} (a : A) : M A := fun h => (Ok a, h).

Definition bind {A B} (m : M A) (k : A -> M B) : M B :=
  fun h =>
    match m h with
    | (Ok a, h') => k a h'
    | (Throw e, h') => (Throw e, h')
    | (Unmodelled w, h') => (Unmodelled w, h')
    end.

Definition throw {A} (e : exn) : M A := fun h => (Throw e, h).
Definition unmodelled {A} (w : string) : M A := fun h => (Unmodelled w, h).

Declare Scope js_scope.
Delimit Scope js_scope with js.
Notation "x <- m ;; k" := (bind m (fun x => k))
  (at level 61, m at next level, right associativity) : js_scope.
Local Open Scope js_scope.

Definition num (q : Q) : value := VNum (Fin q).
Definition numP (key : string) (q : Q) : string * value := (key, num q).
Definition strP (key : string) (s : string) : string * value := (key, VStr s).
Definition el (type : etype) (props : list (string * value)) (children : list value)
  : value := VElem type props children.

(** *** Allocation and reads *)

Definition alloc (c : cell) : M value :=
  fun h => (Ok (VRef (List.length h)), h ++ [c]).

(** An object literal and an array literal. *)
Definition new_object (fields : list (string * value)) : M value := alloc (CObj fields).
Definition new_array (items : list value) : M value := alloc (CArr items).

Definition deref (l : loc) : M cell :=
  fun h =>
    match nth_error h l with
    | Some c => (Ok c, h)
    | None => (Unmodelled "reference to no cell", h)
    end.

Fixpoint field (key : string) (fields : list (string * value)) : option value :=
  match fields with
  | [] => None
  | (k, v) :: rest => if String.eqb k key then Some v else field key rest
  end.

Definition or_undefined (o : option value) : value :=
  match o with Some v => v | None => VUndefined end.

Definition nullish_read {A} : M A :=
  throw (TypeError "Cannot read properties of undefined or null").

(** The names a plain object inherits from [Object.prototype]. *)
Definition inherited (key : string) : bool :=
  existsb (String.eqb key)
    ["constructor"; "hasOwnProperty"; "isPrototypeOf"; "propertyIsEnumerable";
     "toLocaleString"; "toString"; "valueOf"; "__proto__";
     "__defineGetter__"; "__defineSetter__"; "__lookupGetter__"; "__lookupSetter__"].

(** The property [key] of a plain object: its own when it has one,
    [undefined] when neither it nor its prototype has one. What the
    prototype supplies is not modelled. *)
Definition property (key : string) (fields : list (string * value)) : M value :=
  match field key fields with
  | Some v => ret v
  | None =>
      if inherited key then unmodelled "property inherited from Object.prototype"
      else ret VUndefined
  end.

(** [v.key]. *)
Definition get (v : value) (key : string) : M value :=
  match v with
  | VUndefined | VNull => nullish_read
  | VRef l =>
      c <- deref l ;;
      match c with
      | CObj fields => property key fields
      | CArr items =>
          if String.eqb key "length" then ret (VNum (of_nat (List.length items)))
          else unmodelled "property of an array"
      end
  | VStr s =>
      if String.eqb key "length" then ret (VNum (of_nat (String.length s)))
      else unmodelled "property of a string"
  | _ => unmodelled "property of a primitive, function or element"
  end.

(** [v[i]] for a literal index [i]. *)
Definition index (v : value) (i : nat) : M value :=
  match v with
  | VUndefined | VNull => nullish_read
  | VRef l =>
      c <- deref l ;;
      match c with
      | CArr items => ret (nth i items VUndefined)
      | CObj fields => ret (or_undefined (field (digits_of (Z.of_nat i)) fields))
      end
  | _ => unmodelled "index into a primitive, function or element"
  end.

(** *** Conversions *)

(** ToBoolean. *)
Definition truthy (v : value) : bool :=
  match v with
  | VUndefined | VNull => false
  | VBool b => b
  | VNum NaN => false
  | VNum n => negb (is_zero n)
  | VStr s => negb (String.eqb s "")
  | VRef _ | VClosure _ | VElem _ _ _ => true
  end.

(** ToString, as a template literal applies it, on primitives. *)
Definition to_str (v : value) : M string :=
  match v with
  | VUndefined => ret "undefined"
  | VNull => ret "null"
  | VBool true => ret "true"
  | VBool false => ret "false"
  | VNum n =>
      match Num.to_string n with
      | Some s => ret s
      | None => unmodelled "number printed in exponent notation"
      end
  | VStr s => ret s
  | _ => unmodelled "string of an object, function or element"
  end.

Definition not_a_function {A} (name : string) : M A :=
  throw (TypeError (name ++ " is not a function")%string).

(** The call [obj.name(...)] on a plain object: it has no such method by
    birth; it may carry a function under [name], and calling that one is
    not modelled. *)
Definition no_method {A} (name : string) (fields : list (string * value)) : M A :=
  match field name fields with
  | Some (VClosure _) => unmodelled "call of a function an object carries"
  | _ => not_a_function name
  end.

(** [v.toFixed(digits)]. Only a number has the method by birth. An
    object may carry a function under [toFixed], and so may a function;
    calling that one is not modelled. *)
Definition toFixed (v : value) (digits : nat) : M value :=
  match v with
  | VUndefined | VNull => nullish_read
  | VNum n =>
      if Nat.ltb 100 digits then throw (RangeError "toFixed() digits argument must be between 0 and 100")
      else match Num.to_fixed n digits with
           | Some s => ret (VStr s)
           | None => unmodelled "number printed in exponent notation"
           end
  | VRef l =>
      c <- deref l ;;
      match c with
      | CObj fields => no_method "toFixed" fields
      | CArr _ => not_a_function "toFixed"
      end
  | VClosure _ => unmodelled "property of a function"
  | _ => not_a_function "toFixed"
  end.

(** [v === 'literal']. *)
Definition is_string (v : value) (literal : string) : bool :=
  match v with VStr s => String.eqb s literal | _ => false end.

(** [obj[k]] with a computed key. *)
Definition get_computed (obj k : value) : M value :=
  key <- to_str k ;; get obj key.

(** The operand [v] of [v > k] as a number (ToNumber), on the values
    whose conversion needs no parsing. *)
Definition to_number (v : value) : M number :=
  match v with
  | VUndefined => ret NaN
  | VNull => ret (Fin 0)
  | VBool true => ret (Fin 1)
  | VBool false => ret (Fin 0)
  | VNum n => ret n
  | _ => unmodelled "number of a string, object, function or element"
  end.

(** *** Arrays *)

(** The items an array spread [...v] iterates. *)
Definition items_of (v : value) : M (list value) :=
  match v with
  | VRef l =>
      c <- deref l ;;
      match c with
      | CArr items => ret items
      | CObj _ => throw (TypeError "object is not iterable")
      end
  | VStr _ => unmodelled "spread of a string"
  | _ => throw (TypeError "value is not iterable")
  end.

Fixpoint spread_all (vs : list value) : M (list value) :=
  match vs with
  | [] => ret []
  | v :: rest =>
      xs <- items_of v ;;
      ys <- spread_all rest ;;
      ret (xs ++ ys)
  end.

(** [[...a, ...b, ...]]. *)
Definition array_of_spreads (vs : list value) : M value :=
  xs <- spread_all vs ;; new_array xs.

(** The array literal [[{...}, {...}, ...]]: one object per row, then the
    array of their references. *)
Fixpoint new_objects (rows : list (list (string * value))) : M (list value) :=
  match rows with
  | [] => ret []
  | r :: rest =>
      o <- new_object r ;;
      os <- new_objects rest ;;
      ret (o :: os)
  end.

Definition array_of_objects (rows : list (list (string * value))) : M value :=
  os <- new_objects rows ;; new_array os.

(** [arr.map(f)]: the List.length is read once, each element when its turn
    comes, and the results go to a new array. *)
Fixpoint map_from (arr : value) (f : value -> nat -> M value) (i count : nat)
  : M (list value) :=
  match count with
  | O => ret []
  | S count' =>
      x <- index arr i ;;
      y <- f x i ;;
      ys <- map_from arr f (S i) count' ;;
      ret (y :: ys)
  end.

Definition array_length (arr : value) : M nat :=
  match arr with
  | VUndefined | VNull => nullish_read
  | VRef l =>
      c <- deref l ;;
      match c with
      | CArr items => ret (List.length items)
      | CObj fields => no_method "map" fields
      end
  | VClosure _ => unmodelled "property of a function"
  | _ => not_a_function "map"
  end.

Definition array_map (arr : value) (f : value -> nat -> M value) : M value :=
  n <- array_length arr ;;
  ys <- map_from arr f O n ;;
  new_array ys.

(** *** Writes

    The language can change a cell in place. The components never do;
    the two operations are here so that the heap model can tell a
    program that writes from one that does not. *)

Fixpoint replace_nth {A} (n : nat) (x : A) (l : list A) : list A :=
  match l, n with
  | [], _ => []
  | _ :: rest, O => x :: rest
  | y :: rest, S n' => y :: replace_nth n' x rest
  end.

Fixpoint set_field (key : string) (x : value) (fields : list (string * value))
  : list (string * value) :=
  match fields with
  | [] => [(key, x)]
  | (k, v) :: rest =>
      if String.eqb k key then (k, x) :: rest else (k, v) :: set_field key x rest
  end.

(** [v.key = x]. *)
Definition set_prop (v : value) (key : string) (x : value) : M value :=
  match v with
  | VUndefined | VNull => throw (TypeError "Cannot set properties of undefined or null")
  | VRef l =>
      c <- deref l ;;
      match c with
      | CObj fields =>
          fun h => (Ok x, replace_nth l (CObj (set_field key x fields)) h)
      | CArr _ => unmodelled "property write on an array"
      end
  | _ => unmodelled "property write on a primitive, function or element"
  end.

(** [v.push(x)]. *)
Definition array_push (v x : value) : M value :=
  match v with
  | VUndefined | VNull => nullish_read
  | VRef l =>
      c <- deref l ;;
      match c with
      | CArr items =>
          fun h => (Ok (VNum (of_nat (S (List.length items)))),
                    replace_nth l (CArr (items ++ [x])) h)
      | CObj fields => no_method "push" fields
      end
  | VClosure _ => unmodelled "property of a function"
  | _ => not_a_function "push"
  end.

End JS.
Export JS.
Local Open Scope js_scope.

(** ** genre-visualization.jsx *)

Module Genre.

(** [const data = [ { year: 2015, horror: 60.2, ... }, ... ]]: the rows of
    the array literal, in order. *)
Definition data : list (list (string * value)) :=
  [
    [numP "year" 2015; numP "horror" 60.2; numP "scifi" 72.6; numP "action" 93.9; numP "drama" 71.8; numP "comedy" 68.4];
    [numP "year" 2016; numP "horror" 68.7; numP "scifi" 75.2; numP "action" 95.3; numP "drama" 70.9; numP "comedy" 67.9];
    [numP "year" 2017; numP "horror" 59.3; numP "scifi" 79.4; numP "action" 94.0; numP "drama" 69.6; numP "comedy" 68.1];
    [numP "year" 2018; numP "horror" 71.2; numP "scifi" 83.1; numP "action" 90.8; numP "drama" 68.7; numP "comedy" 67.4];
    [numP "year" 2019; numP "horror" 63.8; numP "scifi" 84.8; numP "action" 92.7; numP "drama" 68.3; numP "comedy" 68.6];
    [numP "year" 2020; numP "horror" 69.5; numP "scifi" 87.4; numP "action" 88.9; numP "drama" 67.2; numP "comedy" 67.8];
    [numP "year" 2021; numP "horror" 58.9; numP "scifi" 90.6; numP "action" 91.3; numP "drama" 66.8; numP "comedy" 68.3];
    [numP "year" 2022; numP "horror" 70.6; numP "scifi" 92.7; numP "action" 93.5; numP "drama" 65.9; numP "comedy" 67.7];
    [numP "year" 2023; numP "horror" 62.4; numP "scifi" 95.3; numP "action" 94.8; numP "drama" 64.7; numP "comedy" 68.2];
    [numP "year" 2024; numP "horror" 68.1; numP "scifi" 98.6; numP "action" 96.2; numP "drama" 63.9; numP "comedy" 67.5]
  ].

(** The element tree the component returns, given the array bound to
    [data] and the objects written inline in props. *)
Definition tree (dataRef margin ylabel dot1 dot2 dot3 dot4 dot5 : value) : value :=
  el (Host "div") [strP "className" "w-full bg-white p-6 rounded-lg shadow"]
    [ el (Host "h2") [strP "className" "text-xl font-bold mb-4 text-gray-800"]
        [VStr "Genre Popularity Trends (2015-2024)"];
      el (Host "p") [strP "className" "text-sm text-gray-600 mb-4"]
        [VStr "Time series analysis reveals distinctive cyclical patterns in genre popularity, with horror exhibiting the strongest seasonality. Science fiction shows a significant increasing trend (β = 2.64, p < 0.01)."];
      el (Host "div") [strP "className" "h-80"]
        [ el (Component "ResponsiveContainer") [strP "width" "100%"; strP "height" "100%"]
            [ el (Component "LineChart") [("data", dataRef); ("margin", margin)]
                [ el (Component "CartesianGrid") [strP "strokeDasharray" "3 3"] [];
                  el (Component "XAxis") [strP "dataKey" "year"] [];
                  el (Component "YAxis") [("label", ylabel)] [];
                  el (Component "Tooltip") [] [];
                  el (Component "Legend") [] [];
                  el (Component "Line")
                    [strP "type" "monotone"; strP "dataKey" "horror"; strP "name" "Horror";
                     strP "stroke" "#d32f2f"; ("activeDot", dot1); numP "strokeWidth" 2] [];
                  el (Component "Line")
                    [strP "type" "monotone"; strP "dataKey" "scifi"; strP "name" "Science Fiction";
                     strP "stroke" "#2e7d32"; ("activeDot", dot2); numP "strokeWidth" 2] [];
                  el (Component "Line")
                    [strP "type" "monotone"; strP "dataKey" "action"; strP "name" "Action";
                     strP "stroke" "#1976d2"; ("activeDot", dot3); numP "strokeWidth" 2] [];
                  el (Component "Line")
                    [strP "type" "monotone"; strP "dataKey" "drama"; strP "name" "Drama";
                     strP "stroke" "#7b1fa2"; ("activeDot", dot4); numP "strokeWidth" 2] [];
                  el (Component "Line")
                    [strP "type" "monotone"; strP "dataKey" "comedy"; strP "name" "Comedy";
                     strP "stroke" "#ff9800"; ("activeDot", dot5); numP "strokeWidth" 2] []
                ] ] ];
      el (Host "div") [strP "className" "mt-4 text-sm text-gray-700"]
        [ el (Host "p") [] [el (Host "strong") [] [VStr "Key Findings:"]];
          el (Host "ul") [strP "className" "list-disc pl-5 mt-2"]
            [ el (Host "li") [] [VStr "Horror exhibits strong cyclical patterns, with distinct peaks and valleys indicating seasonal demand"];
              el (Host "li") [] [VStr "Science Fiction shows the strongest positive trend, gaining 26 popularity points over the decade"];
              el (Host "li") [] [VStr "Drama displays a modest but consistent declining trend (-0.9 points per year)"];
              el (Host "li") [] [VStr "Comedy demonstrates remarkable stability with minimal fluctuation (σ = 0.37)"];
              el (Host "li") [] [VStr "Action maintains high overall popularity with moderate fluctuations"]
            ] ]
    ].

(** The [return (...)] of the component, given the array bound to
    [data]: the object literals of the props in the order the JSX writes
    them, then the tree. *)
Definition markup (dataRef : value) : M value :=
  margin <- new_object [numP "top" 5; numP "right" 30; numP "left" 20; numP "bottom" 5] ;;
  ylabel <- new_object [strP "value" "Popularity Index"; numP "angle" (-90);
                        strP "position" "insideLeft"] ;;
  dot1 <- new_object [numP "r" 8] ;;
  dot2 <- new_object [numP "r" 8] ;;
  dot3 <- new_object [numP "r" 8] ;;
  dot4 <- new_object [numP "r" 8] ;;
  dot5 <- new_object [numP "r" 8] ;;
  ret (tree dataRef margin ylabel dot1 dot2 dot3 dot4 dot5).

(** The component: the array literal is evaluated on every call. *)
Definition GenreVisualization : M value :=
  dataRef <- array_of_objects data ;; markup dataRef.

End Genre.

(** ** budget-efficiency.jsx *)

Module Budget.

(** The four array literals, [const horrorData = [...]] and so on. *)
Definition horrorData : list (list (string * value)) :=
  [
    [numP "budget" 5.6; numP "revenue" 19.3; numP "efficiency" 3.45; strP "genre" "Horror"];
    [numP "budget" 8.2; numP "revenue" 29.1; numP "efficiency" 3.55; strP "genre" "Horror"];
    [numP "budget" 12.4; numP "revenue" 52.1; numP "efficiency" 4.20; strP "genre" "Horror"];
    [numP "budget" 7.3; numP "revenue" 17.5; numP "efficiency" 2.40; strP "genre" "Horror"];
    [numP "budget" 10.1; numP "revenue" 35.3; numP "efficiency" 3.49; strP "genre" "Horror"];
    [numP "budget" 4.8; numP "revenue" 19.2; numP "efficiency" 4.00; strP "genre" "Horror"];
    [numP "budget" 18.5; numP "revenue" 45.3; numP "efficiency" 2.45; strP "genre" "Horror"];
    [numP "budget" 9.7; numP "revenue" 28.2; numP "efficiency" 2.91; strP "genre" "Horror"];
    [numP "budget" 14.3; numP "revenue" 42.9; numP "efficiency" 3.00; strP "genre" "Horror"];
    [numP "budget" 6.5; numP "revenue" 22.8; numP "efficiency" 3.51; strP "genre" "Horror"]
  ].

Definition scifiData : list (list (string * value)) :=
  [
    [numP "budget" 120.5; numP "revenue" 187.9; numP "efficiency" 1.56; strP "genre" "Science Fiction"];
    [numP "budget" 155.3; numP "revenue" 210.2; numP "efficiency" 1.35; strP "genre" "Science Fiction"];
    [numP "budget" 183.7; numP "revenue" 312.3; numP "efficiency" 1.70; strP "genre" "Science Fiction"];
    [numP "budget" 92.8; numP "revenue" 139.2; numP "efficiency" 1.50; strP "genre" "Science Fiction"];
    [numP "budget" 146.2; numP "revenue" 255.9; numP "efficiency" 1.75; strP "genre" "Science Fiction"];
    [numP "budget" 175.4; numP "revenue" 245.6; numP "efficiency" 1.40; strP "genre" "Science Fiction"];
    [numP "budget" 87.5; numP "revenue" 131.2; numP "efficiency" 1.50; strP "genre" "Science Fiction"];
    [numP "budget" 134.8; numP "revenue" 242.6; numP "efficiency" 1.80; strP "genre" "Science Fiction"];
    [numP "budget" 167.2; numP "revenue" 317.7; numP "efficiency" 1.90; strP "genre" "Science Fiction"];
    [numP "budget" 105.1; numP "revenue" 147.1; numP "efficiency" 1.40; strP "genre" "Science Fiction"]
  ].

Definition actionData : list (list (string * value)) :=
  [
    [numP "budget" 85.3; numP "revenue" 195.3; numP "efficiency" 2.29; strP "genre" "Action"];
    [numP "budget" 112.7; numP "revenue" 293.0; numP "efficiency" 2.60; strP "genre" "Action"];
    [numP "budget" 127.4; numP "revenue" 280.3; numP "efficiency" 2.20; strP "genre" "Action"];
    [numP "budget" 94.6; numP "revenue" 264.9; numP "efficiency" 2.80; strP "genre" "Action"];
    [numP "budget" 143.8; numP "revenue" 359.5; numP "efficiency" 2.50; strP "genre" "Action"];
    [numP "budget" 76.3; numP "revenue" 183.1; numP "efficiency" 2.40; strP "genre" "Action"];
    [numP "budget" 105.9; numP "revenue" 212.9; numP "efficiency" 2.01; strP "genre" "Action"];
    [numP "budget" 135.6; numP "revenue" 326.8; numP "efficiency" 2.41; strP "genre" "Action"];
    [numP "budget" 88.7; numP "revenue" 230.6; numP "efficiency" 2.60; strP "genre" "Action"];
    [numP "budget" 118.3; numP "revenue" 295.8; numP "efficiency" 2.50; strP "genre" "Action"]
  ].

Definition dramaData : list (list (string * value)) :=
  [
    [numP "budget" 35.6; numP "revenue" 64.1; numP "efficiency" 1.80; strP "genre" "Drama"];
    [numP "budget" 28.3; numP "revenue" 59.4; numP "efficiency" 2.10; strP "genre" "Drama"];
    [numP "budget" 42.7; numP "revenue" 72.6; numP "efficiency" 1.70; strP "genre" "Drama"];
    [numP "budget" 15.4; numP "revenue" 32.3; numP "efficiency" 2.10; strP "genre" "Drama"];
    [numP "budget" 24.8; numP "revenue" 49.6; numP "efficiency" 2.00; strP "genre" "Drama"];
    [numP "budget" 38.5; numP "revenue" 65.5; numP "efficiency" 1.70; strP "genre" "Drama"];
    [numP "budget" 19.6; numP "revenue" 35.3; numP "efficiency" 1.80; strP "genre" "Drama"];
    [numP "budget" 52.3; numP "revenue" 99.4; numP "efficiency" 1.90; strP "genre" "Drama"];
    [numP "budget" 33.7; numP "revenue" 60.7; numP "efficiency" 1.80; strP "genre" "Drama"];
    [numP "budget" 47.1; numP "revenue" 85.2; numP "efficiency" 1.81; strP "genre" "Drama"]
  ].

(** [const genreStats = { 'Horror': 3.29, ... }], commented in the source
    as the average efficiency by genre. *)
Definition genreStats : list (string * value) :=
  [numP "Horror" 3.29; numP "Science Fiction" 1.60; numP "Action" 2.46; numP "Drama" 1.87].

(** The array constants of a call, as references. *)
Record arrays : Type := Arrays {
  horrorRef : value;
  scifiRef : value;
  actionRef : value;
  dramaRef : value
}.

(** All the constants of a call. *)
Record scope : Type := Scope {
  sources : arrays;
  combinedRef : value;
  statsRef : value
}.

Definition literals : M arrays :=
  h <- array_of_objects horrorData ;;
  s <- array_of_objects scifiData ;;
  a <- array_of_objects actionData ;;
  d <- array_of_objects dramaData ;;
  ret (Arrays h s a d).

(** [const combinedData = [...horrorData, ...scifiData, ...actionData,
    ...dramaData]], then [genreStats]. *)
Definition derived (src : arrays) : M scope :=
  combinedData <- array_of_spreads
    [horrorRef src; scifiRef src; actionRef src; dramaRef src] ;;
  stats <- new_object genreStats ;;
  ret (Scope src combinedData stats).

Definition declarations : M scope :=
  src <- literals ;; derived src.

(** [const CustomTooltip = ({ active, payload }) => ...]. *)
Definition CustomTooltip (props : value) : M value :=
  active <- get props "active" ;;
  payload <- get props "payload" ;;
  shown <- (if truthy active then
              if truthy payload then
                len <- get payload "length" ;; ret (truthy len)
              else ret false
            else ret false) ;;
  if (shown : bool) then
    item <- index payload 0 ;;
    data <- get item "payload" ;;
    genre <- get data "genre" ;;
    budget <- get data "budget" ;;
    budgetText <- toFixed budget 1 ;;
    revenue <- get data "revenue" ;;
    revenueText <- toFixed revenue 1 ;;
    efficiency <- get data "efficiency" ;;
    efficiencyText <- toFixed efficiency 2 ;;
    ret (el (Host "div") [strP "className" "bg-white p-4 border border-gray-300 rounded shadow"]
           [ el (Host "p") [strP "className" "font-bold"] [genre];
             el (Host "p") [] [VStr "Budget: $"; budgetText; VStr "M"];
             el (Host "p") [] [VStr "Revenue: $"; revenueText; VStr "M"];
             el (Host "p") [] [VStr "Efficiency: "; efficiencyText; VStr "x"] ])
  else ret VNull.

(** [const renderScatter = (data, color) => ...]; it closes over
    [genreStats]. *)
Definition renderScatter (stats : value) (data color : value) : M value :=
  first <- index data 0 ;;
  genre <- get first "genre" ;;
  genreText <- to_str genre ;;
  first' <- index data 0 ;;
  genre' <- get first' "genre" ;;
  avg <- get_computed stats genre' ;;
  avgText <- to_str avg ;;
  line <- new_object [("stroke", color); numP "strokeWidth" 1] ;;
  ret (el (Component "Scatter")
         [("name", VStr (genreText ++ " (avg " ++ avgText ++ "x)")%string);
          ("data", data); ("fill", color); ("line", line); strP "lineType" "fitting"] []).

Definition tree (margin xdomain ydomain zrange s1 s2 s3 s4 : value) : value :=
  el (Host "div") [strP "className" "w-full bg-white p-6 rounded-lg shadow"]
    [ el (Host "h2") [strP "className" "text-xl font-bold mb-4 text-gray-800"]
        [VStr "Genre-Specific Budget Efficiency Analysis"];
      el (Host "p") [strP "className" "text-sm text-gray-600 mb-4"]
        [VStr "Budget-to-revenue modeling demonstrates non-linear relationships with genre-specific efficiency patterns. Horror films demonstrate the highest ROI efficiency while science fiction shows highest absolute returns."];
      el (Host "div") [strP "className" "h-80"]
        [ el (Component "ResponsiveContainer") [strP "width" "100%"; strP "height" "100%"]
            [ el (Component "ScatterChart") [("margin", margin)]
                [ el (Component "CartesianGrid") [strP "strokeDasharray" "3 3"] [];
                  el (Component "XAxis")
                    [strP "type" "number"; strP "dataKey" "budget"; strP "name" "Budget";
                     strP "unit" "M"; ("domain", xdomain)]
                    [ el (Component "Label")
                        [strP "value" "Budget ($ millions)"; numP "offset" (-10);
                         strP "position" "insideBottom"] [] ];
                  el (Component "YAxis")
                    [strP "type" "number"; strP "dataKey" "revenue"; strP "name" "Revenue";
                     strP "unit" "M"; ("domain", ydomain)]
                    [ el (Component "Label")
                        [strP "value" "Revenue ($ millions)"; numP "angle" (-90);
                         strP "position" "insideLeft"] [] ];
                  el (Component "ZAxis")
                    [strP "type" "number"; ("range", zrange); strP "dataKey" "efficiency";
                     strP "name" "Efficiency"] [];
                  el (Component "Tooltip")
                    [("content", el (Component "CustomTooltip") [] [])] [];
                  el (Component "Legend") [strP "verticalAlign" "top"; numP "height" 50] [];
                  s1; s2; s3; s4
                ] ] ];
      el (Host "div") [strP "className" "mt-4 text-sm text-gray-700"]
        [ el (Host "p") [] [el (Host "strong") [] [VStr "Key Findings:"]];
          el (Host "ul") [strP "className" "list-disc pl-5 mt-2"]
            [ el (Host "li") [] [VStr "Horror films show the highest average efficiency ratio (3.29x) with lower initial investment"];
              el (Host "li") [] [VStr "Science fiction films have the highest budgets but lower average efficiency (1.60x)"];
              el (Host "li") [] [VStr "Action films show balanced performance with moderate budgets and efficiency (2.46x)"];
              el (Host "li") [] [VStr "Drama productions maintain steady efficiency (1.87x) across varying budget levels"];
              el (Host "li") [] [VStr "Budget-to-revenue relationship shows diminishing returns at higher budget levels across all genres"]
            ] ]
    ].

(** The [return (...)] of the component. *)
Definition markup (sc : scope) : M value :=
  margin <- new_object [numP "top" 20; numP "right" 20; numP "bottom" 20; numP "left" 20] ;;
  xdomain <- new_array [num 0; num 200] ;;
  ydomain <- new_array [num 0; num 400] ;;
  zrange <- new_array [num 60; num 400] ;;
  s1 <- renderScatter (statsRef sc) (horrorRef (sources sc)) (VStr "#d32f2f") ;;
  s2 <- renderScatter (statsRef sc) (scifiRef (sources sc)) (VStr "#2e7d32") ;;
  s3 <- renderScatter (statsRef sc) (actionRef (sources sc)) (VStr "#1976d2") ;;
  s4 <- renderScatter (statsRef sc) (dramaRef (sources sc)) (VStr "#7b1fa2") ;;
  ret (tree margin xdomain ydomain zrange s1 s2 s3 s4).

Definition BudgetEfficiencyAnalysis : M value :=
  sc <- declarations ;; markup sc.

End Budget.

(** ** The studio performance component (src/unnamed/part_000) *)

Module Studio.

(** [const data = [ {studio: 'Paramount', ...}, ... ]]. *)
Definition data : list (list (string * value)) :=
  [
    [strP "studio" "Paramount"; numP "riskAdjustedReturn" 8.31; numP "profitRatio" 3.82; numP "risk" 0.46; numP "genreDiversity" 0.91];
    [strP "studio" "Universal Pictures"; numP "riskAdjustedReturn" 7.37; numP "profitRatio" 2.04; numP "risk" 0.28; numP "genreDiversity" 0.81];
    [strP "studio" "Walt Disney Pictures"; numP "riskAdjustedReturn" 6.22; numP "profitRatio" 3.41; numP "risk" 0.55; numP "genreDiversity" 0.57];
    [strP "studio" "A24"; numP "riskAdjustedReturn" 5.36; numP "profitRatio" 3.25; numP "risk" 0.61; numP "genreDiversity" 0.94];
    [strP "studio" "Marvel Studios"; numP "riskAdjustedReturn" 4.80; numP "profitRatio" 1.27; numP "risk" 0.26; numP "genreDiversity" 0.38];
    [strP "studio" "Blumhouse Productions"; numP "riskAdjustedReturn" 4.37; numP "profitRatio" 3.45; numP "risk" 0.79; numP "genreDiversity" 0.62]
  ].

(** [rar > k] against a numeric literal [k]. *)
Definition exceeds (rar : value) (k : Q) : M bool :=
  n <- to_number rar ;; ret (gt n (Fin k)).

(** [const getColorByRAR = (rar) => ...]: three tests in turn, the first
    that holds returns. *)
Definition getColorByRAR (rar : value) : M value :=
  above7 <- exceeds rar 7 ;;
  if (above7 : bool) then ret (VStr "#1a237e") else
  (above5 <- exceeds rar 5 ;;
   if (above5 : bool) then ret (VStr "#283593") else
   (above4 <- exceeds rar 4 ;;
    if (above4 : bool) then ret (VStr "#3949ab") else
    ret (VStr "#5c6bc0"))).

(** The Tooltip's [formatter={(value, name, props) => ...}]. *)
Definition formatter (val name props : value) : M value :=
  if is_string name "riskAdjustedReturn" then
    text <- toFixed val 2 ;;
    new_array [text; VStr "Risk-Adjusted Return"]
  else new_array [val; name].

(** The Tooltip's [labelFormatter={(label) => `Studio: ${label}`}]. *)
Definition labelFormatter (label : value) : M value :=
  text <- to_str label ;; ret (VStr ("Studio: " ++ text)%string).

(** The callback of the first [data.map], one [Cell] per entry. *)
Definition cell_of (entry : value) (index : nat) : M value :=
  indexText <- to_str (VNum (of_nat index)) ;;
  rar <- get entry "riskAdjustedReturn" ;;
  fill <- getColorByRAR rar ;;
  ret (el (Component "Cell") [("key", VStr ("cell-" ++ indexText)%string); ("fill", fill)] []).

(** The callback of the second [data.map], one table row per entry. *)
Definition row_of (studio : value) (index : nat) : M value :=
  name <- get studio "studio" ;;
  profitRatio <- get studio "profitRatio" ;;
  profitText <- toFixed profitRatio 2 ;;
  risk <- get studio "risk" ;;
  riskText <- toFixed risk 2 ;;
  diversity <- get studio "genreDiversity" ;;
  diversityText <- toFixed diversity 2 ;;
  ret (el (Host "tr")
         [("key", VNum (of_nat index));
          strP "className" (if Nat.eqb (index mod 2) 0 then "bg-gray-50" else "bg-white")]
         [ el (Host "td") [strP "className" "py-2 px-4 border-b"] [name];
           el (Host "td") [strP "className" "py-2 px-4 border-b"] [profitText; VStr "x"];
           el (Host "td") [strP "className" "py-2 px-4 border-b"] [riskText];
           el (Host "td") [strP "className" "py-2 px-4 border-b"] [diversityText] ]).

Definition tree (dataRef margin ylabel cells rows : value) : value :=
  el (Host "div") [strP "className" "w-full bg-white p-6 rounded-lg shadow"]
    [ el (Host "h2") [strP "className" "text-xl font-bold mb-4 text-gray-800"]
        [VStr "Studio Performance Analysis (Risk-Adjusted Returns)"];
      el (Host "p") [strP "className" "text-sm text-gray-600 mb-4"]
        [VStr "Analysis of production company portfolios reveals significant variance in risk-adjusted returns. Companies with genre-diversified portfolios demonstrate more stable performance across market conditions."];
      el (Host "div") [strP "className" "h-80"]
        [ el (Component "ResponsiveContainer") [strP "width" "100%"; strP "height" "100%"]
            [ el (Component "BarChart") [("data", dataRef); ("margin", margin)]
                [ el (Component "CartesianGrid") [strP "strokeDasharray" "3 3"] [];
                  el (Component "XAxis")
                    [strP "dataKey" "studio"; numP "angle" (-45); strP "textAnchor" "end";
                     numP "height" 70; numP "interval" 0] [];
                  el (Component "YAxis") [("label", ylabel)] [];
                  el (Component "Tooltip")
                    [("formatter", VClosure "formatter");
                     ("labelFormatter", VClosure "labelFormatter")] [];
                  el (Component "Legend") [] [];
                  el (Component "Bar")
                    [strP "dataKey" "riskAdjustedReturn"; strP "fill" "#8884d8";
                     strP "name" "Risk-Adjusted Return"]
                    [cells]
                ] ] ];
      el (Host "div") [strP "className" "mt-6"]
        [ el (Host "h3") [strP "className" "font-semibold text-lg mb-2"]
            [VStr "Studio Portfolio Characteristics"];
          el (Host "div") [strP "className" "overflow-x-auto"]
            [ el (Host "table") [strP "className" "min-w-full bg-white border border-gray-300"]
                [ el (Host "thead") []
                    [ el (Host "tr") []
                        [ el (Host "th") [strP "className" "py-2 px-4 border-b"] [VStr "Studio"];
                          el (Host "th") [strP "className" "py-2 px-4 border-b"] [VStr "Profit Ratio"];
                          el (Host "th") [strP "className" "py-2 px-4 border-b"] [VStr "Risk Level"];
                          el (Host "th") [strP "className" "py-2 px-4 border-b"] [VStr "Genre Diversity"] ] ];
                  el (Host "tbody") [] [rows] ] ] ];
      el (Host "div") [strP "className" "mt-4 text-sm text-gray-700"]
        [ el (Host "p") [] [el (Host "strong") [] [VStr "Key Findings:"]];
          el (Host "ul") [strP "className" "list-disc pl-5 mt-2"]
            [ el (Host "li") [] [VStr "Paramount demonstrates exceptional risk-adjusted performance despite moderate risk levels"];
              el (Host "li") [] [VStr "Highly genre-diversified studios (A24, Paramount) tend to achieve stronger risk-adjusted returns"];
              el (Host "li") [] [VStr "Studios with specialised focus (Marvel) show lower variability but potentially lower profit ratios"];
              el (Host "li") [] [VStr "Universal Pictures achieves strong returns with relatively low risk through portfolio diversification"];
              el (Host "li") [] [VStr "Correlation between genre diversity and risk-adjusted returns: r = 0.68 (p < 0.01)"]
            ] ]
    ].

(** The [return (...)] of the component, given the array bound to
    [data]. *)
Definition markup (dataRef : value) : M value :=
  margin <- new_object [numP "top" 20; numP "right" 30; numP "left" 20; numP "bottom" 70] ;;
  ylabel <- new_object [strP "value" "Risk-Adjusted Return"; numP "angle" (-90);
                        strP "position" "insideLeft"] ;;
  cells <- array_map dataRef cell_of ;;
  rows <- array_map dataRef row_of ;;
  ret (tree dataRef margin ylabel cells rows).

Definition StudioPerformance : M value :=
  dataRef <- array_of_objects data ;; markup dataRef.

End Studio.

(** ** What a render shows

  The tree a component returns holds references; what React and
  Recharts are handed is that tree with every reference followed into
  the heap. *)

Module Snapshot.

#[warnings="-register-all"]
Inductive snapshot : Type :=
| SUndefined
| SNull
| SBool (b : bool)
| SNum (n : number)
| SStr (s : string)
| SObject (fields : list (string * snapshot))
| SArray (items : list snapshot)
| SClosure (name : string)
| SElement (type : etype) (props : list (string * snapshot)) (children : list snapshot)
| SUnresolved.

Section Inline.
Variable resolve : loc -> snapshot.

Fixpoint inline (v : value) : snapshot :=
  match v with
  | VUndefined => SUndefined
  | VNull => SNull
  | VBool b => SBool b
  | VNum n => SNum n
  | VStr s => SStr s
  | VRef l => resolve l
  | VClosure name => SClosure name
  | VElem type props children =>
      SElement type (map (fun kv => (fst kv, inline (snd kv))) props)
               (map inline children)
  end.
End Inline.

(** [v] with its references followed [fuel] levels deep. *)
Fixpoint view (fuel : nat) (h : heap) (v : value) : snapshot :=
  inline
    (fun l =>
       match fuel with
       | O => SUnresolved
       | S fuel' =>
           match nth_error h l with
           | Some (CObj fields) =>
               SObject (map (fun kv => (fst kv, view fuel' h (snd kv))) fields)
           | Some (CArr items) => SArray (map (view fuel' h) items)
           | None => SUnresolved
           end
       end) v.

(** A value that holds no reference, as a snapshot. *)
Definition quote (v : value) : snapshot := view 0 [] v.

(** The rows of an array literal of object literals, as the array shows
    once built. *)
Definition quote_rows (rows : list (list (string * value))) : snapshot :=
  SArray (map (fun r => SObject (map (fun kv => (fst kv, quote (snd kv))) r)) rows).

(** References in the trees of this development sit at most four levels
    above a primitive. *)
Definition depth : nat := 4.

(** What a result shows of the value [pick] takes from it, in the heap
    the computation leaves. *)
Definition seen {A} (pick : A -> value) (r : outcome A * heap) : option snapshot :=
  match r with
  | (Ok a, h) => Some (view depth h (pick a))
  | _ => None
  end.

(** What the result of a render shows: the snapshot of the returned
    tree. *)
Definition shown (r : outcome value * heap) : option snapshot :=
  seen (fun v => v) r.

(** *** Reading a snapshot *)

Definition is_component (name : string) (s : snapshot) : bool :=
  match s with
  | SElement (Component c) _ _ => String.eqb c name
  | _ => false
  end.

Fixpoint sfield (key : string) (fields : list (string * snapshot)) : option snapshot :=
  match fields with
  | [] => None
  | (k, v) :: rest => if String.eqb k key then Some v else sfield key rest
  end.

(** The prop [key] of an element. *)
Definition prop (key : string) (s : snapshot) : option snapshot :=
  match s with
  | SElement _ props _ => sfield key props
  | _ => None
  end.

Definition children_of (s : snapshot) : list snapshot :=
  match s with
  | SElement _ _ children => children
  | _ => []
  end.

Definition items (s : snapshot) : list snapshot :=
  match s with
  | SArray xs => xs
  | _ => []
  end.

Definition keys (s : snapshot) : list string :=
  match s with
  | SObject fields => map fst fields
  | _ => []
  end.

(** The field [key] of an object. *)
Definition at_key (key : string) (s : snapshot) : option snapshot :=
  match s with
  | SObject fields => sfield key fields
  | _ => None
  end.

Definition is_number (o : option snapshot) : bool :=
  match o with Some (SNum _) => true | _ => false end.

Definition is_text (o : option snapshot) : bool :=
  match o with Some (SStr _) => true | _ => false end.

(** Every element of component type [name] in [s], in document order;
    the search goes through props, children and arrays. *)
Fixpoint elements (name : string) (s : snapshot) : list snapshot :=
  match s with
  | SElement type props children =>
      (if is_component name s then [s] else [])
      ++ flat_map (fun kv => elements name (snd kv)) props
      ++ flat_map (elements name) children
  | SArray xs => flat_map (elements name) xs
  | SObject fields => flat_map (fun kv => elements name (snd kv)) fields
  | _ => []
  end.

(** The rows of [rows] that hold a number under [key]: the points a
    series keyed by [key] has to draw. *)
Definition points (key : string) (rows : list snapshot) : list snapshot :=
  filter (fun r => is_number (at_key key r)) rows.

End Snapshot.
Export Snapshot.


(** ** Renders on a heap that is not empty

    A render may start on a heap that earlier renders have filled. Two
    relations on computations describe what that heap can do to it. *)

Module Frame.

(** [shift n x] is [x] with every reference moved up by [n]. *)
Class Shift (A : Type) : Type := shift : nat -> A -> A.

Fixpoint shift_value (n : nat) (v : value) : value :=
  match v with
  | VRef l => VRef (n + l)
  | VElem type props children =>
      VElem type (map (fun kv => (fst kv, shift_value n (snd kv))) props)
            (map (shift_value n) children)
  | _ => v
  end.

#[export] Instance Shift_value : Shift value := shift_value.
#[export] Instance Shift_string : Shift string := fun _ s => s.
#[export] Instance Shift_bool : Shift bool := fun _ b => b.
#[export] Instance Shift_nat : Shift nat := fun _ k => k.
#[export] Instance Shift_number : Shift number := fun _ x => x.
#[export] Instance Shift_list {A} `{Shift A} : Shift (list A) :=
  fun n => map (shift n).
#[export] Instance Shift_prod {A B} `{Shift A} `{Shift B} : Shift (A * B) :=
  fun n p => (shift n (fst p), shift n (snd p)).
#[export] Instance Shift_cell : Shift cell :=
  fun n c =>
    match c with
    | CObj fields => CObj (shift n fields)
    | CArr items => CArr (shift n items)
    end.
#[export] Instance Shift_outcome {A} `{Shift A} : Shift (outcome A) :=
  fun n o =>
    match o with
    | Ok a => Ok (shift n a)
    | Throw e => Throw e
    | Unmodelled w => Unmodelled w
    end.
#[export] Instance Shift_arrays : Shift Budget.arrays :=
  fun n a =>
    Budget.Arrays (shift n (Budget.horrorRef a)) (shift n (Budget.scifiRef a))
                  (shift n (Budget.actionRef a)) (shift n (Budget.dramaRef a)).
#[export] Instance Shift_scope : Shift Budget.scope :=
  fun n sc =>
    Budget.Scope (shift n (Budget.sources sc)) (shift n (Budget.combinedRef sc))
                 (shift n (Budget.statsRef sc)).

(** [m'] is [m] moved: started on [own] moved up behind any [frame] of
    [n] cells, [m'] ends as [m] does on [own] alone, moved up the same
    way, and leaves [frame] as it was. *)
Definition relocated {A} `{Shift A} (n : nat) (m' m : M A) : Prop :=
  forall (frame own : heap), List.length frame = n ->
    m' (frame ++ map (shift n) own)
    = (shift n (fst (m own)), frame ++ map (shift n) (snd (m own))).

(** [m] only ever adds cells: the heap it leaves is the heap it found
    with new cells behind. *)
Definition appends {A} (m : M A) : Prop :=
  forall h : heap, exists new : heap, snd (m h) = h ++ new.

(** [m] leaves the heap as it found it. *)
Definition reads_only {A} (m : M A) : Prop :=
  forall h : heap, snd (m h) = h.

End Frame.
Export Frame.

(** ** What the specification speaks about *)

Module Stated.

Inductive component : Type :=
| TheGenreVisualization
| TheBudgetEfficiencyAnalysis
| TheStudioPerformance.

Definition render (c : component) : M value :=
  match c with
  | TheGenreVisualization => Genre.GenreVisualization
  | TheBudgetEfficiencyAnalysis => Budget.BudgetEfficiencyAnalysis
  | TheStudioPerformance => Studio.StudioPerformance
  end.

(** The heap that rendering [earlier], one after the other, leaves behind
    when started on [h]. *)
Fixpoint heap_after (earlier : list component) (h : heap) : heap :=
  match earlier with
  | [] => h
  | c :: rest => heap_after rest (snd (render c h))
  end.

Definition is_ok {A} (o : outcome A) : bool :=
  match o with Ok _ => true | _ => false end.

(** The points a series draws: the rows of the chart's data that hold a
    number under the series' [dataKey]. *)
Definition series_points (rows : list snapshot) (series : snapshot) : list snapshot :=
  match prop "dataKey" series with
  | Some (SStr key) => points key rows
  | _ => []
  end.

(** *** The callbacks as the chart library calls them

    Recharts calls a custom tooltip with [active] and a [payload] array
    whose first item carries, under [payload], the data entry under the
    pointer. *)
Definition hover (entry active : value) : M value :=
  item <- new_object [("payload", entry)] ;;
  payload <- new_array [item] ;;
  props <- new_object [("active", active); ("payload", payload)] ;;
  Budget.CustomTooltip props.

(** The tooltip over entry [i] of [combinedData]. *)
Definition hover_combined (i : nat) (active : value) : M value :=
  sc <- Budget.declarations ;;
  entry <- index (Budget.combinedRef sc) i ;;
  hover entry active.

(** The tooltip element as the JSX writes it, [<CustomTooltip />]: no
    props at all. *)
Definition tooltip_unset : M value :=
  props <- new_object [] ;; Budget.CustomTooltip props.

(** One of the four calls [renderScatter(horrorData, "#d32f2f")], ... as
    the component makes it, with its constants in scope. *)
Definition scatter_call (pick : Budget.arrays -> value) (colour : string) : M value :=
  sc <- Budget.declarations ;;
  Budget.renderScatter (Budget.statsRef sc) (pick (Budget.sources sc)) (VStr colour).

(** [renderScatter] on an array with no entry. *)
Definition scatter_of_nothing : M value :=
  stats <- new_object Budget.genreStats ;;
  nothing <- new_array [] ;;
  Budget.renderScatter stats nothing (VStr "#000000").

(** [getColorByRAR] on entry [i] of the studio data. *)
Definition studio_colour (i : nat) : M value :=
  d <- array_of_objects Studio.data ;;
  entry <- index d i ;;
  rar <- get entry "riskAdjustedReturn" ;;
  Studio.getColorByRAR rar.

(** The tooltip's formatter on the value Recharts passes for entry [i]
    of the studio data, under the series name [name]. *)
Definition studio_format (i : nat) (name : string) : M value :=
  d <- array_of_objects Studio.data ;;
  entry <- index d i ;;
  rar <- get entry "riskAdjustedReturn" ;;
  Studio.formatter rar (VStr name) VUndefined.

(** *** Programs the components are not

    A call that writes through [combinedData], and one that pushes onto
    [horrorData]: what a mutation would look like in this model. *)
Definition budget_overwritten : M Budget.scope :=
  sc <- Budget.declarations ;;
  first <- index (Budget.combinedRef sc) 0 ;;
  _ <- set_prop first "budget" (num 0) ;;
  ret sc.

Definition budget_pushed : M Budget.scope :=
  sc <- Budget.declarations ;;
  extra <- new_object [numP "budget" 1; numP "revenue" 1; numP "efficiency" 1;
                       strP "genre" "Horror"] ;;
  _ <- array_push (Budget.horrorRef (Budget.sources sc)) extra ;;
  ret sc.

(** *** The constants of a call, kept until its tree is built *)

Definition genre_kept : M value :=
  dataRef <- array_of_objects Genre.data ;;
  _ <- Genre.markup dataRef ;;
  ret dataRef.

Definition budget_kept : M Budget.scope :=
  sc <- Budget.declarations ;;
  _ <- Budget.markup sc ;;
  ret sc.

Definition studio_kept : M value :=
  dataRef <- array_of_objects Studio.data ;;
  _ <- Studio.markup dataRef ;;
  ret dataRef.

(** *** Numbers of the budget rows *)

Definition number_at (key : string) (row : list (string * value)) : option Q :=
  match field key row with
  | Some (VNum (Fin q)) => Some q
  | _ => None
  end.

(** To two decimal places: the nearest hundredth, the upper one on a tie;
    and the hundredth just below and just above. *)
Definition round2 (q : Q) : Q := (Qfloor (q * 100 + (1 # 2)) # 100)%Q.
Definition floor2 (q : Q) : Q := (Qfloor (q * 100) # 100)%Q.
Definition ceil2 (q : Q) : Q := (Qceiling (q * 100) # 100)%Q.

(** The row's [efficiency] is its [revenue / budget] as [rounding] gives
    it. *)
Definition efficiency_is_ratio (rounding : Q -> Q) (row : list (string * value)) : bool :=
  match number_at "budget" row, number_at "revenue" row, number_at "efficiency" row with
  | Some b, Some r, Some e => Qeq_bool (rounding (r / b)%Q) e
  | _, _, _ => false
  end.

Definition efficiencies (rows : list (list (string * value))) : list Q :=
  flat_map (fun row => match number_at "efficiency" row with
                       | Some e => [e]
                       | None => []
                       end) rows.

Definition mean (l : list Q) : Q :=
  (fold_right Qplus 0 l / inject_Z (Z.of_nat (List.length l)))%Q.

(** The entry of [genreStats] for [genre] is the mean efficiency of
    [rows] to two places. *)
Definition stat_is_mean (rounding : Q -> Q) (genre : string)
           (rows : list (list (string * value))) : bool :=
  match number_at genre Budget.genreStats with
  | Some s => Qeq_bool (rounding (mean (efficiencies rows))) s
  | None => false
  end.

(** *** The figures the budget chart reports *)

(** The four genres, each with the array of its records. *)
Definition genre_arrays : list (string * list (list (string * value))) :=
  [("Horror", Budget.horrorData); ("Science Fiction", Budget.scifiData);
   ("Action", Budget.actionData); ("Drama", Budget.dramaData)].

(** The entry of [genreStats] for [genre] lies within [tolerance] of the
    mean efficiency of [rows]. *)
Definition stat_near_mean (tolerance : Q) (genre : string)
           (rows : list (list (string * value))) : bool :=
  match number_at genre Budget.genreStats with
  | Some s => Qle_bool (Qabs (s - mean (efficiencies rows))) tolerance
  | None => false
  end.

(** The texts written directly inside the host elements [tag] of a tree,
    in document order. *)
Fixpoint texts_of (tag : string) (s : snapshot) : list string :=
  match s with
  | SElement type props children =>
      (match type with
       | Host t =>
           if String.eqb t tag
           then flat_map (fun c => match c with SStr x => [x] | _ => [] end) children
           else []
       | Component _ => []
       end)
      ++ flat_map (texts_of tag) children
  | _ => []
  end.

Definition mentions (part text : string) : bool :=
  match String.index 0 part text with Some _ => true | None => false end.

(** The entry of [genreStats] for [genre] the way the component's key
    findings write such a figure: to two decimals, in brackets, with an
    x behind. *)
Definition figure (genre : string) : option string :=
  match field genre Budget.genreStats with
  | Some (VNum x) =>
      option_map (fun t => ("(" ++ t ++ "x)")%string) (Num.to_fixed x 2)
  | _ => None
  end.

(** The list items under Key Findings, and the names of the four series,
    in the tree the component returns. *)
Definition key_findings : list string :=
  match shown (Budget.BudgetEfficiencyAnalysis []) with
  | Some s => texts_of "li" s
  | None => []
  end.

Definition legend_names : list (option snapshot) :=
  match shown (Budget.BudgetEfficiencyAnalysis []) with
  | Some s => map (prop "name") (elements "Scatter" s)
  | None => []
  end.

(** The key finding at the position of each genre mentions that genre's
    figure. *)
Fixpoint findings_mention (genres : list string) (findings : list string) : bool :=
  match genres, findings with
  | [], _ => true
  | g :: gs, f :: fs =>
      match figure g with
      | Some text => mentions text f && findings_mention gs fs
      | None => false
      end
  | _ :: _, [] => false
  end.

(** *** Tiers of [getColorByRAR] *)

(** The tier of a colour, by the threshold that yields it: 3 above 7,
    2 above 5, 1 above 4, 0 otherwise. *)
Definition tier (colour : value) : option nat :=
  if is_string colour "#1a237e" then Some 3
  else if is_string colour "#283593" then Some 2
  else if is_string colour "#3949ab" then Some 1
  else if is_string colour "#5c6bc0" then Some 0
  else None.

End Stated.
Export Stated.

(** ** Rows other than the literal ones *)

Module More.

(** The number a studio record holds as its return, when it holds one. *)
Definition return_of (row : list (string * value)) : option number :=
  match field "riskAdjustedReturn" row with
  | Some (VNum x) => Some x
  | _ => None
  end.

(** What [row.key.toFixed(2)] prints, when [key] holds a number that
    prints. *)
Definition printed2 (key : string) (row : list (string * value)) : option string :=
  match field key row with
  | Some (VNum x) => Num.to_fixed x 2
  | _ => None
  end.

Definition is_some {A} (o : option A) : bool :=
  match o with Some _ => true | None => false end.

(** A record the studio chart can colour and the table can print. *)
Definition studio_row_ok (row : list (string * value)) : bool :=
  is_some (return_of row)
  && is_some (printed2 "profitRatio" row)
  && is_some (printed2 "risk" row)
  && is_some (printed2 "genreDiversity" row).

Definition td (children : list value) : value :=
  el (Host "td") [strP "className" "py-2 px-4 border-b"] children.

(** The table row of the studio at position [i]: grey on even positions,
    white on odd ones. *)
Definition table_row (i : nat) (studio : value) (profit risk diversity : string) : value :=
  el (Host "tr")
     [("key", VNum (of_nat i));
      strP "className" (if Nat.even i then "bg-gray-50" else "bg-white")]
     [td [studio]; td [VStr profit; VStr "x"]; td [VStr risk]; td [VStr diversity]].

(** The [Cell] of the studio at position [i]. *)
Definition bar_cell (index : string) (fill : value) : value :=
  el (Component "Cell") [("key", VStr ("cell-" ++ index)%string); ("fill", fill)] [].

(** The tooltip the budget chart shows over a record. *)
Definition tooltip_box (genre : value) (budget revenue efficiency : string) : value :=
  el (Host "div") [strP "className" "bg-white p-4 border border-gray-300 rounded shadow"]
     [ el (Host "p") [strP "className" "font-bold"] [genre];
       el (Host "p") [] [VStr "Budget: $"; VStr budget; VStr "M"];
       el (Host "p") [] [VStr "Revenue: $"; VStr revenue; VStr "M"];
       el (Host "p") [] [VStr "Efficiency: "; VStr efficiency; VStr "x"] ].

(** What [row.key.toFixed(digits)] prints, when [key] holds a number that
    prints. *)
Definition printed (digits : nat) (key : string) (row : list (string * value))
  : option string :=
  match field key row with
  | Some (VNum x) => Num.to_fixed x digits
  | _ => None
  end.

(** The three cells [hover] adds before it calls the tooltip: the payload
    item, the payload array and the props, behind a heap of [n] cells. *)
Definition hover_cells (n : nat) (entry active : value) : heap :=
  [CObj [("payload", entry)];
   CArr [VRef n];
   CObj [("active", active); ("payload", VRef (S n))]].

(** The text a template literal writes for the entry of [stats] under
    [genre]: the number it holds, or the word for a missing entry. *)
Definition stat_text (stats : list (string * value)) (genre : string) : option string :=
  match field genre stats with
  | None => Some "undefined"
  | Some (VNum x) => Num.to_string x
  | Some _ => None
  end.

(** The text a Scatter's legend shows for the average of [genre], spelled
    out over the four entries of [genreStats]: 1.60 prints as 1.6, and a
    genre with no entry prints as the word undefined. *)
Definition legend_average (genre : string) : string :=
  if String.eqb "Horror" genre then "3.29"
  else if String.eqb "Science Fiction" genre then "1.6"
  else if String.eqb "Action" genre then "2.46"
  else if String.eqb "Drama" genre then "1.87"
  else "undefined".

Definition scatter_element (name : string) (data fill line : value) : value :=
  el (Component "Scatter")
     [("name", VStr name); ("data", data); ("fill", fill); ("line", line);
      strP "lineType" "fitting"] [].

Definition scatter_name (genre average : string) : string :=
  (genre ++ " (avg " ++ average ++ "x)")%string.

(** The budget chart over four arrays of rows: the component with its
    four array literals replaced. *)
Definition budget_literals (horror scifi action drama : list (list (string * value)))
  : M Budget.arrays :=
  h <- array_of_objects horror ;;
  s <- array_of_objects scifi ;;
  a <- array_of_objects action ;;
  d <- array_of_objects drama ;;
  ret (Budget.Arrays h s a d).

Definition budget_chart (horror scifi action drama : list (list (string * value)))
  : M value :=
  src <- budget_literals horror scifi action drama ;;
  sc <- Budget.derived src ;;
  Budget.markup sc.

(** The studio chart and the genre chart over any rows. *)
Definition studio_chart (rows : list (list (string * value))) : M value :=
  d <- array_of_objects rows ;; Studio.markup d.

Definition genre_chart (rows : list (list (string * value))) : M value :=
  d <- array_of_objects rows ;; Genre.markup d.

(** The cell at [d] is an array of [rows]' records, in order. *)
Definition holds_rows (h : heap) (d : loc) (rows : list (list (string * value))) : Prop :=
  exists items,
    nth_error h d = Some (CArr items)
    /\ List.length items = List.length rows
    /\ forall i row, nth_error rows i = Some row ->
                     exists r, nth_error items i = Some (VRef r)
                               /\ nth_error h r = Some (CObj row).

(** The array at [d] starts with a record whose genre is the string
    [genre], a name no object inherits. *)
Definition leads_with (h : heap) (d : loc) (genre : string) : Prop :=
  exists r rest row,
    nth_error h d = Some (CArr (VRef r :: rest))
    /\ nth_error h r = Some (CObj row)
    /\ field "genre" row = Some (VStr genre)
    /\ inherited genre = false.

(** The rows start with a record whose genre is the string [genre], a
    name no object inherits. *)
Definition starts_with_genre (rows : list (list (string * value))) (genre : string)
  : Prop :=
  exists row rest,
    rows = row :: rest
    /\ field "genre" row = Some (VStr genre)
    /\ inherited genre = false.

(** A value with no [toFixed] to call: undefined, null, a boolean, a
    string, an element, an array, or an object that has no such
    property. *)
Definition lacks_toFixed (h : heap) (v : value) : bool :=
  match v with
  | VNum _ | VClosure _ => false
  | VRef l =>
      match nth_error h l with
      | Some (CArr _) => true
      | Some (CObj fields) => negb (is_some (field "toFixed" fields))
      | None => false
      end
  | _ => true
  end.

(** The cell at [d] is an array with no entry. *)
Definition is_empty_array (h : heap) (v : value) : Prop :=
  exists d, v = VRef d /\ nth_error h d = Some (CArr []).

End More.
Export More.

Module FrameFacts.

Lemma shift_list_unfold {A} `{Shift A} (n : nat) (l : list A) :
  shift n l = map (shift n) l.
Proof. reflexivity. Qed.

Lemma relocated_ret {A} `{Shift A} (n : nat) (a' a : A) :
  a' = shift n a -> relocated n (ret a') (ret a).
Proof. intros -> frame own Hn. reflexivity. Qed.

Lemma relocated_bind {A B} `{Shift A} `{Shift B} (n : nat)
      (m' m : M A) (k' k : A -> M B) :
  relocated n m' m ->
  (forall a, relocated n (k' (shift n a)) (k a)) ->
  relocated n (bind m' k') (bind m k).
Proof.
  intros Hm Hk frame own Hn. unfold bind. rewrite (Hm frame own Hn).
  destruct (m own) as [[a | e | w] own']; cbn; try reflexivity.
  apply Hk. exact Hn.
Qed.

Lemma relocated_throw {A} `{Shift A} (n : nat) (e : exn) :
  relocated n (throw (A := A) e) (throw e).
Proof. intros frame own Hn. reflexivity. Qed.

Lemma relocated_unmodelled {A} `{Shift A} (n : nat) (w : string) :
  relocated n (unmodelled (A := A) w) (unmodelled w).
Proof. intros frame own Hn. reflexivity. Qed.

Lemma relocated_alloc (n : nat) (c' c : cell) :
  c' = shift n c -> relocated n (alloc c') (alloc c).
Proof.
  intros -> frame own Hn. unfold alloc. cbn.
  rewrite length_app, length_map, Hn, map_app, app_assoc.
  reflexivity.
Qed.

Lemma relocated_new_object (n : nat) (fields' fields : list (string * value)) :
  fields' = shift n fields -> relocated n (new_object fields') (new_object fields).
Proof. intros ->. apply relocated_alloc. reflexivity. Qed.

Lemma relocated_new_array (n : nat) (items' items : list value) :
  items' = shift n items -> relocated n (new_array items') (new_array items).
Proof. intros ->. apply relocated_alloc. reflexivity. Qed.

Lemma relocated_deref (n : nat) (l : loc) :
  relocated n (deref (n + l)) (deref l).
Proof.
  intros frame own Hn. unfold deref.
  rewrite nth_error_app2 by lia.
  replace (n + l - List.length frame) with l by lia.
  rewrite nth_error_map. destruct (nth_error own l); reflexivity.
Qed.

Lemma field_shift (n : nat) (key : string) (fields : list (string * value)) :
  field key (shift n fields) = option_map (shift n) (field key fields).
Proof.
  induction fields as [| [k v] rest IH]; cbn; [reflexivity |].
  destruct (String.eqb k key); [reflexivity | exact IH].
Qed.

Lemma nth_shift (n i : nat) (items : list value) :
  nth i (map (shift n) items) VUndefined = shift n (nth i items VUndefined).
Proof. exact (map_nth (shift n) items VUndefined i). Qed.

Lemma truthy_shift (n : nat) (v : value) : truthy (shift n v) = truthy v.
Proof. destruct v; reflexivity. Qed.

Lemma is_string_shift (n : nat) (v : value) (s : string) :
  is_string (shift n v) s = is_string v s.
Proof. destruct v; reflexivity. Qed.

Lemma relocated_get (n : nat) (v' v : value) (key : string) :
  v' = shift n v -> relocated n (get v' key) (get v key).
Proof.
  intros ->. destruct v; cbn;
    try apply relocated_throw; try apply relocated_unmodelled.
  - destruct (String.eqb key "length");
      [apply relocated_ret; reflexivity | apply relocated_unmodelled].
  - apply relocated_bind; [apply relocated_deref |].
    intros [fields | items]; cbn -[property].
    + unfold property. rewrite field_shift.
      destruct (field key fields); cbn -[inherited];
        [apply relocated_ret; reflexivity |].
      destruct (inherited key);
        [apply relocated_unmodelled | apply relocated_ret; reflexivity].
    + rewrite shift_list_unfold, length_map. destruct (String.eqb key "length");
        [apply relocated_ret; reflexivity | apply relocated_unmodelled].
Qed.

Lemma relocated_index (n : nat) (v' v : value) (i : nat) :
  v' = shift n v -> relocated n (index v' i) (index v i).
Proof.
  intros ->. destruct v; cbn;
    try apply relocated_throw; try apply relocated_unmodelled.
  apply relocated_bind; [apply relocated_deref |].
  intros [fields | items]; cbn; apply relocated_ret.
  - rewrite field_shift. destruct (field _ fields); reflexivity.
  - apply nth_shift.
Qed.

Lemma relocated_to_str (n : nat) (v' v : value) :
  v' = shift n v -> relocated n (to_str v') (to_str v).
Proof.
  intros ->. destruct v as [| | [|] | x | | | |]; cbn;
    try apply relocated_unmodelled; try (apply relocated_ret; reflexivity).
  destruct (Num.to_string x);
    [apply relocated_ret; reflexivity | apply relocated_unmodelled].
Qed.

Lemma relocated_no_method {A} `{Shift A} (n : nat) (name : string)
      (fields : list (string * value)) :
  relocated n (no_method (A := A) name (shift n fields)) (no_method name fields).
Proof.
  unfold no_method. rewrite field_shift.
  destruct (field name fields) as [[| | | | | | f |] |]; cbn;
    try apply relocated_throw; apply relocated_unmodelled.
Qed.

Lemma relocated_toFixed (n : nat) (v' v : value) (digits : nat) :
  v' = shift n v -> relocated n (toFixed v' digits) (toFixed v digits).
Proof.
  intros ->. destruct v as [| | | x | | l | |]; cbn -[Nat.ltb];
    try apply relocated_throw; try apply relocated_unmodelled.
  - destruct (Nat.ltb 100 digits); [apply relocated_throw |].
    destruct (Num.to_fixed x digits);
      [apply relocated_ret; reflexivity | apply relocated_unmodelled].
  - apply relocated_bind; [apply relocated_deref |].
    intros [fields | items]; cbn -[no_method];
      [apply relocated_no_method | apply relocated_throw].
Qed.

Lemma relocated_to_number (n : nat) (v' v : value) :
  v' = shift n v -> relocated n (to_number v') (to_number v).
Proof.
  intros ->. destruct v as [| | [|] | x | | | |]; cbn;
    try apply relocated_unmodelled; apply relocated_ret; reflexivity.
Qed.

Lemma relocated_get_computed (n : nat) (obj' obj k' k : value) :
  obj' = shift n obj -> k' = shift n k ->
  relocated n (get_computed obj' k') (get_computed obj k).
Proof.
  intros -> ->. unfold get_computed.
  apply relocated_bind; [apply relocated_to_str; reflexivity |].
  intros key. apply relocated_get. reflexivity.
Qed.

Lemma relocated_items_of (n : nat) (v' v : value) :
  v' = shift n v -> relocated n (items_of v') (items_of v).
Proof.
  intros ->. destruct v; cbn;
    try apply relocated_throw; try apply relocated_unmodelled.
  apply relocated_bind; [apply relocated_deref |].
  intros [fields | items]; cbn;
    [apply relocated_throw | apply relocated_ret; reflexivity].
Qed.

Lemma relocated_spread_all (n : nat) (vs' vs : list value) :
  vs' = shift n vs -> relocated n (spread_all vs') (spread_all vs).
Proof.
  intros ->. induction vs as [| v rest IH]; cbn.
  - apply relocated_ret. reflexivity.
  - apply relocated_bind; [apply relocated_items_of; reflexivity |].
    intros xs. apply relocated_bind; [exact IH |].
    intros ys. apply relocated_ret. apply eq_sym, map_app.
Qed.

Lemma relocated_array_of_spreads (n : nat) (vs' vs : list value) :
  vs' = shift n vs -> relocated n (array_of_spreads vs') (array_of_spreads vs).
Proof.
  intros ->. unfold array_of_spreads.
  apply relocated_bind; [apply relocated_spread_all; reflexivity |].
  intros xs. apply relocated_new_array. reflexivity.
Qed.

Lemma relocated_new_objects (n : nat) (rows' rows : list (list (string * value))) :
  rows' = shift n rows -> relocated n (new_objects rows') (new_objects rows).
Proof.
  intros ->. induction rows as [| r rest IH]; cbn.
  - apply relocated_ret. reflexivity.
  - apply relocated_bind; [apply relocated_new_object; reflexivity |].
    intros o. apply relocated_bind; [exact IH |].
    intros os. apply relocated_ret. reflexivity.
Qed.

Lemma relocated_array_of_objects (n : nat) (rows' rows : list (list (string * value))) :
  rows' = shift n rows ->
  relocated n (array_of_objects rows') (array_of_objects rows).
Proof.
  intros ->. unfold array_of_objects.
  apply relocated_bind; [apply relocated_new_objects; reflexivity |].
  intros os. apply relocated_new_array. reflexivity.
Qed.

Lemma relocated_array_length (n : nat) (v' v : value) :
  v' = shift n v -> relocated n (array_length v') (array_length v).
Proof.
  intros ->. destruct v; cbn -[no_method];
    try apply relocated_throw; try apply relocated_unmodelled.
  apply relocated_bind; [apply relocated_deref |].
  intros [fields | items]; cbn -[no_method]; [apply relocated_no_method |].
  rewrite shift_list_unfold, length_map. apply relocated_ret. reflexivity.
Qed.

Lemma relocated_map_from (n : nat) (arr' arr : value)
      (f' f : value -> nat -> M value) (count : nat) :
  arr' = shift n arr ->
  (forall x i, relocated n (f' (shift n x) i) (f x i)) ->
  forall i, relocated n (map_from arr' f' i count) (map_from arr f i count).
Proof.
  intros -> Hf. induction count as [| count IH]; intros i; cbn.
  - apply relocated_ret. reflexivity.
  - apply relocated_bind; [apply relocated_index; reflexivity |].
    intros x. apply relocated_bind; [apply Hf |].
    intros y. apply relocated_bind; [apply IH |].
    intros ys. apply relocated_ret. reflexivity.
Qed.

Lemma relocated_array_map (n : nat) (arr' arr : value)
      (f' f : value -> nat -> M value) :
  arr' = shift n arr ->
  (forall x i, relocated n (f' (shift n x) i) (f x i)) ->
  relocated n (array_map arr' f') (array_map arr f).
Proof.
  intros -> Hf. unfold array_map.
  apply relocated_bind; [apply relocated_array_length; reflexivity |].
  intros len. apply relocated_bind; [apply relocated_map_from; [reflexivity | exact Hf] |].
  intros ys. apply relocated_new_array. reflexivity.
Qed.

(** A computation that moves to itself runs on any heap as it does on the
    empty one, up to the move. *)
Lemma relocated_from_empty {A} `{Shift A} (m : M A) :
  (forall n, relocated n m m) ->
  forall h : heap,
    m h = (shift (List.length h) (fst (m [])),
           h ++ map (shift (List.length h)) (snd (m []))).
Proof.
  intros Hm h. specialize (Hm (List.length h) h [] eq_refl).
  cbn in Hm. rewrite app_nil_r in Hm. exact Hm.
Qed.

(** *** Snapshots do not see a move *)

Lemma value_nested_ind (P : value -> Prop) :
  P VUndefined -> P VNull -> (forall b, P (VBool b)) -> (forall x, P (VNum x)) ->
  (forall s, P (VStr s)) -> (forall l, P (VRef l)) -> (forall name, P (VClosure name)) ->
  (forall type props children,
      Forall (fun kv => P (snd kv)) props -> Forall P children ->
      P (VElem type props children)) ->
  forall v, P v.
Proof.
  intros HU HN HB HNum HS HR HC HE.
  fix IH 1. intros [| | b | x | s | l | name | type props children];
    [exact HU | exact HN | apply HB | apply HNum | apply HS | apply HR | apply HC |].
  apply HE.
  - induction props as [| kv rest IHrest]; constructor; [apply IH | exact IHrest].
  - induction children as [| c rest IHrest]; constructor; [apply IH | exact IHrest].
Qed.

Lemma inline_shift (n : nat) (r' r : loc -> snapshot) :
  (forall l, r' (n + l) = r l) ->
  forall v, inline r' (shift n v) = inline r v.
Proof.
  intros Hr v. induction v as [| | | | | l | | type props children IHp IHc]
    using value_nested_ind; cbn; try reflexivity.
  - apply Hr.
  - f_equal.
    + rewrite map_map. induction IHp as [| kv rest Hkv _ IHrest]; cbn;
        [reflexivity |]. f_equal; [f_equal; exact Hkv | exact IHrest].
    + rewrite map_map. induction IHc as [| c rest Hc _ IHrest]; cbn;
        [reflexivity |]. f_equal; [exact Hc | exact IHrest].
Qed.

Lemma view_relocated (fuel : nat) (frame own : heap) (v : value) :
  view fuel (frame ++ map (shift (List.length frame)) own) (shift (List.length frame) v)
  = view fuel own v.
Proof.
  revert v. induction fuel as [| fuel IH]; intros v; cbn;
    apply inline_shift; intros l; [reflexivity |].
  rewrite nth_error_app2 by lia.
  replace (List.length frame + l - List.length frame) with l by lia.
  rewrite nth_error_map.
  destruct (nth_error own l) as [[fields | items] |]; cbn; [| | reflexivity];
    f_equal; rewrite shift_list_unfold, map_map; apply map_ext; intros x.
  - cbn. f_equal. apply IH.
  - apply IH.
Qed.

(** What a self-moving computation shows does not depend on the heap it
    starts on. *)
Lemma seen_relocated {A} `{Shift A} (m : M A) (pick : A -> value) :
  (forall n a, pick (shift n a) = shift n (pick a)) ->
  (forall n, relocated n m m) ->
  forall h : heap, seen pick (m h) = seen pick (m []).
Proof.
  intros Hpick Hm h. rewrite (relocated_from_empty m Hm h).
  destruct (m []) as [[a | e | w] own]; cbn -[view]; try reflexivity.
  f_equal. rewrite Hpick. apply view_relocated.
Qed.

Lemma shown_relocated (m : M value) :
  (forall n, relocated n m m) ->
  forall h : heap, shown (m h) = shown (m []).
Proof. intros Hm h. apply seen_relocated; [reflexivity | exact Hm]. Qed.

(** Nor does whether it ends well. *)
Lemma is_ok_relocated {A} `{Shift A} (m : M A) :
  (forall n, relocated n m m) ->
  forall h : heap, is_ok (fst (m h)) = is_ok (fst (m [])).
Proof.
  intros Hm h. rewrite (relocated_from_empty m Hm h).
  destruct (m []) as [[a | e | w] own]; reflexivity.
Qed.

(** And it leaves the heap it found in place. *)
Lemma appends_relocated {A} `{Shift A} (m : M A) :
  (forall n, relocated n m m) -> appends m.
Proof.
  intros Hm h. rewrite (relocated_from_empty m Hm h).
  eexists. reflexivity.
Qed.

(** *** Computations that only read, or only add cells *)

Lemma reads_only_ret {A} (a : A) : reads_only (ret a).
Proof. intros h. reflexivity. Qed.

Lemma reads_only_throw {A} (e : exn) : reads_only (throw (A := A) e).
Proof. intros h. reflexivity. Qed.

Lemma reads_only_unmodelled {A} (w : string) : reads_only (unmodelled (A := A) w).
Proof. intros h. reflexivity. Qed.

Lemma reads_only_bind {A B} (m : M A) (k : A -> M B) :
  reads_only m -> (forall a, reads_only (k a)) -> reads_only (bind m k).
Proof.
  intros Hm Hk h. unfold bind. specialize (Hm h).
  destruct (m h) as [[a | e | w] h']; cbn in *; subst h'; try reflexivity.
  apply Hk.
Qed.

Lemma reads_only_deref (l : loc) : reads_only (deref l).
Proof. intros h. unfold deref. destruct (nth_error h l); reflexivity. Qed.

Create HintDb reads.
Create HintDb appends.

#[export] Hint Resolve reads_only_ret reads_only_throw reads_only_unmodelled
  reads_only_deref : reads.

Ltac reads_only_cases :=
  repeat first
    [ progress auto with reads
    | apply reads_only_bind; [| intros ?]
    | match goal with
      | |- reads_only (match ?x with _ => _ end) => destruct x
      end ].

Lemma reads_only_get (v : value) (key : string) : reads_only (get v key).
Proof. unfold get, property, nullish_read. reads_only_cases. Qed.

Lemma reads_only_index (v : value) (i : nat) : reads_only (index v i).
Proof. unfold index, nullish_read. reads_only_cases. Qed.

Lemma reads_only_to_str (v : value) : reads_only (to_str v).
Proof. unfold to_str. reads_only_cases. Qed.

Lemma reads_only_toFixed (v : value) (digits : nat) : reads_only (toFixed v digits).
Proof. unfold toFixed, no_method, not_a_function, nullish_read. reads_only_cases. Qed.

Lemma reads_only_to_number (v : value) : reads_only (to_number v).
Proof. unfold to_number. reads_only_cases. Qed.

#[export] Hint Resolve reads_only_get reads_only_index reads_only_to_str
  reads_only_toFixed reads_only_to_number : reads.

Lemma reads_only_get_computed (obj k : value) : reads_only (get_computed obj k).
Proof. unfold get_computed. reads_only_cases. Qed.

Lemma reads_only_items_of (v : value) : reads_only (items_of v).
Proof. unfold items_of. reads_only_cases. Qed.

Lemma reads_only_array_length (v : value) : reads_only (array_length v).
Proof. unfold array_length, no_method, not_a_function, nullish_read. reads_only_cases. Qed.

#[export] Hint Resolve reads_only_get_computed reads_only_items_of
  reads_only_array_length : reads.

Lemma reads_only_spread_all (vs : list value) : reads_only (spread_all vs).
Proof. induction vs as [| v rest IH]; cbn; reads_only_cases. Qed.

#[export] Hint Resolve reads_only_spread_all : reads.

Lemma appends_of_reads_only {A} (m : M A) : reads_only m -> appends m.
Proof. intros Hm h. exists []. rewrite app_nil_r. apply Hm. Qed.

Lemma appends_ret {A} (a : A) : appends (ret a).
Proof. apply appends_of_reads_only. auto with reads. Qed.

Lemma appends_bind {A B} (m : M A) (k : A -> M B) :
  appends m -> (forall a, appends (k a)) -> appends (bind m k).
Proof.
  intros Hm Hk h. unfold bind. destruct (Hm h) as [new1 H1].
  destruct (m h) as [[a | e | w] h']; cbn in *; subst h';
    try (exists new1; reflexivity).
  destruct (Hk a (h ++ new1)) as [new2 H2].
  exists (new1 ++ new2). rewrite H2. symmetry. apply app_assoc.
Qed.

Lemma appends_alloc (c : cell) : appends (alloc c).
Proof. intros h. exists [c]. reflexivity. Qed.

Lemma appends_new_object (fields : list (string * value)) : appends (new_object fields).
Proof. apply appends_alloc. Qed.

Lemma appends_new_array (items : list value) : appends (new_array items).
Proof. apply appends_alloc. Qed.

#[export] Hint Resolve appends_ret appends_alloc appends_new_object
  appends_new_array : appends.
#[export] Hint Extern 2 (appends _) =>
  (apply appends_of_reads_only; solve [auto with reads]) : appends.

Ltac appends_cases :=
  repeat first
    [ progress auto with appends
    | apply appends_bind; [| intros ?]
    | match goal with
      | |- appends (match ?x with _ => _ end) => destruct x
      end ].

Lemma appends_array_of_spreads (vs : list value) : appends (array_of_spreads vs).
Proof. unfold array_of_spreads. appends_cases. Qed.

Lemma appends_new_objects (rows : list (list (string * value))) :
  appends (new_objects rows).
Proof. induction rows as [| r rest IH]; cbn; appends_cases. Qed.

#[export] Hint Resolve appends_array_of_spreads appends_new_objects : appends.

Lemma appends_array_of_objects (rows : list (list (string * value))) :
  appends (array_of_objects rows).
Proof. unfold array_of_objects. appends_cases. Qed.

Lemma appends_map_from (arr : value) (f : value -> nat -> M value) (count : nat) :
  (forall x i, appends (f x i)) -> forall i, appends (map_from arr f i count).
Proof.
  intros Hf. induction count as [| count IH]; intros i; cbn; appends_cases.
Qed.

Lemma appends_array_map (arr : value) (f : value -> nat -> M value) :
  (forall x i, appends (f x i)) -> appends (array_map arr f).
Proof.
  intros Hf. unfold array_map. appends_cases.
  apply appends_map_from. exact Hf.
Qed.

(** *** The components and their helpers *)

Ltac relocate_step :=
  lazymatch goal with
  | |- relocated _ (bind _ _) _ => apply relocated_bind; [| intros ?; cbv beta ]
  | |- relocated _ (ret _) _ => apply relocated_ret; reflexivity
  | |- relocated _ (new_object _) _ => apply relocated_new_object; reflexivity
  | |- relocated _ (new_array _) _ => apply relocated_new_array; reflexivity
  | |- relocated _ (array_of_objects _) _ => apply relocated_array_of_objects; reflexivity
  | |- relocated _ (array_of_spreads _) _ => apply relocated_array_of_spreads; reflexivity
  | |- relocated _ (get _ _) _ => apply relocated_get; reflexivity
  | |- relocated _ (index _ _) _ => apply relocated_index; reflexivity
  | |- relocated _ (to_str _) _ => apply relocated_to_str; reflexivity
  | |- relocated _ (toFixed _ _) _ => apply relocated_toFixed; reflexivity
  | |- relocated _ (to_number _) _ => apply relocated_to_number; reflexivity
  | |- relocated _ (get_computed _ _) _ => apply relocated_get_computed; reflexivity
  | |- relocated _ (throw _) _ => apply relocated_throw
  | |- relocated _ (unmodelled _) _ => apply relocated_unmodelled
  | |- relocated _ (if ?b then _ else _) _ => destruct b
  end.

Ltac relocate := repeat relocate_step.

Lemma GenreVisualization_relocated (n : nat) :
  relocated n Genre.GenreVisualization Genre.GenreVisualization.
Proof. unfold Genre.GenreVisualization, Genre.markup. relocate. Qed.

Lemma renderScatter_relocated (n : nat) (stats data color : value) :
  relocated n (Budget.renderScatter (shift n stats) (shift n data) (shift n color))
              (Budget.renderScatter stats data color).
Proof. unfold Budget.renderScatter. relocate. Qed.

Lemma literals_relocated (n : nat) : relocated n Budget.literals Budget.literals.
Proof. unfold Budget.literals. relocate. Qed.

Lemma derived_relocated (n : nat) (src : Budget.arrays) :
  relocated n (Budget.derived (shift n src)) (Budget.derived src).
Proof. unfold Budget.derived. relocate. Qed.

Lemma declarations_relocated (n : nat) :
  relocated n Budget.declarations Budget.declarations.
Proof.
  unfold Budget.declarations.
  apply relocated_bind; [apply literals_relocated | intros src; cbv beta].
  apply derived_relocated.
Qed.

Lemma markup_relocated (n : nat) (sc : Budget.scope) :
  relocated n (Budget.markup (shift n sc)) (Budget.markup sc).
Proof.
  unfold Budget.markup.
  repeat first
    [ apply (renderScatter_relocated n _ _ (VStr _))
    | relocate_step ].
Qed.

Lemma BudgetEfficiencyAnalysis_relocated (n : nat) :
  relocated n Budget.BudgetEfficiencyAnalysis Budget.BudgetEfficiencyAnalysis.
Proof.
  unfold Budget.BudgetEfficiencyAnalysis.
  apply relocated_bind; [apply declarations_relocated | intros sc; cbv beta].
  apply markup_relocated.
Qed.

Lemma CustomTooltip_relocated (n : nat) (props : value) :
  relocated n (Budget.CustomTooltip (shift n props)) (Budget.CustomTooltip props).
Proof.
  unfold Budget.CustomTooltip.
  relocate_step; [relocate_step |].
  relocate_step; [relocate_step |].
  rewrite !truthy_shift.
  apply relocated_bind.
  - destruct (truthy a); [| relocate]. destruct (truthy a0); relocate.
    apply relocated_ret. exact (truthy_shift n _).
  - intros shown. cbv beta. change (shift n shown) with shown.
    destruct shown; relocate.
Qed.

Lemma getColorByRAR_relocated (n : nat) (rar : value) :
  relocated n (Studio.getColorByRAR (shift n rar)) (Studio.getColorByRAR rar).
Proof.
  unfold Studio.getColorByRAR, Studio.exceeds.
  apply relocated_bind;
    [relocate | intros above7; change (shift n above7) with above7;
                destruct above7; [relocate |]].
  apply relocated_bind;
    [relocate | intros above5; change (shift n above5) with above5;
                destruct above5; [relocate |]].
  apply relocated_bind;
    [relocate | intros above4; change (shift n above4) with above4;
                destruct above4; relocate].
Qed.

Lemma cell_of_relocated (n : nat) (entry : value) (i : nat) :
  relocated n (Studio.cell_of (shift n entry) i) (Studio.cell_of entry i).
Proof.
  unfold Studio.cell_of.
  repeat first [ apply getColorByRAR_relocated | relocate_step ].
Qed.

Lemma row_of_relocated (n : nat) (studio : value) (i : nat) :
  relocated n (Studio.row_of (shift n studio) i) (Studio.row_of studio i).
Proof. unfold Studio.row_of. relocate. Qed.

Lemma studio_markup_relocated (n : nat) (dataRef : value) :
  relocated n (Studio.markup (shift n dataRef)) (Studio.markup dataRef).
Proof.
  unfold Studio.markup.
  repeat first
    [ apply relocated_array_map;
      [reflexivity | first [apply cell_of_relocated | apply row_of_relocated]]
    | relocate_step ].
Qed.

Lemma StudioPerformance_relocated (n : nat) :
  relocated n Studio.StudioPerformance Studio.StudioPerformance.
Proof.
  unfold Studio.StudioPerformance.
  apply relocated_bind; [relocate_step | intros d; cbv beta].
  apply studio_markup_relocated.
Qed.

Lemma formatter_relocated (n : nat) (val name props : value) :
  relocated n (Studio.formatter (shift n val) (shift n name) (shift n props))
              (Studio.formatter val name props).
Proof.
  unfold Studio.formatter. rewrite is_string_shift.
  destruct (is_string name "riskAdjustedReturn"); relocate.
Qed.

Lemma labelFormatter_relocated (n : nat) (label : value) :
  relocated n (Studio.labelFormatter (shift n label)) (Studio.labelFormatter label).
Proof. unfold Studio.labelFormatter. relocate. Qed.


#[export] Hint Resolve appends_array_of_objects : appends.

End FrameFacts.

(** ** The claims *)

Module Claims.
Import FrameFacts.

Lemma render_relocated (c : component) (n : nat) :
  relocated n (render c) (render c).
Proof.
  destruct c; cbn.
  - apply GenreVisualization_relocated.
  - apply BudgetEfficiencyAnalysis_relocated.
  - apply StudioPerformance_relocated.
Qed.

(** What each component shows, on any heap. *)
Lemma render_shown (c : component) (h : heap) :
  shown (render c h) = shown (render c []).
Proof. apply shown_relocated. intros n. apply render_relocated. Qed.

(** C1. Each chart is bound to as many rows as its dataset has: the
    LineChart of GenreVisualization to the 10 yearly records, each of its
    five Line series finding a number to draw in all 10; the four Scatter
    elements of BudgetEfficiencyAnalysis each to the 10 records of its own
    genre array; the Bar of StudioPerformance gets one Cell per studio
    record, 6 Cells for 6 rows. This holds on whatever heap the render
    starts. *)
Theorem charts_bind_every_row (h : heap) :
  (exists t rows,
      shown (Genre.GenreVisualization h) = Some t
      /\ map (prop "data") (elements "LineChart" t) = [Some (SArray rows)]
      /\ SArray rows = quote_rows Genre.data
      /\ List.length rows = 10
      /\ map (prop "dataKey") (elements "Line" t)
         = [Some (SStr "horror"); Some (SStr "scifi"); Some (SStr "action");
            Some (SStr "drama"); Some (SStr "comedy")]
      /\ map (fun series => List.length (series_points rows series)) (elements "Line" t)
         = [10; 10; 10; 10; 10])
  /\ (exists t,
         shown (Budget.BudgetEfficiencyAnalysis h) = Some t
         /\ map (prop "data") (elements "Scatter" t)
            = [Some (quote_rows Budget.horrorData); Some (quote_rows Budget.scifiData);
               Some (quote_rows Budget.actionData); Some (quote_rows Budget.dramaData)]
         /\ map (fun s => option_map (fun d => List.length (items d)) (prop "data" s))
                (elements "Scatter" t)
            = [Some 10; Some 10; Some 10; Some 10])
  /\ (exists t cells,
         shown (Studio.StudioPerformance h) = Some t
         /\ map (prop "data") (elements "BarChart" t) = [Some (quote_rows Studio.data)]
         /\ map children_of (elements "Bar" t) = [[SArray cells]]
         /\ forallb (is_component "Cell") cells = true
         /\ List.length cells = List.length Studio.data
         /\ List.length cells = 6).
Proof.
  rewrite (shown_relocated _ GenreVisualization_relocated h),
          (shown_relocated _ BudgetEfficiencyAnalysis_relocated h),
          (shown_relocated _ StudioPerformance_relocated h).
  split; [| split].
  - eexists. eexists. split; [vm_compute; reflexivity |].
    split; [vm_compute; reflexivity |].
    repeat split; vm_compute; reflexivity.
  - eexists. split; [vm_compute; reflexivity |].
    split; vm_compute; reflexivity.
  - eexists. eexists. split; [vm_compute; reflexivity |].
    split; [vm_compute; reflexivity |].
    split; [vm_compute; reflexivity |].
    repeat split; vm_compute; reflexivity.
Qed.

(** C2. Each component is stateless and deterministic. On any two heaps
    it shows the same tree, so two invocations give identical output; it
    ends with a value; it leaves every cell it found in place and only
    adds its own; and what it shows after any sequence of earlier renders
    of any of the three components is what it shows on an empty heap. *)
Theorem components_stateless_deterministic (c : component) :
  (forall h1 h2 : heap, shown (render c h1) = shown (render c h2))
  /\ (forall h : heap, shown (render c h) <> None)
  /\ (forall h : heap, exists new : heap, snd (render c h) = h ++ new)
  /\ (forall (earlier : list component) (h0 : heap),
         shown (render c (heap_after earlier h0)) = shown (render c [])).
Proof.
  split; [| split; [| split]].
  - intros h1 h2. rewrite (render_shown c h1), (render_shown c h2). reflexivity.
  - intros h. rewrite (render_shown c h). destruct c; vm_compute; discriminate.
  - apply appends_relocated. intros n. apply render_relocated.
  - intros earlier h0. apply render_shown.
Qed.

Lemma hover_relocated (n : nat) (entry active : value) :
  relocated n (hover (shift n entry) (shift n active)) (hover entry active).
Proof.
  unfold hover. repeat first [apply CustomTooltip_relocated | relocate_step].
Qed.

Lemma hover_combined_relocated (i : nat) (active : value) (n : nat) :
  relocated n (hover_combined i (shift n active)) (hover_combined i active).
Proof.
  unfold hover_combined.
  apply relocated_bind; [apply declarations_relocated | intros sc; cbv beta].
  apply relocated_bind; [relocate_step | intros entry; cbv beta].
  apply hover_relocated.
Qed.

Lemma tooltip_unset_relocated (n : nat) : relocated n tooltip_unset tooltip_unset.
Proof.
  unfold tooltip_unset. repeat first [apply CustomTooltip_relocated | relocate_step].
Qed.

Lemma scatter_call_relocated (pick : Budget.arrays -> value) (colour : string) :
  (forall n a, pick (shift n a) = shift n (pick a)) ->
  forall n, relocated n (scatter_call pick colour) (scatter_call pick colour).
Proof.
  intros Hpick n. unfold scatter_call.
  apply relocated_bind; [apply declarations_relocated | intros sc; cbv beta].
  cbn [Budget.sources Budget.statsRef shift Shift_scope]. rewrite Hpick.
  apply (renderScatter_relocated n _ _ (VStr colour)).
Qed.

Lemma scatter_of_nothing_relocated (n : nat) :
  relocated n scatter_of_nothing scatter_of_nothing.
Proof.
  unfold scatter_of_nothing.
  repeat first [apply (renderScatter_relocated n _ _ (VStr _)) | relocate_step].
Qed.

Lemma studio_colour_relocated (i n : nat) :
  relocated n (studio_colour i) (studio_colour i).
Proof.
  unfold studio_colour. repeat first [apply getColorByRAR_relocated | relocate_step].
Qed.

Lemma forallb_ok_relocated {A} `{Shift A} (m : nat -> M A) :
  (forall i n, relocated n (m i) (m i)) ->
  forall (h : heap) (l : list nat),
    forallb (fun i => is_ok (fst (m i h))) l
    = forallb (fun i => is_ok (fst (m i []))) l.
Proof.
  intros Hm h l. induction l as [| i rest IH]; cbn; [reflexivity |].
  rewrite IH, (is_ok_relocated (m i) (Hm i) h). reflexivity.
Qed.

(** [getColorByRAR] ends with a value on every number and touches no
    cell. *)
Lemma getColorByRAR_number (x : number) (h : heap) :
  exists colour,
    Studio.getColorByRAR (VNum x) h = (Ok colour, h)
    /\ In colour [VStr "#1a237e"; VStr "#283593"; VStr "#3949ab"; VStr "#5c6bc0"].
Proof.
  unfold Studio.getColorByRAR, Studio.exceeds, bind, ret; cbn.
  destruct (gt x (Fin 7)); [eexists; split; [reflexivity | cbn; tauto] |].
  destruct (gt x (Fin 5)); [eexists; split; [reflexivity | cbn; tauto] |].
  destruct (gt x (Fin 4)); eexists; (split; [reflexivity | cbn; tauto]).
Qed.


(** C4. The genre-popularity dataset the LineChart is bound to has exactly
    10 records, one per year from 2015 to 2024 in order; every record has
    exactly the fields year, horror, scifi, action, drama, comedy; and
    the year and the five genre scores are numbers. *)
Theorem genre_records_shape (h : heap) :
  exists t rows,
    shown (Genre.GenreVisualization h) = Some t
    /\ map (prop "data") (elements "LineChart" t) = [Some (SArray rows)]
    /\ List.length rows = 10
    /\ map (at_key "year") rows
       = map (fun y : Z => Some (SNum (Fin (inject_Z y))))
             [2015; 2016; 2017; 2018; 2019; 2020; 2021; 2022; 2023; 2024]%Z
    /\ Forall (fun r => keys r = ["year"; "horror"; "scifi"; "action"; "drama"; "comedy"])
              rows
    /\ Forall (fun r => forallb (fun k => is_number (at_key k r))
                                ["year"; "horror"; "scifi"; "action"; "drama"; "comedy"]
                        = true) rows.
Proof.
  rewrite (shown_relocated _ GenreVisualization_relocated h).
  eexists. eexists. split; [vm_compute; reflexivity |].
  split; [vm_compute; reflexivity |].
  split; [reflexivity |].
  split; [reflexivity |].
  split; repeat constructor.
Qed.

Lemma declarations_seen (pick : Budget.scope -> value) (h : heap) :
  (forall n sc, pick (shift n sc) = shift n (pick sc)) ->
  seen pick (Budget.declarations h) = seen pick (Budget.declarations []).
Proof.
  intros Hpick. apply seen_relocated; [exact Hpick | exact declarations_relocated].
Qed.

(** C5. Every sample point of BudgetEfficiencyAnalysis has exactly the
    fields budget, revenue, efficiency, genre (three numbers and a
    string); every record of each of the four arrays carries the label of
    its own bucket; and [combinedData] is the four arrays one after the
    other, so the genre field takes exactly the four values Horror,
    Science Fiction, Action, Drama. *)
Theorem budget_records_shape (h : heap) :
  seen (fun sc => Budget.horrorRef (Budget.sources sc)) (Budget.declarations h)
  = Some (quote_rows Budget.horrorData)
  /\ seen (fun sc => Budget.scifiRef (Budget.sources sc)) (Budget.declarations h)
     = Some (quote_rows Budget.scifiData)
  /\ seen (fun sc => Budget.actionRef (Budget.sources sc)) (Budget.declarations h)
     = Some (quote_rows Budget.actionData)
  /\ seen (fun sc => Budget.dramaRef (Budget.sources sc)) (Budget.declarations h)
     = Some (quote_rows Budget.dramaData)
  /\ seen Budget.combinedRef (Budget.declarations h)
     = Some (quote_rows (Budget.horrorData ++ Budget.scifiData
                         ++ Budget.actionData ++ Budget.dramaData))
  /\ Forall (fun r => keys r = ["budget"; "revenue"; "efficiency"; "genre"]
                      /\ is_number (at_key "budget" r) = true
                      /\ is_number (at_key "revenue" r) = true
                      /\ is_number (at_key "efficiency" r) = true
                      /\ is_text (at_key "genre" r) = true)
            (items (quote_rows (Budget.horrorData ++ Budget.scifiData
                                ++ Budget.actionData ++ Budget.dramaData)))
  /\ map (at_key "genre") (items (quote_rows Budget.horrorData))
     = repeat (Some (SStr "Horror")) 10
  /\ map (at_key "genre") (items (quote_rows Budget.scifiData))
     = repeat (Some (SStr "Science Fiction")) 10
  /\ map (at_key "genre") (items (quote_rows Budget.actionData))
     = repeat (Some (SStr "Action")) 10
  /\ map (at_key "genre") (items (quote_rows Budget.dramaData))
     = repeat (Some (SStr "Drama")) 10.
Proof.
  rewrite (declarations_seen (fun sc => Budget.horrorRef (Budget.sources sc)) h),
          (declarations_seen (fun sc => Budget.scifiRef (Budget.sources sc)) h),
          (declarations_seen (fun sc => Budget.actionRef (Budget.sources sc)) h),
          (declarations_seen (fun sc => Budget.dramaRef (Budget.sources sc)) h),
          (declarations_seen Budget.combinedRef h)
    by reflexivity.
  split; [vm_compute; reflexivity |].
  split; [vm_compute; reflexivity |].
  split; [vm_compute; reflexivity |].
  split; [vm_compute; reflexivity |].
  split; [vm_compute; reflexivity |].
  split; [vm_compute; repeat constructor |].
  repeat split; vm_compute; reflexivity.
Qed.

(** C6. Every record of the StudioPerformance dataset, as the BarChart is
    bound to it, has exactly the fields studio, riskAdjustedReturn,
    profitRatio, risk, genreDiversity; studio is a string and the other
    four are numbers. *)
Theorem studio_records_shape (h : heap) :
  exists t rows,
    shown (Studio.StudioPerformance h) = Some t
    /\ map (prop "data") (elements "BarChart" t) = [Some (SArray rows)]
    /\ List.length rows = 6
    /\ Forall (fun r =>
                 keys r = ["studio"; "riskAdjustedReturn"; "profitRatio"; "risk";
                           "genreDiversity"]
                 /\ is_text (at_key "studio" r) = true
                 /\ forallb (fun k => is_number (at_key k r))
                            ["riskAdjustedReturn"; "profitRatio"; "risk"; "genreDiversity"]
                    = true) rows.
Proof.
  rewrite (shown_relocated _ StudioPerformance_relocated h).
  eexists. eexists. split; [vm_compute; reflexivity |].
  split; [vm_compute; reflexivity |].
  split; [reflexivity |].
  repeat constructor.
Qed.

(** *** Nothing after the literals writes *)

Lemma genre_markup_appends (d : value) : appends (Genre.markup d).
Proof. unfold Genre.markup. appends_cases. Qed.

Lemma CustomTooltip_reads_only (props : value) :
  reads_only (Budget.CustomTooltip props).
Proof. unfold Budget.CustomTooltip. reads_only_cases. Qed.

Lemma renderScatter_appends (stats data colour : value) :
  appends (Budget.renderScatter stats data colour).
Proof. unfold Budget.renderScatter. appends_cases. Qed.

Lemma budget_markup_appends (sc : Budget.scope) : appends (Budget.markup sc).
Proof.
  unfold Budget.markup.
  repeat first [apply renderScatter_appends | progress appends_cases].
Qed.

Lemma derived_appends (src : Budget.arrays) : appends (Budget.derived src).
Proof. unfold Budget.derived. appends_cases. Qed.

Lemma getColorByRAR_reads_only (rar : value) :
  reads_only (Studio.getColorByRAR rar).
Proof. unfold Studio.getColorByRAR, Studio.exceeds. reads_only_cases. Qed.

Lemma cell_of_reads_only (entry : value) (i : nat) :
  reads_only (Studio.cell_of entry i).
Proof.
  unfold Studio.cell_of.
  repeat first [apply getColorByRAR_reads_only | progress reads_only_cases].
Qed.

Lemma row_of_reads_only (studio : value) (i : nat) :
  reads_only (Studio.row_of studio i).
Proof. unfold Studio.row_of. reads_only_cases. Qed.

Lemma studio_markup_appends (d : value) : appends (Studio.markup d).
Proof.
  unfold Studio.markup.
  repeat first
    [ apply appends_map_from; intros x i; apply appends_of_reads_only;
      first [apply cell_of_reads_only | apply row_of_reads_only]
    | progress appends_cases ].
Qed.

Lemma formatter_appends (val name props : value) :
  appends (Studio.formatter val name props).
Proof. unfold Studio.formatter. appends_cases. Qed.

Lemma labelFormatter_reads_only (label : value) :
  reads_only (Studio.labelFormatter label).
Proof. unfold Studio.labelFormatter. reads_only_cases. Qed.

(** A computation that only adds cells keeps every cell it found. *)
Lemma appends_keeps_cells {A} (m : M A) (h : heap) (l : loc) (c : cell) :
  appends m -> nth_error h l = Some c -> nth_error (snd (m h)) l = Some c.
Proof.
  intros Hm Hl. destruct (Hm h) as [new ->].
  rewrite nth_error_app1; [exact Hl |].
  apply nth_error_Some. rewrite Hl. discriminate.
Qed.

Lemma genre_kept_relocated (n : nat) : relocated n genre_kept genre_kept.
Proof.
  unfold genre_kept.
  apply relocated_bind; [relocate_step | intros d; cbv beta].
  apply relocated_bind; [unfold Genre.markup; relocate | intros t; cbv beta].
  relocate.
Qed.

Lemma budget_kept_relocated (n : nat) : relocated n budget_kept budget_kept.
Proof.
  unfold budget_kept.
  apply relocated_bind; [apply declarations_relocated | intros sc; cbv beta].
  apply relocated_bind; [apply markup_relocated | intros t; cbv beta].
  relocate.
Qed.

Lemma studio_kept_relocated (n : nat) : relocated n studio_kept studio_kept.
Proof.
  unfold studio_kept.
  apply relocated_bind; [relocate_step | intros d; cbv beta].
  apply relocated_bind; [apply studio_markup_relocated | intros t; cbv beta].
  relocate.
Qed.

Lemma budget_kept_seen (pick : Budget.scope -> value) (h : heap) :
  (forall n sc, pick (shift n sc) = shift n (pick sc)) ->
  seen pick (budget_kept h) = seen pick (budget_kept []).
Proof.
  intros Hpick. apply seen_relocated; [exact Hpick | exact budget_kept_relocated].
Qed.

(** C7. The literal datasets are never mutated. Whatever the arrays of a
    call are, every step that follows their literals - building
    [combinedData] by spreading the four genre arrays, mapping the studio
    data to Cells and table rows, the object literals of the props - only
    adds cells to the heap, and the tooltip callbacks only read it (the
    studio formatter adds the pair it returns); so no cell that exists is
    changed. And once the tree of a render is built, on any starting heap,
    each source array still shows exactly the rows of its literal. *)
Theorem datasets_never_mutated :
  (forall d : value, appends (Genre.markup d))
  /\ (forall src : Budget.arrays,
         appends (sc <- Budget.derived src ;; Budget.markup sc))
  /\ (forall d : value, appends (Studio.markup d))
  /\ (forall props : value, reads_only (Budget.CustomTooltip props))
  /\ (forall val name props : value, appends (Studio.formatter val name props))
  /\ (forall label : value, reads_only (Studio.labelFormatter label))
  /\ (forall h : heap,
         seen (fun d => d) (genre_kept h) = Some (quote_rows Genre.data)
         /\ seen (fun sc => Budget.horrorRef (Budget.sources sc)) (budget_kept h)
            = Some (quote_rows Budget.horrorData)
         /\ seen (fun sc => Budget.scifiRef (Budget.sources sc)) (budget_kept h)
            = Some (quote_rows Budget.scifiData)
         /\ seen (fun sc => Budget.actionRef (Budget.sources sc)) (budget_kept h)
            = Some (quote_rows Budget.actionData)
         /\ seen (fun sc => Budget.dramaRef (Budget.sources sc)) (budget_kept h)
            = Some (quote_rows Budget.dramaData)
         /\ seen (fun d => d) (studio_kept h) = Some (quote_rows Studio.data)).
Proof.
  split; [exact genre_markup_appends |].
  split; [intros src; apply appends_bind;
          [apply derived_appends | exact budget_markup_appends] |].
  split; [exact studio_markup_appends |].
  split; [exact CustomTooltip_reads_only |].
  split; [exact formatter_appends |].
  split; [exact labelFormatter_reads_only |].
  intros h.
  rewrite (seen_relocated genre_kept (fun d => d) (fun _ _ => eq_refl)
             genre_kept_relocated h),
          (seen_relocated studio_kept (fun d => d) (fun _ _ => eq_refl)
             studio_kept_relocated h),
          (budget_kept_seen (fun sc => Budget.horrorRef (Budget.sources sc)) h),
          (budget_kept_seen (fun sc => Budget.scifiRef (Budget.sources sc)) h),
          (budget_kept_seen (fun sc => Budget.actionRef (Budget.sources sc)) h),
          (budget_kept_seen (fun sc => Budget.dramaRef (Budget.sources sc)) h)
    by reflexivity.
  repeat split; vm_compute; reflexivity.
Qed.

(** *** The model can tell a program that fails or writes *)

(** [renderScatter] on an empty array throws where it reads
    [data[0].genre], on any heap. *)
Example renderScatter_of_nothing_throws (h : heap) :
  fst (scatter_of_nothing h)
  = Throw (TypeError "Cannot read properties of undefined or null").
Proof.
  rewrite (relocated_from_empty _ scatter_of_nothing_relocated h).
  vm_compute. reflexivity.
Qed.

(** A tooltip over an entry past the end of [combinedData] throws. *)
Example hover_past_the_end_throws :
  fst (hover_combined 40 (VBool true) [])
  = Throw (TypeError "Cannot read properties of undefined or null").
Proof. vm_compute. reflexivity. Qed.

(** The records of [combinedData] are those of the source arrays, not
    copies: a write through [combinedData[0]] shows in [horrorData]. *)
Example write_through_combinedData_is_seen :
  is_ok (fst (budget_overwritten [])) = true
  /\ seen (fun sc => Budget.horrorRef (Budget.sources sc)) (budget_overwritten [])
     <> Some (quote_rows Budget.horrorData)
  /\ option_map (fun s => option_map (at_key "budget") (hd_error (items s)))
                (seen (fun sc => Budget.horrorRef (Budget.sources sc))
                      (budget_overwritten []))
     = Some (Some (Some (SNum (Fin 0)))).
Proof.
  split; [vm_compute; reflexivity |].
  split; [vm_compute; discriminate | vm_compute; reflexivity].
Qed.

(** A push changes the length of the array it is made on. *)
Example push_onto_horrorData_is_seen :
  option_map (fun s => List.length (items s))
             (seen (fun sc => Budget.horrorRef (Budget.sources sc)) (budget_pushed []))
  = Some 11.
Proof. vm_compute. reflexivity. Qed.

(** *** Efficiency and its averages *)

(** C8. The efficiency of a budget row is its revenue divided by its
    budget, rounded to two decimal places. It is in 39 of the 40 rows; the
    fifth Horror row holds 3.49 where 35.3 / 10.1 = 3.4950... rounds to
    3.50. Rounding down or up instead fits fewer rows still. *)
Theorem efficiency_is_ratio_but_once :
  map (efficiency_is_ratio round2) Budget.horrorData
  = [true; true; true; true; false; true; true; true; true; true]
  /\ forallb (efficiency_is_ratio round2)
             (Budget.scifiData ++ Budget.actionData ++ Budget.dramaData) = true
  /\ nth 4 Budget.horrorData []
     = [numP "budget" 10.1; numP "revenue" 35.3; numP "efficiency" 3.49;
        strP "genre" "Horror"]
  /\ (round2 (35.3 / 10.1) == 3.50)%Q
  /\ (3.495 < 35.3 / 10.1)%Q
  /\ forallb (efficiency_is_ratio floor2) Budget.horrorData = false
  /\ forallb (efficiency_is_ratio ceil2) Budget.horrorData = false.
Proof. repeat split; vm_compute; reflexivity. Qed.

(** C9, as stated, fails for Horror: the ten Horror efficiencies average
    3.296, which is 3.30 to two decimal places, and [genreStats] holds
    3.29. *)
Lemma genreStats_horror_is_not_the_rounded_mean :
  number_at "Horror" Budget.genreStats = Some 3.29%Q
  /\ List.length (efficiencies Budget.horrorData) = 10
  /\ (mean (efficiencies Budget.horrorData) == 3.296)%Q
  /\ (round2 (mean (efficiencies Budget.horrorData)) == 3.30)%Q
  /\ stat_is_mean round2 "Horror" Budget.horrorData = false.
Proof. repeat split; vm_compute; reflexivity. Qed.

(** C9, amended. [genreStats] holds one figure for each of the four
    genres, under the label the records of that genre carry: 3.29, 1.60,
    2.46 and 1.87. They are the figures the component reports - each
    Scatter's legend name prints its genre's, and the list under Key
    Findings quotes all four - and they are constants of their own: each
    lies within 0.03 of the mean of the ten efficiencies of its genre's
    array (3.296, 1.586, 2.431, 1.871), but only Drama's is that mean
    rounded to two decimal places, and no way of rounding makes all four
    so. *)
Theorem genreStats_holds_the_reported_figures :
  map fst Budget.genreStats = map fst genre_arrays
  /\ map (fun b => number_at (fst b) Budget.genreStats) genre_arrays
     = [Some 3.29%Q; Some 1.60%Q; Some 2.46%Q; Some 1.87%Q]
  /\ map (fun b => List.length (efficiencies (snd b))) genre_arrays = [10; 10; 10; 10]
  /\ (mean (efficiencies Budget.horrorData) == 3.296)%Q
  /\ (mean (efficiencies Budget.scifiData) == 1.586)%Q
  /\ (mean (efficiencies Budget.actionData) == 2.431)%Q
  /\ (mean (efficiencies Budget.dramaData) == 1.871)%Q
  /\ forallb (fun b => stat_near_mean 0.03 (fst b) (snd b)) genre_arrays = true
  /\ map (fun b => stat_is_mean round2 (fst b) (snd b)) genre_arrays
     = [false; false; false; true]
  /\ map (fun b => stat_is_mean floor2 (fst b) (snd b)) genre_arrays
     = [true; false; false; true]
  /\ map (fun b => stat_is_mean ceil2 (fst b) (snd b)) genre_arrays
     = [false; false; false; false]
  /\ legend_names
     = [Some (SStr "Horror (avg 3.29x)"); Some (SStr "Science Fiction (avg 1.6x)");
        Some (SStr "Action (avg 2.46x)"); Some (SStr "Drama (avg 1.87x)")]
  /\ map figure (map fst genre_arrays)
     = [Some "(3.29x)"; Some "(1.60x)"; Some "(2.46x)"; Some "(1.87x)"]
  /\ List.length key_findings = 5
  /\ findings_mention (map fst genre_arrays) key_findings = true.
Proof. repeat split; vm_compute; reflexivity. Qed.

(** *** The colour tiers *)

Lemma gt_of_ge (x y k : number) :
  ge x y = true -> gt y k = true -> gt x k = true.
Proof.
  destruct x as [| | | p], y as [| | | q], k as [| | | r]; cbn;
    try discriminate; try reflexivity.
  destruct (Qcompare p q) eqn:Hpq; try discriminate;
    destruct (Qcompare q r) eqn:Hqr; try discriminate; intros _ _.
  - apply Qeq_alt in Hpq. apply Qgt_alt in Hqr.
    assert (Hpr : (r < p)%Q) by (rewrite Hpq; exact Hqr).
    apply Qgt_alt in Hpr. rewrite Hpr. reflexivity.
  - apply Qgt_alt in Hpq, Hqr.
    assert (Hpr : (r < p)%Q) by (eapply Qlt_trans; eassumption).
    apply Qgt_alt in Hpr. rewrite Hpr. reflexivity.
Qed.

Lemma gt_lower (x : number) (a b : Q) :
  (b <= a)%Q -> gt x (Fin a) = true -> gt x (Fin b) = true.
Proof.
  intros Hba. destruct x as [| | | p]; cbn; try discriminate; try reflexivity.
  destruct (Qcompare p a) eqn:Hpa; try discriminate. intros _.
  apply Qgt_alt in Hpa.
  assert (Hpb : (b < p)%Q) by (eapply Qle_lt_trans; eassumption).
  apply Qgt_alt in Hpb. rewrite Hpb. reflexivity.
Qed.

(** The run of [getColorByRAR] on a number, in closed form. *)
Lemma getColorByRAR_run (x : number) (h : heap) :
  Studio.getColorByRAR (VNum x) h
  = (Ok (if gt x (Fin 7) then VStr "#1a237e"
         else if gt x (Fin 5) then VStr "#283593"
         else if gt x (Fin 4) then VStr "#3949ab"
         else VStr "#5c6bc0"), h).
Proof.
  unfold Studio.getColorByRAR, Studio.exceeds, bind, ret; cbn.
  destruct (gt x (Fin 7)); [reflexivity |].
  destruct (gt x (Fin 5)); [reflexivity |].
  destruct (gt x (Fin 4)); reflexivity.
Qed.

(** C10. [getColorByRAR] is total and monotone. On every number, NaN and
    the infinities included, and on any heap, it returns one of the four
    colour strings and changes nothing; and for [x >= y] the colour of [x]
    is of a tier at least as high as the colour of [y], the tiers ordered
    by their thresholds 7, 5 and 4. *)
Theorem getColorByRAR_total_monotone :
  (forall (x : number) (h : heap),
      exists colour t,
        Studio.getColorByRAR (VNum x) h = (Ok colour, h)
        /\ In colour [VStr "#1a237e"; VStr "#283593"; VStr "#3949ab"; VStr "#5c6bc0"]
        /\ tier colour = Some t)
  /\ (forall (x y : number) (h : heap),
         ge x y = true ->
         exists cx cy tx ty,
           Studio.getColorByRAR (VNum x) h = (Ok cx, h)
           /\ Studio.getColorByRAR (VNum y) h = (Ok cy, h)
           /\ tier cx = Some tx /\ tier cy = Some ty /\ ty <= tx).
Proof.
  split.
  - intros x h. rewrite getColorByRAR_run.
    destruct (gt x (Fin 7)); [do 2 eexists; repeat split; cbn; tauto |].
    destruct (gt x (Fin 5)); [do 2 eexists; repeat split; cbn; tauto |].
    destruct (gt x (Fin 4)); do 2 eexists; repeat split; cbn; tauto.
  - intros x y h Hxy. rewrite !getColorByRAR_run.
    pose proof (gt_of_ge x y (Fin 7) Hxy) as H7.
    pose proof (gt_of_ge x y (Fin 5) Hxy) as H5.
    pose proof (gt_of_ge x y (Fin 4) Hxy) as H4.
    pose proof (gt_lower x 7 5 ltac:(discriminate)) as H75.
    pose proof (gt_lower x 5 4 ltac:(discriminate)) as H54.
    destruct (gt y (Fin 7)), (gt y (Fin 5)), (gt y (Fin 4)),
             (gt x (Fin 7)), (gt x (Fin 5)), (gt x (Fin 4));
      try (specialize (H7 eq_refl)); try (specialize (H5 eq_refl));
      try (specialize (H4 eq_refl)); try (specialize (H75 eq_refl));
      try (specialize (H54 eq_refl)); try discriminate;
      do 4 eexists; (split; [reflexivity |]); (split; [reflexivity |]);
      (split; [reflexivity |]); (split; [reflexivity |]); cbn; lia.
Qed.

(** The studio returns 8.31 and 4.37: the first is the greater, and its
    colour is of the higher tier. *)
Lemma getColorByRAR_total_monotone_witness :
  ge (Fin 8.31) (Fin 4.37) = true
  /\ exists cx cy tx ty,
       Studio.getColorByRAR (VNum (Fin 8.31)) [] = (Ok cx, [])
       /\ Studio.getColorByRAR (VNum (Fin 4.37)) [] = (Ok cy, [])
       /\ tier cx = Some tx /\ tier cy = Some ty /\ ty <= tx.
Proof.
  split; [reflexivity |].
  apply (proj2 getColorByRAR_total_monotone (Fin 8.31) (Fin 4.37) []).
  reflexivity.
Defined.

End Claims.

(** ** How the operations run on a heap of known shape *)

Module Runs.
Import FrameFacts.

Lemma bind_ok {A B} (m : M A) (k : A -> M B) (h h' : heap) (a : A) :
  m h = (Ok a, h') -> bind m k h = k a h'.
Proof. intros Hm. unfold bind. rewrite Hm. reflexivity. Qed.

Lemma bind_throw {A B} (m : M A) (k : A -> M B) (h h' : heap) (e : exn) :
  m h = (Throw e, h') -> bind m k h = (Throw e, h').
Proof. intros Hm. unfold bind. rewrite Hm. reflexivity. Qed.

(** A read of a property the prototype does not supply: the object's
    own, or [undefined]. *)
Lemma get_object (h : heap) (l : loc) (fields : list (string * value)) (key : string) :
  nth_error h l = Some (CObj fields) ->
  inherited key = false ->
  get (VRef l) key h = (Ok (or_undefined (field key fields)), h).
Proof.
  intros Hl Hkey. unfold get, deref, bind, property, ret. rewrite Hl, Hkey.
  destruct (field key fields); reflexivity.
Qed.

Lemma get_length (h : heap) (l : loc) (items : list value) :
  nth_error h l = Some (CArr items) ->
  get (VRef l) "length" h = (Ok (VNum (of_nat (List.length items))), h).
Proof. intros Hl. unfold get, deref, bind, ret. rewrite Hl. reflexivity. Qed.

Lemma index_array (h : heap) (l : loc) (items : list value) (i : nat) :
  nth_error h l = Some (CArr items) ->
  index (VRef l) i h = (Ok (nth i items VUndefined), h).
Proof. intros Hl. unfold index, deref, bind, ret. rewrite Hl. reflexivity. Qed.

Lemma array_length_array (h : heap) (l : loc) (items : list value) :
  nth_error h l = Some (CArr items) ->
  array_length (VRef l) h = (Ok (List.length items), h).
Proof. intros Hl. unfold array_length, deref, bind, ret. rewrite Hl. reflexivity. Qed.

Lemma items_of_array (h : heap) (l : loc) (items : list value) :
  nth_error h l = Some (CArr items) ->
  items_of (VRef l) h = (Ok items, h).
Proof. intros Hl. unfold items_of, deref, bind, ret. rewrite Hl. reflexivity. Qed.

Lemma toFixed_number (h : heap) (x : number) (digits : nat) (text : string) :
  digits <= 100 -> Num.to_fixed x digits = Some text ->
  toFixed (VNum x) digits h = (Ok (VStr text), h).
Proof.
  intros Hd Hx. unfold toFixed.
  replace (Nat.ltb 100 digits) with false
    by (symmetry; apply Nat.ltb_ge; exact Hd).
  rewrite Hx. reflexivity.
Qed.

Lemma lookup_kept (h new : heap) (l : loc) (c : cell) :
  nth_error h l = Some c -> nth_error (h ++ new) l = Some c.
Proof.
  intros Hl. rewrite nth_error_app1; [exact Hl |].
  apply nth_error_Some. rewrite Hl. discriminate.
Qed.

Lemma lookup_new (h new : heap) (i : nat) :
  nth_error (h ++ new) (List.length h + i) = nth_error new i.
Proof.
  rewrite nth_error_app2 by lia. f_equal. lia.
Qed.

Lemma new_objects_run (rows : list (list (string * value))) (h : heap) :
  new_objects rows h
  = (Ok (map VRef (seq (List.length h) (List.length rows))), h ++ map CObj rows).
Proof.
  revert h. induction rows as [| r rest IH]; intros h; cbn [new_objects].
  - cbn. rewrite app_nil_r. reflexivity.
  - unfold new_object, alloc. unfold bind at 1.
    rewrite (bind_ok _ _ _ _ _ (IH (h ++ [CObj r]))).
    unfold ret. rewrite length_app, <- app_assoc. cbn [List.length map seq app].
    replace (List.length h + 1) with (S (List.length h)) by lia.
    reflexivity.
Qed.

(** An array literal of object literals adds one object per row, in
    order, and then the array of their references. *)
Lemma array_of_objects_run (rows : list (list (string * value))) (h : heap) :
  array_of_objects rows h
  = (Ok (VRef (List.length h + List.length rows)),
     h ++ map CObj rows
       ++ [CArr (map VRef (seq (List.length h) (List.length rows)))]).
Proof.
  unfold array_of_objects.
  rewrite (bind_ok _ _ _ _ _ (new_objects_run rows h)).
  unfold new_array, alloc. rewrite length_app, length_map, <- app_assoc.
  reflexivity.
Qed.

Lemma map_from_run (l : loc) (items : list value) (f : value -> nat -> M value)
      (g : nat -> value) (h : heap) (count : nat) :
  nth_error h l = Some (CArr items) ->
  forall i,
    (forall j, i <= j < i + count -> f (nth j items VUndefined) j h = (Ok (g j), h)) ->
    map_from (VRef l) f i count h = (Ok (map g (seq i count)), h).
Proof.
  intros Hl. induction count as [| count IH]; intros i Hf; cbn [map_from seq map].
  - reflexivity.
  - rewrite (bind_ok _ _ _ _ _ (index_array h l items i Hl)).
    rewrite (bind_ok _ _ _ _ _ (Hf i ltac:(lia))).
    rewrite (bind_ok _ _ _ _ _ (IH (S i) ltac:(intros j Hj; apply Hf; lia))).
    reflexivity.
Qed.

(** [arr.map(f)] with a callback that only reads: a new array of as many
    entries as [arr] has, the source left as it was. *)
Lemma array_map_run (l : loc) (items : list value) (f : value -> nat -> M value)
      (g : nat -> value) (h : heap) :
  nth_error h l = Some (CArr items) ->
  (forall j, j < List.length items -> f (nth j items VUndefined) j h = (Ok (g j), h)) ->
  array_map (VRef l) f h
  = (Ok (VRef (List.length h)), h ++ [CArr (map g (seq 0 (List.length items)))]).
Proof.
  intros Hl Hf. unfold array_map.
  rewrite (bind_ok _ _ _ _ _ (array_length_array h l items Hl)).
  rewrite (bind_ok _ _ _ _ _
             (map_from_run l items f g h (List.length items) Hl 0
                ltac:(intros j Hj; apply Hf; lia))).
  reflexivity.
Qed.

End Runs.

Module Extras.
Import FrameFacts Runs.

(** *** getColorByRAR *)

(** The three tests of [getColorByRAR] are strict: the colour changes just
    above 7, 5 and 4, so a return of exactly 7 is in the second band, 5 in
    the third and 4 in the last. The four bands cover every finite return
    and do not overlap. *)
Theorem getColorByRAR_bands (q : Q) (h : heap) :
  exists c : string,
    Studio.getColorByRAR (num q) h = (Ok (VStr c), h)
    /\ ((7 < q)%Q <-> c = "#1a237e")
    /\ ((5 < q /\ q <= 7)%Q <-> c = "#283593")
    /\ ((4 < q /\ q <= 5)%Q <-> c = "#3949ab")
    /\ ((q <= 4)%Q <-> c = "#5c6bc0").
Proof.
  unfold num. rewrite Claims.getColorByRAR_run. cbn [gt].
  destruct (Qcompare_spec q 7) as [H7 | H7 | H7],
           (Qcompare_spec q 5) as [H5 | H5 | H5],
           (Qcompare_spec q 4) as [H4 | H4 | H4];
    try (exfalso; lra);
    (eexists; split; [reflexivity |]);
    repeat split; intros; try discriminate; try reflexivity; try lra.
Qed.

(** An index below 10^21 prints as a plain decimal. *)
Lemma index_prints (i : nat) :
  (Z.of_nat i < 10 ^ 21)%Z ->
  exists text, Num.to_string (of_nat i) = Some text.
Proof.
  intros Hi. unfold Num.to_string, of_nat.
  assert (Hplain : plain_range (inject_Z (Z.of_nat i)) = true).
  { unfold plain_range. destruct (Z.eq_dec (Z.of_nat i) 0) as [H0 | H0].
    - rewrite H0. reflexivity.
    - apply orb_true_iff. right. apply andb_true_iff. split.
      + unfold below_1e21.
        replace (Qabs (inject_Z (Z.of_nat i))) with (inject_Z (Z.of_nat i))
          by (unfold Qabs, inject_Z; rewrite Z.abs_eq by lia; reflexivity).
        assert (Hlt : (inject_Z (Z.of_nat i) < inject_Z (10 ^ 21))%Q)
          by (rewrite <- Zlt_Qlt; exact Hi).
        destruct (Qcompare_spec (inject_Z (Z.of_nat i)) (inject_Z (10 ^ 21)));
          [exfalso; lra | reflexivity | exfalso; lra].
      + replace (Qabs (inject_Z (Z.of_nat i))) with (inject_Z (Z.of_nat i))
          by (unfold Qabs, inject_Z; rewrite Z.abs_eq by lia; reflexivity).
        assert (Hgt : (1 # 1000000 < inject_Z (Z.of_nat i))%Q).
        { unfold Qlt, inject_Z. cbn [Qnum Qden]. lia. }
        destruct (Qcompare_spec (inject_Z (Z.of_nat i)) (1 # 1000000));
          [reflexivity | exfalso; lra | reflexivity]. }
  rewrite Hplain.
  assert (Hscale : exact_scale (inject_Z (Z.of_nat i)) 0 20 = Some 0).
  { cbn [exact_scale inject_Z Qnum Qden]. rewrite Z.mod_1_r. reflexivity. }
  rewrite Hscale. eexists. reflexivity.
Qed.

Lemma to_str_index (i : nat) (h : heap) :
  (Z.of_nat i < 10 ^ 21)%Z ->
  exists text,
    Num.to_string (of_nat i) = Some text
    /\ to_str (VNum (of_nat i)) h = (Ok text, h).
Proof.
  intros Hi. destruct (index_prints i Hi) as [text Htext].
  exists text. split; [exact Htext |].
  unfold to_str. rewrite Htext. reflexivity.
Qed.

(** *** The callbacks of the two [data.map] calls *)

Lemma cell_of_run (h : heap) (l : loc) (row : list (string * value)) (i : nat)
      (x : number) (index : string) (fill : value) :
  nth_error h l = Some (CObj row) ->
  return_of row = Some x ->
  Num.to_string (of_nat i) = Some index ->
  Studio.getColorByRAR (VNum x) h = (Ok fill, h) ->
  Studio.cell_of (VRef l) i h = (Ok (bar_cell index fill), h).
Proof.
  intros Hl Hx Hi Hfill. unfold Studio.cell_of.
  assert (Hstr : to_str (VNum (of_nat i)) h = (Ok index, h))
    by (unfold to_str; rewrite Hi; reflexivity).
  rewrite (bind_ok _ _ _ _ _ Hstr).
  rewrite (bind_ok _ _ _ _ _ (get_object h l row "riskAdjustedReturn" Hl eq_refl)).
  unfold return_of in Hx.
  destruct (field "riskAdjustedReturn" row) as [[| | | y | | | |] |];
    try discriminate.
  injection Hx as ->. cbn [or_undefined].
  rewrite (bind_ok _ _ _ _ _ Hfill). reflexivity.
Qed.

Lemma even_mod2 (i : nat) : Nat.eqb (i mod 2) 0 = Nat.even i.
Proof.
  rewrite <- Nat.negb_odd, <- Nat.bit0_odd, Nat.bit0_eqb.
  pose proof (Nat.mod_upper_bound i 2 ltac:(discriminate)) as Hlt.
  destruct (i mod 2) as [| [| m]]; [reflexivity | reflexivity | lia].
Qed.

Lemma printed2_field (key : string) (row : list (string * value)) (text : string) :
  printed2 key row = Some text ->
  exists x, field key row = Some (VNum x) /\ Num.to_fixed x 2 = Some text.
Proof.
  unfold printed2.
  destruct (field key row) as [[| | | x | | | |] |]; try discriminate.
  intros Hx. exists x. split; [reflexivity | exact Hx].
Qed.

Lemma row_of_run (h : heap) (l : loc) (row : list (string * value)) (i : nat)
      (profit risk diversity : string) :
  nth_error h l = Some (CObj row) ->
  printed2 "profitRatio" row = Some profit ->
  printed2 "risk" row = Some risk ->
  printed2 "genreDiversity" row = Some diversity ->
  Studio.row_of (VRef l) i h
  = (Ok (table_row i (or_undefined (field "studio" row)) profit risk diversity), h).
Proof.
  intros Hl Hp Hr Hd. unfold Studio.row_of.
  destruct (printed2_field _ _ _ Hp) as [xp [Fp Tp]].
  destruct (printed2_field _ _ _ Hr) as [xr [Fr Tr]].
  destruct (printed2_field _ _ _ Hd) as [xd [Fd Td]].
  rewrite (bind_ok _ _ _ _ _ (get_object h l row "studio" Hl eq_refl)).
  rewrite (bind_ok _ _ _ _ _ (get_object h l row "profitRatio" Hl eq_refl)), Fp.
  cbn [or_undefined].
  rewrite (bind_ok _ _ _ _ _ (toFixed_number h xp 2 profit ltac:(lia) Tp)).
  rewrite (bind_ok _ _ _ _ _ (get_object h l row "risk" Hl eq_refl)), Fr.
  cbn [or_undefined].
  rewrite (bind_ok _ _ _ _ _ (toFixed_number h xr 2 risk ltac:(lia) Tr)).
  rewrite (bind_ok _ _ _ _ _ (get_object h l row "genreDiversity" Hl eq_refl)), Fd.
  cbn [or_undefined].
  rewrite (bind_ok _ _ _ _ _ (toFixed_number h xd 2 diversity ltac:(lia) Td)).
  unfold ret, table_row, td. rewrite even_mod2. reflexivity.
Qed.

Lemma nth_refs (n k j : nat) :
  j < k -> nth j (map VRef (seq n k)) VUndefined = VRef (n + j).
Proof.
  intros Hj. rewrite (nth_indep _ VUndefined (VRef 0)) by (rewrite length_map, length_seq; exact Hj).
  rewrite (map_nth VRef (seq n k) 0 j), seq_nth by exact Hj. reflexivity.
Qed.

Lemma nth_error_rows (rows : list (list (string * value))) (j : nat) :
  j < List.length rows -> exists row, nth_error rows j = Some row.
Proof.
  intros Hj. destruct (nth_error rows j) as [row |] eqn:Hrow.
  - exists row. reflexivity.
  - apply nth_error_None in Hrow. lia.
Qed.

Lemma row_ok_parts (row : list (string * value)) :
  studio_row_ok row = true ->
  exists x p r d,
    return_of row = Some x /\ printed2 "profitRatio" row = Some p
    /\ printed2 "risk" row = Some r /\ printed2 "genreDiversity" row = Some d.
Proof.
  unfold studio_row_ok. intros H.
  apply andb_true_iff in H as [H Hd]. apply andb_true_iff in H as [H Hr].
  apply andb_true_iff in H as [Hx Hp].
  destruct (return_of row) as [x |]; [| discriminate].
  destruct (printed2 "profitRatio" row) as [p |]; [| discriminate].
  destruct (printed2 "risk" row) as [r |]; [| discriminate].
  destruct (printed2 "genreDiversity" row) as [d |]; [| discriminate].
  exists x, p, r, d. repeat split.
Qed.

(** The studio chart over any rows, not only the six literal ones, an
    empty list included: given records that each hold a numeric return and
    three printable ratios, the render ends well, the BarChart is bound to
    an array that holds exactly those records, the Bar gets one [Cell] per
    record and the table body one row per record. The [Cell] at position
    [i] is keyed [cell-i] and filled with the colour of record [i]'s
    return; the table row at position [i] is striped by the parity of [i]
    and shows record [i]'s studio and its three ratios to two decimals. *)
Theorem studio_one_cell_and_row_per_record
        (rows : list (list (string * value))) (h : heap) :
  forallb studio_row_ok rows = true ->
  (Z.of_nat (List.length rows) < 10 ^ 21)%Z ->
  exists (margin ylabel : value) (dataRef cellsRef rowsRef : loc)
         (cells trs : list value) (final : heap),
    studio_chart rows h
    = (Ok (Studio.tree (VRef dataRef) margin ylabel (VRef cellsRef) (VRef rowsRef)), final)
    /\ holds_rows final dataRef rows
    /\ nth_error final cellsRef = Some (CArr cells)
    /\ nth_error final rowsRef = Some (CArr trs)
    /\ List.length cells = List.length rows
    /\ List.length trs = List.length rows
    /\ (forall i row,
           nth_error rows i = Some row ->
           exists x index fill p r d,
             return_of row = Some x
             /\ Num.to_string (of_nat i) = Some index
             /\ Studio.getColorByRAR (VNum x) final = (Ok fill, final)
             /\ nth_error cells i = Some (bar_cell index fill)
             /\ printed2 "profitRatio" row = Some p
             /\ printed2 "risk" row = Some r
             /\ printed2 "genreDiversity" row = Some d
             /\ nth_error trs i
                = Some (table_row i (or_undefined (field "studio" row)) p r d)).
Proof.
  intros Hok Hsize.
  set (n := List.length h). set (k := List.length rows).
  set (refs := map VRef (seq n k)).
  set (h0 := h ++ map CObj rows ++ [CArr refs]).
  set (marginC := CObj [numP "top" 20; numP "right" 30; numP "left" 20; numP "bottom" 70]).
  set (ylabelC := CObj [strP "value" "Risk-Adjusted Return"; numP "angle" (-90);
                        strP "position" "insideLeft"]).
  set (h2 := (h0 ++ [marginC]) ++ [ylabelC]).
  (* the heap after the literals *)
  assert (Hdata : nth_error h2 (n + k) = Some (CArr refs)).
  { unfold h2. do 2 apply lookup_kept. unfold h0.
    rewrite app_assoc. replace (n + k) with (List.length (h ++ map CObj rows) + 0)
      by (rewrite length_app, length_map; unfold n, k; lia).
    rewrite lookup_new. reflexivity. }
  assert (Hrow : forall j row, nth_error rows j = Some row ->
                               nth_error h2 (n + j) = Some (CObj row)).
  { intros j row Hj. unfold h2. do 2 apply lookup_kept. unfold h0.
    rewrite app_assoc. apply lookup_kept. unfold n. rewrite lookup_new.
    rewrite nth_error_map, Hj. reflexivity. }
  assert (Hlen : List.length refs = k)
    by (unfold refs; rewrite length_map, length_seq; reflexivity).
  (* what the two callbacks return *)
  set (colour := fun x : number =>
                   if gt x (Fin 7) then VStr "#1a237e"
                   else if gt x (Fin 5) then VStr "#283593"
                   else if gt x (Fin 4) then VStr "#3949ab"
                   else VStr "#5c6bc0").
  set (cell := fun j : nat =>
                 match nth_error rows j, Num.to_string (of_nat j) with
                 | Some row, Some index =>
                     match return_of row with
                     | Some x => bar_cell index (colour x)
                     | None => VUndefined
                     end
                 | _, _ => VUndefined
                 end).
  set (tr := fun j : nat =>
               match nth_error rows j with
               | Some row =>
                   match printed2 "profitRatio" row, printed2 "risk" row,
                         printed2 "genreDiversity" row with
                   | Some p, Some r, Some d =>
                       table_row j (or_undefined (field "studio" row)) p r d
                   | _, _, _ => VUndefined
                   end
               | None => VUndefined
               end).
  assert (Hfacts : forall j row, nth_error rows j = Some row ->
            exists x index p r d,
              return_of row = Some x /\ Num.to_string (of_nat j) = Some index
              /\ printed2 "profitRatio" row = Some p /\ printed2 "risk" row = Some r
              /\ printed2 "genreDiversity" row = Some d).
  { intros j row Hj.
    assert (Hin : In row rows) by (eapply nth_error_In; exact Hj).
    pose proof (proj1 (forallb_forall _ _) Hok row Hin) as Hrowok.
    destruct (row_ok_parts row Hrowok) as [x [p [r [d [Hx [Hp [Hr Hd]]]]]]].
    assert (Hjk : j < k) by (apply nth_error_Some; rewrite Hj; discriminate).
    destruct (index_prints j ltac:(unfold k in Hjk; lia)) as [index Hindex].
    exists x, index, p, r, d. repeat split; assumption. }
  set (h3 := h2 ++ [CArr (map cell (seq 0 k))]).
  set (h4 := h3 ++ [CArr (map tr (seq 0 k))]).
  exists (VRef (List.length h0)), (VRef (List.length (h0 ++ [marginC]))), (n + k),
         (List.length h2), (List.length h3), (map cell (seq 0 k)), (map tr (seq 0 k)), h4.
  split.
  { unfold studio_chart.
    rewrite (bind_ok _ _ _ _ _ (array_of_objects_run rows h)).
    fold n k refs h0. unfold Studio.markup.
    unfold new_object at 1, alloc. unfold bind at 1.
    unfold new_object at 1, alloc. unfold bind at 1.
    fold marginC ylabelC h2.
    assert (Hcells : array_map (VRef (n + k)) Studio.cell_of h2
                     = (Ok (VRef (List.length h2)), h3)).
    { unfold h3. rewrite <- Hlen at 2.
      apply array_map_run; [exact Hdata |].
      rewrite Hlen. intros j Hj. unfold refs. rewrite nth_refs by exact Hj.
      destruct (nth_error_rows rows j Hj) as [row Hrowj].
      destruct (Hfacts j row Hrowj) as [x [index [p [r [d [Hx [Hi _]]]]]]].
      unfold cell. rewrite Hrowj, Hi, Hx.
      apply (cell_of_run h2 (n + j) row j x index);
        [apply Hrow; exact Hrowj | exact Hx | exact Hi |].
      apply Claims.getColorByRAR_run. }
    rewrite (bind_ok _ _ _ _ _ Hcells).
    assert (Htrs : array_map (VRef (n + k)) Studio.row_of h3
                   = (Ok (VRef (List.length h3)), h4)).
    { unfold h4. rewrite <- Hlen at 2.
      apply array_map_run; [apply lookup_kept; exact Hdata |].
      rewrite Hlen. intros j Hj. unfold refs. rewrite nth_refs by exact Hj.
      destruct (nth_error_rows rows j Hj) as [row Hrowj].
      destruct (Hfacts j row Hrowj) as [x [index [p [r [d [_ [_ [Hp [Hr Hd]]]]]]]]].
      unfold tr. rewrite Hrowj, Hp, Hr, Hd.
      apply row_of_run; [apply lookup_kept, Hrow; exact Hrowj | assumption ..]. }
    rewrite (bind_ok _ _ _ _ _ Htrs). reflexivity. }
  split.
  { exists refs. split; [unfold h4, h3; do 2 apply lookup_kept; exact Hdata |].
    split; [exact Hlen |].
    intros i row Hi. exists (n + i). split.
    - assert (Hik : i < k) by (apply nth_error_Some; rewrite Hi; discriminate).
      unfold refs. rewrite nth_error_map, nth_error_seq.
      replace (Nat.ltb i k) with true by (symmetry; apply Nat.ltb_lt; exact Hik).
      reflexivity.
    - unfold h4, h3. do 2 apply lookup_kept. apply Hrow. exact Hi. }
  split.
  { unfold h4. apply lookup_kept. unfold h3.
    replace (List.length h2) with (List.length h2 + 0) by lia.
    rewrite lookup_new. reflexivity. }
  split.
  { unfold h4. replace (List.length h3) with (List.length h3 + 0) by lia.
    rewrite lookup_new. reflexivity. }
  split; [rewrite length_map, length_seq; reflexivity |].
  split; [rewrite length_map, length_seq; reflexivity |].
  intros i row Hi.
  destruct (Hfacts i row Hi) as [x [index [p [r [d [Hx [Hidx [Hp [Hr Hd]]]]]]]]].
  assert (Hik : i < k) by (apply nth_error_Some; rewrite Hi; discriminate).
  exists x, index, (colour x), p, r, d.
  split; [exact Hx |]. split; [exact Hidx |].
  split; [apply Claims.getColorByRAR_run |].
  split.
  { rewrite nth_error_map, nth_error_seq.
    replace (Nat.ltb i k) with true by (symmetry; apply Nat.ltb_lt; exact Hik).
    cbn [option_map Nat.add]. unfold cell. rewrite Hi, Hidx, Hx. reflexivity. }
  split; [exact Hp |]. split; [exact Hr |]. split; [exact Hd |].
  rewrite nth_error_map, nth_error_seq.
  replace (Nat.ltb i k) with true by (symmetry; apply Nat.ltb_lt; exact Hik).
  cbn [option_map Nat.add]. unfold tr. rewrite Hi, Hp, Hr, Hd. reflexivity.
Qed.

(** *** CustomTooltip *)

Lemma printed_field (digits : nat) (key : string) (row : list (string * value))
      (text : string) :
  printed digits key row = Some text ->
  exists x, field key row = Some (VNum x) /\ Num.to_fixed x digits = Some text.
Proof.
  unfold printed.
  destruct (field key row) as [[| | | x | | | |] |]; try discriminate.
  intros Hx. exists x. split; [reflexivity | exact Hx].
Qed.

Lemma hover_unfolds (entry active : value) (h : heap) :
  hover entry active h
  = Budget.CustomTooltip (VRef (S (S (List.length h))))
      (h ++ hover_cells (List.length h) entry active).
Proof.
  unfold hover, new_object, new_array, alloc, bind, hover_cells.
  rewrite !length_app. cbn [List.length]. rewrite <- !app_assoc.
  replace (List.length h + 1) with (S (List.length h)) by lia.
  replace (S (List.length h) + 1) with (S (S (List.length h))) by lia.
  reflexivity.
Qed.

Lemma hover_props (entry active : value) (h : heap) :
  nth_error (h ++ hover_cells (List.length h) entry active) (S (S (List.length h)))
  = Some (CObj [("active", active); ("payload", VRef (S (List.length h)))])
  /\ nth_error (h ++ hover_cells (List.length h) entry active) (S (List.length h))
     = Some (CArr [VRef (List.length h)])
  /\ nth_error (h ++ hover_cells (List.length h) entry active) (List.length h)
     = Some (CObj [("payload", entry)]).
Proof.
  split; [| split].
  - pose proof (lookup_new h (hover_cells (List.length h) entry active) 2) as H.
    replace (List.length h + 2) with (S (S (List.length h))) in H by lia. exact H.
  - pose proof (lookup_new h (hover_cells (List.length h) entry active) 1) as H.
    replace (List.length h + 1) with (S (List.length h)) in H by lia. exact H.
  - pose proof (lookup_new h (hover_cells (List.length h) entry active) 0) as H.
    rewrite Nat.add_0_r in H. exact H.
Qed.

(** The tooltip hides, returning null and touching nothing, as soon as
    one of its three guards fails: [active] is falsy or missing, [payload]
    is falsy or missing, or [payload] is an empty array. It then never
    looks at an entry. *)
Theorem tooltip_hidden (p : loc) (fields : list (string * value)) (h : heap) :
  nth_error h p = Some (CObj fields) ->
  truthy (or_undefined (field "active" fields)) = false
  \/ truthy (or_undefined (field "payload" fields)) = false
  \/ (exists a, field "payload" fields = Some (VRef a)
                /\ nth_error h a = Some (CArr [])) ->
  Budget.CustomTooltip (VRef p) h = (Ok VNull, h).
Proof.
  intros Hp Hguard. unfold Budget.CustomTooltip.
  rewrite (bind_ok _ _ _ _ _ (get_object _ _ _ "active" Hp eq_refl)).
  rewrite (bind_ok _ _ _ _ _ (get_object _ _ _ "payload" Hp eq_refl)).
  destruct (truthy (or_undefined (field "active" fields))) eqn:Hactive;
    [| reflexivity].
  destruct Hguard as [Hoff | [Hoff | [a [Hfield Ha]]]]; [discriminate | |].
  - rewrite Hoff. reflexivity.
  - rewrite Hfield. cbn [or_undefined truthy].
    assert (Hshown : (len <- get (VRef a) "length" ;; ret (truthy len)) h
                     = (Ok false, h))
      by (rewrite (bind_ok _ _ _ _ _ (get_length _ _ _ Ha)); reflexivity).
    rewrite (bind_ok _ _ _ _ _ Hshown). reflexivity.
Qed.

(** The element the JSX writes, [<CustomTooltip />], has no props: the
    tooltip is hidden. *)
Lemma tooltip_hidden_witness :
  nth_error [CObj []] 0 = Some (CObj [])
  /\ Budget.CustomTooltip (VRef 0) [CObj []] = (Ok VNull, [CObj []]).
Proof.
  split; [reflexivity |].
  apply (tooltip_hidden 0 [] [CObj []]); [reflexivity |].
  left. reflexivity.
Defined.

(** An active tooltip over a record prints its genre, its budget and
    revenue to one decimal and its efficiency to two. *)
Theorem tooltip_shows_record (e : loc) (row : list (string * value)) (active : value)
        (budget revenue efficiency : string) (h : heap) :
  nth_error h e = Some (CObj row) ->
  truthy active = true ->
  printed 1 "budget" row = Some budget ->
  printed 1 "revenue" row = Some revenue ->
  printed 2 "efficiency" row = Some efficiency ->
  hover (VRef e) active h
  = (Ok (tooltip_box (or_undefined (field "genre" row)) budget revenue efficiency),
     h ++ hover_cells (List.length h) (VRef e) active).
Proof.
  intros He Hactive Hb Hr Hf. rewrite hover_unfolds.
  destruct (hover_props (VRef e) active h) as [Hprops [Hpayload Hitem]].
  destruct (printed_field _ _ _ _ Hb) as [xb [Fb Tb]].
  destruct (printed_field _ _ _ _ Hr) as [xr [Fr Tr]].
  destruct (printed_field _ _ _ _ Hf) as [xf [Ff Tf]].
  set (h3 := h ++ hover_cells (List.length h) (VRef e) active) in *.
  assert (He3 : nth_error h3 e = Some (CObj row)) by (apply lookup_kept; exact He).
  unfold Budget.CustomTooltip.
  rewrite (bind_ok _ _ _ _ _ (get_object _ _ _ "active" Hprops eq_refl)).
  rewrite (bind_ok _ _ _ _ _ (get_object _ _ _ "payload" Hprops eq_refl)).
  cbn [field String.eqb Ascii.eqb Bool.eqb or_undefined].
  rewrite Hactive. cbn [truthy].
  assert (Hshown : (len <- get (VRef (S (List.length h))) "length" ;; ret (truthy len)) h3
                   = (Ok true, h3))
    by (rewrite (bind_ok _ _ _ _ _ (get_length _ _ _ Hpayload)); reflexivity).
  rewrite (bind_ok _ _ _ _ _ Hshown).
  rewrite (bind_ok _ _ _ _ _ (index_array _ _ _ 0 Hpayload)). cbn [nth].
  rewrite (bind_ok _ _ _ _ _ (get_object _ _ _ "payload" Hitem eq_refl)).
  cbn [field String.eqb Ascii.eqb Bool.eqb or_undefined].
  rewrite (bind_ok _ _ _ _ _ (get_object _ _ _ "genre" He3 eq_refl)).
  rewrite (bind_ok _ _ _ _ _ (get_object _ _ _ "budget" He3 eq_refl)), Fb. cbn [or_undefined].
  rewrite (bind_ok _ _ _ _ _ (toFixed_number h3 xb 1 budget ltac:(lia) Tb)).
  rewrite (bind_ok _ _ _ _ _ (get_object _ _ _ "revenue" He3 eq_refl)), Fr. cbn [or_undefined].
  rewrite (bind_ok _ _ _ _ _ (toFixed_number h3 xr 1 revenue ltac:(lia) Tr)).
  rewrite (bind_ok _ _ _ _ _ (get_object _ _ _ "efficiency" He3 eq_refl)), Ff. cbn [or_undefined].
  rewrite (bind_ok _ _ _ _ _ (toFixed_number h3 xf 2 efficiency ltac:(lia) Tf)).
  reflexivity.
Qed.

(** The record of the fifth horror row, alone on the heap, under an
    active tooltip. *)
Lemma tooltip_shows_record_witness :
  hover (VRef 0) (VBool true) [CObj (nth 4 Budget.horrorData [])]
  = (Ok (tooltip_box (VStr "Horror") "10.1" "35.3" "3.49"),
     [CObj (nth 4 Budget.horrorData [])] ++ hover_cells 1 (VRef 0) (VBool true)).
Proof.
  apply (tooltip_shows_record 0 (nth 4 Budget.horrorData []) (VBool true)
           "10.1" "35.3" "3.49" [CObj (nth 4 Budget.horrorData [])]);
    reflexivity.
Defined.

Lemma bind_reads {A B} (m : M A) (k : A -> M B) (h : heap) :
  reads_only m ->
  bind m k h
  = match fst (m h) with
    | Ok a => k a h
    | Throw e => (Throw e, h)
    | Unmodelled w => (Unmodelled w, h)
    end.
Proof.
  intros Hm. unfold bind. specialize (Hm h).
  destruct (m h) as [[a | e | w] h']; cbn in *; subst h'; reflexivity.
Qed.

(** An active tooltip over a record that lacks [budget], [revenue] or
    [efficiency] does not end well: [undefined.toFixed] throws. With
    [budget] missing the error is the TypeError of reading a property of
    undefined. *)
Theorem tooltip_fails_on_missing_number
        (e : loc) (row : list (string * value)) (active : value) (h : heap) :
  nth_error h e = Some (CObj row) ->
  truthy active = true ->
  field "budget" row = None \/ field "revenue" row = None
  \/ field "efficiency" row = None ->
  is_ok (fst (hover (VRef e) active h)) = false
  /\ (field "budget" row = None ->
      fst (hover (VRef e) active h)
      = Throw (TypeError "Cannot read properties of undefined or null")).
Proof.
  intros He Hactive Hmissing. rewrite hover_unfolds.
  destruct (hover_props (VRef e) active h) as [Hprops [Hpayload Hitem]].
  set (h3 := h ++ hover_cells (List.length h) (VRef e) active) in *.
  assert (He3 : nth_error h3 e = Some (CObj row)) by (apply lookup_kept; exact He).
  unfold Budget.CustomTooltip.
  rewrite (bind_ok _ _ _ _ _ (get_object _ _ _ "active" Hprops eq_refl)).
  rewrite (bind_ok _ _ _ _ _ (get_object _ _ _ "payload" Hprops eq_refl)).
  cbn [field String.eqb Ascii.eqb Bool.eqb or_undefined].
  rewrite Hactive. cbn [truthy].
  assert (Hshown : (len <- get (VRef (S (List.length h))) "length" ;; ret (truthy len)) h3
                   = (Ok true, h3))
    by (rewrite (bind_ok _ _ _ _ _ (get_length _ _ _ Hpayload)); reflexivity).
  rewrite (bind_ok _ _ _ _ _ Hshown).
  rewrite (bind_ok _ _ _ _ _ (index_array _ _ _ 0 Hpayload)). cbn [nth].
  rewrite (bind_ok _ _ _ _ _ (get_object _ _ _ "payload" Hitem eq_refl)).
  cbn [field String.eqb Ascii.eqb Bool.eqb or_undefined].
  rewrite (bind_ok _ _ _ _ _ (get_object _ _ _ "genre" He3 eq_refl)).
  rewrite (bind_ok _ _ _ _ _ (get_object _ _ _ "budget" He3 eq_refl)).
  rewrite (bind_reads (toFixed _ 1)) by apply reads_only_toFixed.
  split.
  - destruct (fst (toFixed (or_undefined (field "budget" row)) 1 h3)) as [bt | |] eqn:Hbt;
      [| reflexivity | reflexivity].
    rewrite (bind_ok _ _ _ _ _ (get_object _ _ _ "revenue" He3 eq_refl)).
    rewrite (bind_reads (toFixed _ 1)) by apply reads_only_toFixed.
    destruct (fst (toFixed (or_undefined (field "revenue" row)) 1 h3)) as [rt | |] eqn:Hrt;
      [| reflexivity | reflexivity].
    rewrite (bind_ok _ _ _ _ _ (get_object _ _ _ "efficiency" He3 eq_refl)).
    rewrite (bind_reads (toFixed _ 2)) by apply reads_only_toFixed.
    destruct (fst (toFixed (or_undefined (field "efficiency" row)) 2 h3)) as [ft | |] eqn:Hft;
      [| reflexivity | reflexivity].
    exfalso. destruct Hmissing as [Hm | [Hm | Hm]]; rewrite Hm in *; discriminate.
  - intros Hm. rewrite Hm. reflexivity.
Qed.

Lemma tooltip_fails_on_missing_number_witness :
  is_ok (fst (hover (VRef 0) (VBool true) [CObj [strP "genre" "Horror"]])) = false
  /\ (field "budget" [strP "genre" "Horror"] = None ->
      fst (hover (VRef 0) (VBool true) [CObj [strP "genre" "Horror"]])
      = Throw (TypeError "Cannot read properties of undefined or null")).
Proof.
  apply (tooltip_fails_on_missing_number 0 [strP "genre" "Horror"] (VBool true)
           [CObj [strP "genre" "Horror"]]);
    [reflexivity | reflexivity | left; reflexivity].
Defined.

(** *** renderScatter *)

(** The run of [renderScatter] over an array whose first record carries
    a genre, with any object in the place of [genreStats]. *)
Lemma renderScatter_run
      (s d r : loc) (stats row : list (string * value)) (rest : list value)
      (genre average : string) (colour : value) (h : heap) :
  nth_error h s = Some (CObj stats) ->
  nth_error h d = Some (CArr (VRef r :: rest)) ->
  nth_error h r = Some (CObj row) ->
  field "genre" row = Some (VStr genre) ->
  inherited genre = false ->
  stat_text stats genre = Some average ->
  Budget.renderScatter (VRef s) (VRef d) colour h
  = (Ok (scatter_element (scatter_name genre average) (VRef d) colour
                         (VRef (List.length h))),
     h ++ [CObj [("stroke", colour); numP "strokeWidth" 1]]).
Proof.
  intros Hs Hd Hr Hgenre Hown Havg. unfold Budget.renderScatter.
  rewrite (bind_ok _ _ _ _ _ (index_array _ _ _ 0 Hd)). cbn [nth].
  rewrite (bind_ok _ _ _ _ _ (get_object _ _ _ "genre" Hr eq_refl)), Hgenre.
  cbn [or_undefined to_str]. rewrite (bind_ok _ _ _ _ _ (eq_refl : ret genre h = _)).
  rewrite (bind_ok _ _ _ _ _ (index_array _ _ _ 0 Hd)). cbn [nth].
  rewrite (bind_ok _ _ _ _ _ (get_object _ _ _ "genre" Hr eq_refl)), Hgenre.
  cbn [or_undefined].
  assert (Hstat : get_computed (VRef s) (VStr genre) h
                  = (Ok (or_undefined (field genre stats)), h)).
  { unfold get_computed. cbn [to_str].
    rewrite (bind_ok _ _ _ _ _ (eq_refl : ret genre h = _)).
    apply get_object; assumption. }
  rewrite (bind_ok _ _ _ _ _ Hstat).
  assert (Htext : to_str (or_undefined (field genre stats)) h = (Ok average, h)).
  { unfold stat_text in Havg.
    destruct (field genre stats) as [[| | | x | | | |] |]; try discriminate.
    - cbn [or_undefined to_str]. rewrite Havg. reflexivity.
    - injection Havg as <-. reflexivity. }
  rewrite (bind_ok _ _ _ _ _ Htext).
  reflexivity.
Qed.

(** What a template literal writes for the entry of [genreStats] under
    any genre. *)
Lemma stat_text_genreStats (genre : string) :
  stat_text Budget.genreStats genre = Some (legend_average genre).
Proof.
  unfold stat_text, legend_average, Budget.genreStats, numP, num.
  cbn [field fst snd].
  destruct (String.eqb "Horror" genre); [reflexivity |].
  destruct (String.eqb "Science Fiction" genre); [reflexivity |].
  destruct (String.eqb "Action" genre); [reflexivity |].
  destruct (String.eqb "Drama" genre); reflexivity.
Qed.

(** [renderScatter], which closes over [genreStats], names a series after
    the genre of the first record of its array alone. For a genre that is
    a string no object inherits as a property name, the name is
    [genre (avg Nx)], where [N] is 3.29 for Horror, 1.6 for Science
    Fiction, 2.46 for Action, 1.87 for Drama and the word undefined for
    any other genre. The Scatter is bound to the very array passed, by
    reference, and the only cell added is the [line] object. *)
Theorem renderScatter_names_by_first_record
        (s d r : loc) (row : list (string * value)) (rest : list value)
        (genre : string) (colour : value) (h : heap) :
  nth_error h s = Some (CObj Budget.genreStats) ->
  nth_error h d = Some (CArr (VRef r :: rest)) ->
  nth_error h r = Some (CObj row) ->
  field "genre" row = Some (VStr genre) ->
  inherited genre = false ->
  Budget.renderScatter (VRef s) (VRef d) colour h
  = (Ok (scatter_element (scatter_name genre (legend_average genre)) (VRef d) colour
                         (VRef (List.length h))),
     h ++ [CObj [("stroke", colour); numP "strokeWidth" 1]]).
Proof.
  intros Hs Hd Hr Hgenre Hown.
  apply (renderScatter_run s d r Budget.genreStats row rest genre); try assumption.
  apply stat_text_genreStats.
Qed.

(** The Horror series of the literal data, and a series of a genre
    [genreStats] has no entry for. *)
Lemma renderScatter_names_by_first_record_witness :
  Budget.renderScatter (VRef 0) (VRef 2) (VStr "#d32f2f")
    [CObj Budget.genreStats; CObj (nth 0 Budget.horrorData []); CArr [VRef 1]]
  = (Ok (scatter_element "Horror (avg 3.29x)" (VRef 2) (VStr "#d32f2f") (VRef 3)),
     [CObj Budget.genreStats; CObj (nth 0 Budget.horrorData []); CArr [VRef 1]]
       ++ [CObj [("stroke", VStr "#d32f2f"); numP "strokeWidth" 1]])
  /\ Budget.renderScatter (VRef 0) (VRef 2) (VStr "#ff9800")
       [CObj Budget.genreStats; CObj [strP "genre" "Comedy"]; CArr [VRef 1]]
     = (Ok (scatter_element "Comedy (avg undefinedx)" (VRef 2) (VStr "#ff9800") (VRef 3)),
        [CObj Budget.genreStats; CObj [strP "genre" "Comedy"]; CArr [VRef 1]]
          ++ [CObj [("stroke", VStr "#ff9800"); numP "strokeWidth" 1]]).
Proof.
  split.
  - apply (renderScatter_names_by_first_record 0 2 1
             (nth 0 Budget.horrorData []) [] "Horror"); reflexivity.
  - apply (renderScatter_names_by_first_record 0 2 1
             [strP "genre" "Comedy"] [] "Comedy"); reflexivity.
Defined.

(** The run of [renderScatter] on an array with no entry. *)
Lemma renderScatter_empty_run (stats colour : value) (d : loc) (h : heap) :
  nth_error h d = Some (CArr []) ->
  Budget.renderScatter stats (VRef d) colour h
  = (Throw (TypeError "Cannot read properties of undefined or null"), h).
Proof.
  intros Hd. unfold Budget.renderScatter.
  rewrite (bind_ok _ _ _ _ _ (index_array _ _ _ 0 Hd)). reflexivity.
Qed.

(** On an empty array [renderScatter] throws where it reads
    [data[0].genre], whatever [genreStats] and the colour are, and leaves
    the heap as it was. *)
Theorem renderScatter_throws_on_empty (stats colour : value) (d : loc) (h : heap) :
  nth_error h d = Some (CArr []) ->
  Budget.renderScatter stats (VRef d) colour h
  = (Throw (TypeError "Cannot read properties of undefined or null"), h).
Proof.
  intros Hd. unfold Budget.renderScatter.
  rewrite (bind_ok _ _ _ _ _ (index_array _ _ _ 0 Hd)). reflexivity.
Qed.

Lemma renderScatter_throws_on_empty_witness :
  Budget.renderScatter VUndefined (VRef 0) (VStr "#000000") [CArr []]
  = (Throw (TypeError "Cannot read properties of undefined or null"), [CArr []]).
Proof. apply (renderScatter_throws_on_empty _ _ 0 [CArr []]). reflexivity. Defined.

(** *** Records with a field missing *)

(** A studio record with no [riskAdjustedReturn] still gets its [Cell]:
    the missing value compares false with every threshold, so the Cell
    takes the colour of the lowest band and nothing throws. *)
Theorem cell_of_record_without_return
        (l : loc) (row : list (string * value)) (i : nat) (h : heap) :
  nth_error h l = Some (CObj row) ->
  field "riskAdjustedReturn" row = None ->
  (Z.of_nat i < 10 ^ 21)%Z ->
  exists index,
    Num.to_string (of_nat i) = Some index
    /\ Studio.cell_of (VRef l) i h = (Ok (bar_cell index (VStr "#5c6bc0")), h).
Proof.
  intros Hl Hmissing Hi.
  destruct (to_str_index i h Hi) as [index [Hindex Hstr]].
  exists index. split; [exact Hindex |].
  unfold Studio.cell_of.
  rewrite (bind_ok _ _ _ _ _ Hstr).
  rewrite (bind_ok _ _ _ _ _ (get_object _ _ _ "riskAdjustedReturn" Hl eq_refl)), Hmissing.
  reflexivity.
Qed.

Lemma cell_of_record_without_return_witness :
  exists index,
    Num.to_string (of_nat 3) = Some index
    /\ Studio.cell_of (VRef 0) 3 [CObj [strP "studio" "A24"]]
       = (Ok (bar_cell index (VStr "#5c6bc0")), [CObj [strP "studio" "A24"]]).
Proof.
  apply (cell_of_record_without_return 0 [strP "studio" "A24"] 3
           [CObj [strP "studio" "A24"]]); reflexivity.
Defined.



(** *** The charts over any rows *)

Lemma bind_assoc {A B C} (m : M A) (k : A -> M B) (k' : B -> M C) (h : heap) :
  bind (bind m k) k' h = bind m (fun a => bind (k a) k') h.
Proof.
  unfold bind. destruct (m h) as [[a | e | w] h1]; [| reflexivity | reflexivity].
  destruct (k a h1) as [[b | e | w] h2]; reflexivity.
Qed.

(** The components are these charts over their literal rows. *)
Lemma components_are_charts (h : heap) :
  Genre.GenreVisualization h = genre_chart Genre.data h
  /\ Studio.StudioPerformance h = studio_chart Studio.data h
  /\ Budget.BudgetEfficiencyAnalysis h
     = budget_chart Budget.horrorData Budget.scifiData Budget.actionData
                    Budget.dramaData h.
Proof.
  split; [reflexivity | split; [reflexivity |]].
  unfold Budget.BudgetEfficiencyAnalysis, Budget.declarations, budget_chart.
  apply bind_assoc.
Qed.

Lemma holds_rows_kept (h new : heap) (d : loc) (rows : list (list (string * value))) :
  holds_rows h d rows -> holds_rows (h ++ new) d rows.
Proof.
  intros [items [Hd [Hlen Hrows]]]. exists items.
  split; [apply lookup_kept; exact Hd |]. split; [exact Hlen |].
  intros i row Hi. destruct (Hrows i row Hi) as [r [Hitem Hr]].
  exists r. split; [exact Hitem | apply lookup_kept; exact Hr].
Qed.

(** An array literal of object literals leaves an array that holds its
    rows, behind the heap it found. *)
Lemma array_of_objects_holds (rows : list (list (string * value))) (h : heap) :
  exists d new,
    array_of_objects rows h = (Ok (VRef d), h ++ new)
    /\ holds_rows (h ++ new) d rows.
Proof.
  exists (List.length h + List.length rows).
  exists (map CObj rows ++ [CArr (map VRef (seq (List.length h) (List.length rows)))]).
  split; [apply array_of_objects_run |].
  exists (map VRef (seq (List.length h) (List.length rows))).
  split.
  - rewrite app_assoc.
    replace (List.length h + List.length rows)
      with (List.length (h ++ map CObj rows) + 0)
      by (rewrite length_app, length_map; lia).
    rewrite lookup_new. reflexivity.
  - split; [rewrite length_map, length_seq; reflexivity |].
    intros i row Hi.
    assert (Hik : i < List.length rows)
      by (apply nth_error_Some; rewrite Hi; discriminate).
    exists (List.length h + i). split.
    + rewrite nth_error_map, nth_error_seq.
      replace (Nat.ltb i (List.length rows)) with true
        by (symmetry; apply Nat.ltb_lt; exact Hik).
      reflexivity.
    + rewrite app_assoc. apply lookup_kept. rewrite lookup_new.
      rewrite nth_error_map, Hi. reflexivity.
Qed.

Lemma leads_with_kept (h new : heap) (d : loc) (genre : string) :
  leads_with h d genre -> leads_with (h ++ new) d genre.
Proof.
  intros [r [rest [row [Hd [Hr [Hg Hown]]]]]]. exists r, rest, row.
  repeat split; try assumption; apply lookup_kept; assumption.
Qed.

Lemma holds_rows_leads (h : heap) (d : loc) (rows : list (list (string * value)))
      (genre : string) :
  holds_rows h d rows -> starts_with_genre rows genre -> leads_with h d genre.
Proof.
  intros [items [Hd [Hlen Hrows]]] [row [rest [-> [Hg Hown]]]].
  destruct (Hrows 0 row eq_refl) as [r [Hitem Hr]].
  destruct items as [| first others]; [discriminate |].
  injection Hitem as ->.
  exists r, others, row. repeat split; assumption.
Qed.

Lemma renderScatter_step (s d : loc) (genre : string) (colour : value) (h : heap) :
  nth_error h s = Some (CObj Budget.genreStats) ->
  leads_with h d genre ->
  Budget.renderScatter (VRef s) (VRef d) colour h
  = (Ok (scatter_element (scatter_name genre (legend_average genre)) (VRef d) colour
                         (VRef (List.length h))),
     h ++ [CObj [("stroke", colour); numP "strokeWidth" 1]]).
Proof.
  intros Hs [r [rest [row [Hd [Hr [Hg Hown]]]]]].
  exact (renderScatter_run s d r Budget.genreStats row rest genre
           (legend_average genre) colour h Hs Hd Hr Hg Hown
           (stat_text_genreStats genre)).
Qed.

(** The [return] of the budget chart on a heap where [genreStats] and the
    four arrays are in place: four Scatters in the order horror, science
    fiction, action, drama, each bound to its own array by reference and
    named after its first record; [combinedData] is not looked at. *)
Lemma markup_run (s hd sd ad dd : loc) (combined : value)
      (g1 g2 g3 g4 : string) (h : heap) :
  nth_error h s = Some (CObj Budget.genreStats) ->
  leads_with h hd g1 -> leads_with h sd g2 ->
  leads_with h ad g3 -> leads_with h dd g4 ->
  exists margin xdomain ydomain zrange l1 l2 l3 l4 new,
    Budget.markup
      (Budget.Scope (Budget.Arrays (VRef hd) (VRef sd) (VRef ad) (VRef dd))
                    combined (VRef s)) h
    = (Ok (Budget.tree margin xdomain ydomain zrange
             (scatter_element (scatter_name g1 (legend_average g1)) (VRef hd)
                              (VStr "#d32f2f") l1)
             (scatter_element (scatter_name g2 (legend_average g2)) (VRef sd)
                              (VStr "#2e7d32") l2)
             (scatter_element (scatter_name g3 (legend_average g3)) (VRef ad)
                              (VStr "#1976d2") l3)
             (scatter_element (scatter_name g4 (legend_average g4)) (VRef dd)
                              (VStr "#7b1fa2") l4)),
       h ++ new).
Proof.
  intros Hs L1 L2 L3 L4. unfold Budget.markup.
  cbn [Budget.statsRef Budget.sources Budget.horrorRef Budget.scifiRef
       Budget.actionRef Budget.dramaRef].
  unfold new_object at 1, new_array at 1, new_array at 1, new_array at 1, alloc.
  unfold bind at 1. unfold bind at 1. unfold bind at 1. unfold bind at 1.
  set (c1 := CObj [numP "top" 20; numP "right" 20; numP "bottom" 20; numP "left" 20]).
  set (c2 := CArr [num 0; num 200]).
  set (c3 := CArr [num 0; num 400]).
  set (c4 := CArr [num 60; num 400]).
  set (h4 := (((h ++ [c1]) ++ [c2]) ++ [c3]) ++ [c4]).
  assert (K : forall l c, nth_error h l = Some c -> nth_error h4 l = Some c)
    by (intros l c Hl; unfold h4; do 4 apply lookup_kept; exact Hl).
  assert (KL : forall d g, leads_with h d g -> leads_with h4 d g)
    by (intros d g Hl; unfold h4; do 4 apply leads_with_kept; exact Hl).
  rewrite (bind_ok _ _ _ _ _
             (renderScatter_step s hd g1 (VStr "#d32f2f") h4 (K _ _ Hs) (KL _ _ L1))).
  set (h5 := h4 ++ [CObj [("stroke", VStr "#d32f2f"); numP "strokeWidth" 1]]).
  rewrite (bind_ok _ _ _ _ _
             (renderScatter_step s sd g2 (VStr "#2e7d32") h5
                (lookup_kept _ _ _ _ (K _ _ Hs)) (leads_with_kept _ _ _ _ (KL _ _ L2)))).
  set (h6 := h5 ++ [CObj [("stroke", VStr "#2e7d32"); numP "strokeWidth" 1]]).
  rewrite (bind_ok _ _ _ _ _
             (renderScatter_step s ad g3 (VStr "#1976d2") h6
                (lookup_kept _ _ _ _ (lookup_kept _ _ _ _ (K _ _ Hs)))
                (leads_with_kept _ _ _ _ (leads_with_kept _ _ _ _ (KL _ _ L3))))).
  set (h7 := h6 ++ [CObj [("stroke", VStr "#1976d2"); numP "strokeWidth" 1]]).
  rewrite (bind_ok _ _ _ _ _
             (renderScatter_step s dd g4 (VStr "#7b1fa2") h7
                (lookup_kept _ _ _ _ (lookup_kept _ _ _ _ (lookup_kept _ _ _ _ (K _ _ Hs))))
                (leads_with_kept _ _ _ _
                   (leads_with_kept _ _ _ _
                      (leads_with_kept _ _ _ _ (KL _ _ L4)))))).
  do 8 eexists.
  exists ([c1; c2; c3; c4;
           CObj [("stroke", VStr "#d32f2f"); numP "strokeWidth" 1];
           CObj [("stroke", VStr "#2e7d32"); numP "strokeWidth" 1];
           CObj [("stroke", VStr "#1976d2"); numP "strokeWidth" 1];
           CObj [("stroke", VStr "#7b1fa2"); numP "strokeWidth" 1]]).
  unfold ret. f_equal.
  unfold h7, h6, h5, h4. rewrite <- !app_assoc. reflexivity.
Qed.

(** The run of the declarations that follow the four array literals. *)
Lemma derived_run
        (hd sd ad dd : loc) (horror scifi action drama : list value) (h : heap) :
  nth_error h hd = Some (CArr horror) ->
  nth_error h sd = Some (CArr scifi) ->
  nth_error h ad = Some (CArr action) ->
  nth_error h dd = Some (CArr drama) ->
  Budget.derived (Budget.Arrays (VRef hd) (VRef sd) (VRef ad) (VRef dd)) h
  = (Ok (Budget.Scope (Budget.Arrays (VRef hd) (VRef sd) (VRef ad) (VRef dd))
                      (VRef (List.length h)) (VRef (S (List.length h)))),
     h ++ [CArr (horror ++ scifi ++ action ++ drama); CObj Budget.genreStats]).
Proof.
  intros Hh Hs Ha Hd. unfold Budget.derived, array_of_spreads.
  cbn [Budget.horrorRef Budget.scifiRef Budget.actionRef Budget.dramaRef spread_all].
  rewrite !bind_assoc.
  rewrite (bind_ok _ _ _ _ _ (items_of_array _ _ _ Hh)). cbv beta.
  rewrite !bind_assoc.
  rewrite (bind_ok _ _ _ _ _ (items_of_array _ _ _ Hs)). cbv beta.
  rewrite !bind_assoc.
  rewrite (bind_ok _ _ _ _ _ (items_of_array _ _ _ Ha)). cbv beta.
  rewrite !bind_assoc.
  rewrite (bind_ok _ _ _ _ _ (items_of_array _ _ _ Hd)). cbv beta.
  unfold ret, bind, new_array, new_object, alloc.
  rewrite app_nil_r, length_app, <- app_assoc. cbn [List.length app].
  replace (List.length h + 1) with (S (List.length h)) by lia.
  reflexivity.
Qed.

(** [combinedData]: a new array with the entries of the four arrays one
    after the other - the same references, so the records are shared with
    their sources, not copied - then [genreStats]; the four arrays stay as
    they were. *)
Theorem combinedData_concatenates
        (hd sd ad dd : loc) (horror scifi action drama : list value) (h : heap) :
  nth_error h hd = Some (CArr horror) ->
  nth_error h sd = Some (CArr scifi) ->
  nth_error h ad = Some (CArr action) ->
  nth_error h dd = Some (CArr drama) ->
  Budget.derived (Budget.Arrays (VRef hd) (VRef sd) (VRef ad) (VRef dd)) h
  = (Ok (Budget.Scope (Budget.Arrays (VRef hd) (VRef sd) (VRef ad) (VRef dd))
                      (VRef (List.length h)) (VRef (S (List.length h)))),
     h ++ [CArr (horror ++ scifi ++ action ++ drama); CObj Budget.genreStats]).
Proof.
  intros Hh Hs Ha Hd. unfold Budget.derived, array_of_spreads.
  cbn [Budget.horrorRef Budget.scifiRef Budget.actionRef Budget.dramaRef spread_all].
  rewrite !bind_assoc.
  rewrite (bind_ok _ _ _ _ _ (items_of_array _ _ _ Hh)). cbv beta.
  rewrite !bind_assoc.
  rewrite (bind_ok _ _ _ _ _ (items_of_array _ _ _ Hs)). cbv beta.
  rewrite !bind_assoc.
  rewrite (bind_ok _ _ _ _ _ (items_of_array _ _ _ Ha)). cbv beta.
  rewrite !bind_assoc.
  rewrite (bind_ok _ _ _ _ _ (items_of_array _ _ _ Hd)). cbv beta.
  unfold ret, bind, new_array, new_object, alloc.
  rewrite app_nil_r, length_app, <- app_assoc. cbn [List.length app].
  replace (List.length h + 1) with (S (List.length h)) by lia.
  reflexivity.
Qed.

Lemma combinedData_concatenates_witness :
  Budget.derived (Budget.Arrays (VRef 0) (VRef 1) (VRef 1) (VRef 0))
                 [CArr [VStr "a"; VStr "b"]; CArr []]
  = (Ok (Budget.Scope (Budget.Arrays (VRef 0) (VRef 1) (VRef 1) (VRef 0))
                      (VRef 2) (VRef 3)),
     [CArr [VStr "a"; VStr "b"]; CArr []]
       ++ [CArr ([VStr "a"; VStr "b"] ++ [] ++ [] ++ [VStr "a"; VStr "b"]);
           CObj Budget.genreStats]).
Proof.
  apply (combinedData_concatenates 0 1 1 0 [VStr "a"; VStr "b"] [] []
           [VStr "a"; VStr "b"] [CArr [VStr "a"; VStr "b"]; CArr []]);
    reflexivity.
Defined.

Lemma budget_literals_holds (horror scifi action drama : list (list (string * value)))
      (h : heap) :
  exists hd sd ad dd new,
    budget_literals horror scifi action drama h
    = (Ok (Budget.Arrays (VRef hd) (VRef sd) (VRef ad) (VRef dd)), h ++ new)
    /\ holds_rows (h ++ new) hd horror /\ holds_rows (h ++ new) sd scifi
    /\ holds_rows (h ++ new) ad action /\ holds_rows (h ++ new) dd drama.
Proof.
  destruct (array_of_objects_holds horror h) as [hd [n1 [R1 H1]]].
  destruct (array_of_objects_holds scifi (h ++ n1)) as [sd [n2 [R2 H2]]].
  destruct (array_of_objects_holds action ((h ++ n1) ++ n2)) as [ad [n3 [R3 H3]]].
  destruct (array_of_objects_holds drama (((h ++ n1) ++ n2) ++ n3)) as [dd [n4 [R4 H4]]].
  exists hd, sd, ad, dd, (n1 ++ n2 ++ n3 ++ n4).
  replace (h ++ n1 ++ n2 ++ n3 ++ n4) with ((((h ++ n1) ++ n2) ++ n3) ++ n4)
    by (rewrite <- !app_assoc; reflexivity).
  split.
  - unfold budget_literals.
    rewrite (bind_ok _ _ _ _ _ R1), (bind_ok _ _ _ _ _ R2),
            (bind_ok _ _ _ _ _ R3), (bind_ok _ _ _ _ _ R4).
    reflexivity.
  - repeat split.
    + do 3 apply holds_rows_kept. exact H1.
    + do 2 apply holds_rows_kept. exact H2.
    + apply holds_rows_kept. exact H3.
    + exact H4.
Qed.

(** The budget chart over any four arrays that each start with a record
    whose genre is a string no object inherits as a property name: the
    render ends well and shows four Scatters, in the order horror, science
    fiction, action, drama, each bound by reference to an array that holds
    exactly the rows of its own literal and named [genre (avg Nx)] after
    the first record of that array, [N] being 3.29, 1.6, 2.46 or 1.87 for
    the four genres [genreStats] knows and the word undefined for any
    other. *)
Theorem budget_chart_one_scatter_per_array
        (horror scifi action drama : list (list (string * value)))
        (g1 g2 g3 g4 : string) (h : heap) :
  starts_with_genre horror g1 ->
  starts_with_genre scifi g2 ->
  starts_with_genre action g3 ->
  starts_with_genre drama g4 ->
  exists margin xdomain ydomain zrange l1 l2 l3 l4 hd sd ad dd new,
    budget_chart horror scifi action drama h
    = (Ok (Budget.tree margin xdomain ydomain zrange
             (scatter_element (scatter_name g1 (legend_average g1)) (VRef hd)
                              (VStr "#d32f2f") l1)
             (scatter_element (scatter_name g2 (legend_average g2)) (VRef sd)
                              (VStr "#2e7d32") l2)
             (scatter_element (scatter_name g3 (legend_average g3)) (VRef ad)
                              (VStr "#1976d2") l3)
             (scatter_element (scatter_name g4 (legend_average g4)) (VRef dd)
                              (VStr "#7b1fa2") l4)),
       h ++ new)
    /\ holds_rows (h ++ new) hd horror /\ holds_rows (h ++ new) sd scifi
    /\ holds_rows (h ++ new) ad action /\ holds_rows (h ++ new) dd drama.
Proof.
  intros P1 P2 P3 P4.
  destruct (budget_literals_holds horror scifi action drama h)
    as [hd [sd [ad [dd [n1 [Rlit [H1 [H2 [H3 H4]]]]]]]]].
  set (ha := h ++ n1) in *.
  destruct H1 as [i1 [D1 Q1]]. destruct H2 as [i2 [D2 Q2]].
  destruct H3 as [i3 [D3 Q3]]. destruct H4 as [i4 [D4 Q4]].
  pose proof (derived_run hd sd ad dd i1 i2 i3 i4 ha D1 D2 D3 D4) as Rder.
  set (n2 := [CArr (i1 ++ i2 ++ i3 ++ i4); CObj Budget.genreStats]) in *.
  set (hb := ha ++ n2) in *.
  assert (Hstats : nth_error hb (S (List.length ha)) = Some (CObj Budget.genreStats)).
  { unfold hb. replace (S (List.length ha)) with (List.length ha + 1) by lia.
    rewrite lookup_new. reflexivity. }
  assert (K1 : holds_rows hb hd horror)
    by (apply holds_rows_kept; exists i1; split; assumption).
  assert (K2 : holds_rows hb sd scifi)
    by (apply holds_rows_kept; exists i2; split; assumption).
  assert (K3 : holds_rows hb ad action)
    by (apply holds_rows_kept; exists i3; split; assumption).
  assert (K4 : holds_rows hb dd drama)
    by (apply holds_rows_kept; exists i4; split; assumption).
  destruct (markup_run (S (List.length ha)) hd sd ad dd (VRef (List.length ha))
              g1 g2 g3 g4 hb Hstats
              (holds_rows_leads _ _ _ _ K1 P1) (holds_rows_leads _ _ _ _ K2 P2)
              (holds_rows_leads _ _ _ _ K3 P3) (holds_rows_leads _ _ _ _ K4 P4))
    as [margin [xd [yd [zr [l1 [l2 [l3 [l4 [n3 Rmark]]]]]]]]].
  exists margin, xd, yd, zr, l1, l2, l3, l4, hd, sd, ad, dd, (n1 ++ n2 ++ n3).
  replace (h ++ n1 ++ n2 ++ n3) with (hb ++ n3)
    by (unfold hb, ha; rewrite <- !app_assoc; reflexivity).
  split.
  - unfold budget_chart.
    rewrite (bind_ok _ _ _ _ _ Rlit), (bind_ok _ _ _ _ _ Rder). exact Rmark.
  - repeat split; apply holds_rows_kept; assumption.
Qed.

(** The four arrays of the source, and the same chart with the drama
    rows replaced by one record of a genre [genreStats] does not know. *)
Lemma budget_chart_one_scatter_per_array_witness :
  (exists margin xdomain ydomain zrange l1 l2 l3 l4 hd sd ad dd new,
    budget_chart Budget.horrorData Budget.scifiData Budget.actionData Budget.dramaData []
    = (Ok (Budget.tree margin xdomain ydomain zrange
             (scatter_element "Horror (avg 3.29x)" (VRef hd) (VStr "#d32f2f") l1)
             (scatter_element "Science Fiction (avg 1.6x)" (VRef sd)
                              (VStr "#2e7d32") l2)
             (scatter_element "Action (avg 2.46x)" (VRef ad) (VStr "#1976d2") l3)
             (scatter_element "Drama (avg 1.87x)" (VRef dd) (VStr "#7b1fa2") l4)),
       [] ++ new)
    /\ holds_rows ([] ++ new) hd Budget.horrorData
    /\ holds_rows ([] ++ new) sd Budget.scifiData
    /\ holds_rows ([] ++ new) ad Budget.actionData
    /\ holds_rows ([] ++ new) dd Budget.dramaData)
  /\ (exists margin xdomain ydomain zrange l1 l2 l3 l4 hd sd ad dd new,
    budget_chart Budget.horrorData Budget.scifiData Budget.actionData
                 [[strP "genre" "Comedy"]] []
    = (Ok (Budget.tree margin xdomain ydomain zrange
             (scatter_element "Horror (avg 3.29x)" (VRef hd) (VStr "#d32f2f") l1)
             (scatter_element "Science Fiction (avg 1.6x)" (VRef sd)
                              (VStr "#2e7d32") l2)
             (scatter_element "Action (avg 2.46x)" (VRef ad) (VStr "#1976d2") l3)
             (scatter_element "Comedy (avg undefinedx)" (VRef dd) (VStr "#7b1fa2") l4)),
       [] ++ new)
    /\ holds_rows ([] ++ new) hd Budget.horrorData
    /\ holds_rows ([] ++ new) sd Budget.scifiData
    /\ holds_rows ([] ++ new) ad Budget.actionData
    /\ holds_rows ([] ++ new) dd [[strP "genre" "Comedy"]]).
Proof.
  split.
  - apply (budget_chart_one_scatter_per_array
             Budget.horrorData Budget.scifiData Budget.actionData Budget.dramaData
             "Horror" "Science Fiction" "Action" "Drama" []);
      (eexists; eexists; split; [reflexivity | split; reflexivity]).
  - apply (budget_chart_one_scatter_per_array
             Budget.horrorData Budget.scifiData Budget.actionData
             [[strP "genre" "Comedy"]]
             "Horror" "Science Fiction" "Action" "Comedy" []);
      (eexists; eexists; split; [reflexivity | split; reflexivity]).
Defined.

(** A step that only adds cells keeps an empty array empty. *)
Lemma fails_after {A B} (m : M A) (k : A -> M B) (v : value) (h : heap) :
  appends m -> is_empty_array h v ->
  (forall a h', is_empty_array h' v -> is_ok (fst (k a h')) = false) ->
  is_ok (fst (bind m k h)) = false.
Proof.
  intros Hm [d [-> Hd]] Hk. unfold bind. destruct (Hm h) as [new Hnew].
  destruct (m h) as [[a | e | w] h']; cbn in *; [| reflexivity | reflexivity].
  subst h'. apply Hk. exists d. split; [reflexivity | apply lookup_kept; exact Hd].
Qed.

Lemma bind_not_ok {A B} (m : M A) (k : A -> M B) (h : heap) :
  is_ok (fst (m h)) = false -> is_ok (fst (bind m k h)) = false.
Proof.
  intros Hm. unfold bind. destruct (m h) as [[x | e | w] h']; cbn in *;
    [discriminate | reflexivity | reflexivity].
Qed.

Lemma renderScatter_fails_on_empty {B} (stats v colour : value) (k : value -> M B)
      (h : heap) :
  is_empty_array h v ->
  is_ok (fst (bind (Budget.renderScatter stats v colour) k h)) = false.
Proof.
  intros [d [-> Hd]].
  rewrite (bind_throw _ _ _ _ _ (renderScatter_empty_run stats colour d h Hd)).
  reflexivity.
Qed.

Lemma markup_fails_on_empty (sc : Budget.scope) (h : heap) :
  is_empty_array h (Budget.horrorRef (Budget.sources sc))
  \/ is_empty_array h (Budget.scifiRef (Budget.sources sc))
  \/ is_empty_array h (Budget.actionRef (Budget.sources sc))
  \/ is_empty_array h (Budget.dramaRef (Budget.sources sc)) ->
  is_ok (fst (Budget.markup sc h)) = false.
Proof.
  intros Hempty. unfold Budget.markup.
  destruct Hempty as [He | [He | [He | He]]].
  - do 4 (eapply fails_after; [auto with appends | exact He | clear h He; intros ? h He]).
    apply renderScatter_fails_on_empty. exact He.
  - do 5 (eapply fails_after;
          [first [apply Claims.renderScatter_appends | auto with appends]
          | exact He | clear h He; intros ? h He]).
    apply renderScatter_fails_on_empty. exact He.
  - do 6 (eapply fails_after;
          [first [apply Claims.renderScatter_appends | auto with appends]
          | exact He | clear h He; intros ? h He]).
    apply renderScatter_fails_on_empty. exact He.
  - do 7 (eapply fails_after;
          [first [apply Claims.renderScatter_appends | auto with appends]
          | exact He | clear h He; intros ? h He]).
    apply bind_not_ok. destruct He as [d [-> Hd]].
    rewrite (renderScatter_empty_run _ _ d h Hd). reflexivity.
Qed.

(** The budget chart does not render when one of its four arrays is
    empty, whatever the other three hold: the Scatter of the empty array
    has no first record to take its name from. *)
Theorem budget_chart_fails_on_empty_array
        (horror scifi action drama : list (list (string * value))) (h : heap) :
  horror = [] \/ scifi = [] \/ action = [] \/ drama = [] ->
  is_ok (fst (budget_chart horror scifi action drama h)) = false.
Proof.
  intros Hempty.
  destruct (budget_literals_holds horror scifi action drama h)
    as [hd [sd [ad [dd [n1 [Rlit [H1 [H2 [H3 H4]]]]]]]]].
  assert (Hnone : forall d rows, holds_rows (h ++ n1) d rows -> rows = [] ->
                                 is_empty_array (h ++ n1) (VRef d)).
  { intros d rows [items [Hd [Hlen _]]] ->. exists d. split; [reflexivity |].
    destruct items; [exact Hd | discriminate]. }
  unfold budget_chart. rewrite (bind_ok _ _ _ _ _ Rlit).
  destruct H1 as [i1 [D1 Q1]], H2 as [i2 [D2 Q2]], H3 as [i3 [D3 Q3]], H4 as [i4 [D4 Q4]].
  rewrite (bind_ok _ _ _ _ _
             (derived_run hd sd ad dd i1 i2 i3 i4 (h ++ n1) D1 D2 D3 D4)).
  apply markup_fails_on_empty.
  cbn [Budget.sources Budget.horrorRef Budget.scifiRef Budget.actionRef Budget.dramaRef].
  assert (Hkeep : forall v, is_empty_array (h ++ n1) v ->
                            is_empty_array
                              ((h ++ n1) ++ [CArr (i1 ++ i2 ++ i3 ++ i4);
                                             CObj Budget.genreStats]) v).
  { intros v [d [-> Hd]]. exists d. split; [reflexivity | apply lookup_kept; exact Hd]. }
  destruct Hempty as [E | [E | [E | E]]].
  - left. apply Hkeep, (Hnone hd horror); [exists i1; split; assumption | exact E].
  - right; left. apply Hkeep, (Hnone sd scifi); [exists i2; split; assumption | exact E].
  - right; right; left.
    apply Hkeep, (Hnone ad action); [exists i3; split; assumption | exact E].
  - right; right; right.
    apply Hkeep, (Hnone dd drama); [exists i4; split; assumption | exact E].
Qed.

Lemma budget_chart_fails_on_empty_array_witness :
  is_ok (fst (budget_chart Budget.horrorData [] Budget.actionData Budget.dramaData []))
  = false.
Proof.
  apply (budget_chart_fails_on_empty_array Budget.horrorData [] Budget.actionData
           Budget.dramaData []).
  right; left; reflexivity.
Defined.

(** The line chart never looks into its rows: over any rows at all, none
    or malformed ones included, the render ends well and the LineChart is
    bound by reference to an array that holds exactly those rows. *)
Theorem genre_chart_takes_any_rows (rows : list (list (string * value))) (h : heap) :
  exists d margin ylabel dot1 dot2 dot3 dot4 dot5 new,
    genre_chart rows h
    = (Ok (Genre.tree (VRef d) margin ylabel dot1 dot2 dot3 dot4 dot5), h ++ new)
    /\ holds_rows (h ++ new) d rows.
Proof.
  destruct (array_of_objects_holds rows h) as [d [n1 [Rd Hd]]].
  unfold genre_chart. rewrite (bind_ok _ _ _ _ _ Rd).
  unfold Genre.markup, new_object, alloc, bind, ret.
  exists d. do 7 eexists.
  exists (n1 ++ [CObj [numP "top" 5; numP "right" 30; numP "left" 20; numP "bottom" 5];
                 CObj [strP "value" "Popularity Index"; numP "angle" (-90);
                       strP "position" "insideLeft"];
                 CObj [numP "r" 8]; CObj [numP "r" 8]; CObj [numP "r" 8];
                 CObj [numP "r" 8]; CObj [numP "r" 8]]).
  split.
  - f_equal. rewrite <- !app_assoc. reflexivity.
  - rewrite app_assoc. apply holds_rows_kept. exact Hd.
Qed.

Lemma studio_one_cell_and_row_per_record_witness :
  forallb studio_row_ok Studio.data = true
  /\ (Z.of_nat (List.length Studio.data) < 10 ^ 21)%Z
  /\ exists (margin ylabel : value) (dataRef cellsRef rowsRef : loc)
            (cells trs : list value) (final : heap),
      studio_chart Studio.data []
      = (Ok (Studio.tree (VRef dataRef) margin ylabel (VRef cellsRef) (VRef rowsRef)),
         final)
      /\ holds_rows final dataRef Studio.data
      /\ nth_error final cellsRef = Some (CArr cells)
      /\ nth_error final rowsRef = Some (CArr trs)
      /\ List.length cells = List.length Studio.data
      /\ List.length trs = List.length Studio.data
      /\ (forall i row,
             nth_error Studio.data i = Some row ->
             exists x index fill p r d,
               return_of row = Some x
               /\ Num.to_string (of_nat i) = Some index
               /\ Studio.getColorByRAR (VNum x) final = (Ok fill, final)
               /\ nth_error cells i = Some (bar_cell index fill)
               /\ printed2 "profitRatio" row = Some p
               /\ printed2 "risk" row = Some r
               /\ printed2 "genreDiversity" row = Some d
               /\ nth_error trs i
                  = Some (table_row i (or_undefined (field "studio" row)) p r d)).
Proof.
  split; [reflexivity |]. split; [reflexivity |].
  apply (studio_one_cell_and_row_per_record Studio.data []); reflexivity.
Defined.

(** *** No chart reads the heap it starts on *)

Lemma budget_literals_relocated
      (horror scifi action drama : list (list (string * value))) (n : nat) :
  shift n horror = horror -> shift n scifi = scifi ->
  shift n action = action -> shift n drama = drama ->
  relocated n (budget_literals horror scifi action drama)
              (budget_literals horror scifi action drama).
Proof.
  intros H1 H2 H3 H4. unfold budget_literals.
  apply relocated_bind; [apply relocated_array_of_objects; symmetry; exact H1 |].
  intros a1. apply relocated_bind;
    [apply relocated_array_of_objects; symmetry; exact H2 |].
  intros a2. apply relocated_bind;
    [apply relocated_array_of_objects; symmetry; exact H3 |].
  intros a3. apply relocated_bind;
    [apply relocated_array_of_objects; symmetry; exact H4 |].
  intros a4. apply relocated_ret. reflexivity.
Qed.

(** Whatever rows a chart is given, as long as they are plain data (no
    reference into the heap), what it shows, and whether it ends well, is
    the same on every heap: a render reads nothing that an earlier render,
    of this or another component, left behind. *)
Theorem charts_ignore_the_heap
        (rows horror scifi action drama : list (list (string * value))) (h : heap) :
  (forall n, shift n rows = rows) ->
  (forall n, shift n horror = horror) -> (forall n, shift n scifi = scifi) ->
  (forall n, shift n action = action) -> (forall n, shift n drama = drama) ->
  shown (genre_chart rows h) = shown (genre_chart rows [])
  /\ shown (studio_chart rows h) = shown (studio_chart rows [])
  /\ shown (budget_chart horror scifi action drama h)
     = shown (budget_chart horror scifi action drama []).
Proof.
  intros Hrows H1 H2 H3 H4. split; [| split]; apply shown_relocated; intros n.
  - unfold genre_chart.
    apply relocated_bind; [apply relocated_array_of_objects; symmetry; apply Hrows |].
    intros d. unfold Genre.markup. relocate.
  - unfold studio_chart.
    apply relocated_bind; [apply relocated_array_of_objects; symmetry; apply Hrows |].
    intros d. apply studio_markup_relocated.
  - unfold budget_chart.
    apply relocated_bind; [apply budget_literals_relocated; auto |].
    intros src. apply relocated_bind; [apply derived_relocated |].
    intros sc. apply markup_relocated.
Qed.

Lemma charts_ignore_the_heap_witness :
  shown (genre_chart Studio.data [CArr []]) = shown (genre_chart Studio.data [])
  /\ shown (studio_chart Studio.data [CArr []]) = shown (studio_chart Studio.data [])
  /\ shown (budget_chart Budget.dramaData [] Budget.scifiData Genre.data [CArr []])
     = shown (budget_chart Budget.dramaData [] Budget.scifiData Genre.data []).
Proof.
  apply (charts_ignore_the_heap Studio.data Budget.dramaData [] Budget.scifiData
           Genre.data [CArr []]); intros n; reflexivity.
Defined.

(** *** The tooltip formatter of the studio chart *)

(** The run of [toFixed] on a value that has none to call. *)
Lemma toFixed_lacking (v : value) (digits : nat) (h : heap) :
  lacks_toFixed h v = true ->
  exists msg, toFixed v digits h = (Throw (TypeError msg), h).
Proof.
  destruct v as [| | b | x | t | l | name | type props children]; cbn;
    try discriminate; intros Hv; try (eexists; reflexivity).
  unfold bind, deref, no_method.
  destruct (nth_error h l) as [[fields | items] |]; try discriminate;
    [| eexists; reflexivity].
  destruct (field "toFixed" fields); [discriminate | eexists; reflexivity].
Qed.

(** The formatter rewrites a value only under the exact name
    [riskAdjustedReturn]: there a number comes back as a new pair of the
    number to two decimals and the label [Risk-Adjusted Return], and a
    value that has no [toFixed] to call - undefined, null, a boolean, a
    string, an element, an array, an object without that property - makes
    it throw a TypeError and leave the heap as it found it. Under every other name - the label [Risk-Adjusted Return] itself
    included - it returns the value and the name as they came, whatever
    they are, and cannot fail. *)
Theorem formatter_by_name (val name props : value) (h : heap) :
  (is_string name "riskAdjustedReturn" = false ->
   Studio.formatter val name props h
   = (Ok (VRef (List.length h)), h ++ [CArr [val; name]]))
  /\ (is_string name "riskAdjustedReturn" = true ->
      (forall x text,
          val = VNum x -> Num.to_fixed x 2 = Some text ->
          Studio.formatter val name props h
          = (Ok (VRef (List.length h)),
             h ++ [CArr [VStr text; VStr "Risk-Adjusted Return"]]))
      /\ (lacks_toFixed h val = true ->
          exists msg,
            Studio.formatter val name props h = (Throw (TypeError msg), h))).
Proof.
  unfold Studio.formatter. split; intros Hname; rewrite Hname.
  - reflexivity.
  - split.
    + intros x text -> Htext.
      rewrite (bind_ok _ _ _ _ _ (toFixed_number h x 2 text ltac:(lia) Htext)).
      reflexivity.
    + intros Hval. destruct (toFixed_lacking val 2 h Hval) as [msg Hrun].
      exists msg. rewrite (bind_throw _ _ _ _ _ Hrun). reflexivity.
Qed.

(** Under the label the Bar carries, the return of Marvel Studios goes
    through as the number it is; under the data key it is printed, and a
    record in its place is refused. *)
Lemma formatter_by_name_witness :
  Studio.formatter (num 4.80) (VStr "Risk-Adjusted Return") VUndefined []
  = (Ok (VRef 0), [] ++ [CArr [num 4.80; VStr "Risk-Adjusted Return"]])
  /\ Studio.formatter (num 4.80) (VStr "riskAdjustedReturn") VUndefined []
     = (Ok (VRef 0), [] ++ [CArr [VStr "4.80"; VStr "Risk-Adjusted Return"]])
  /\ exists msg,
       Studio.formatter (VRef 0) (VStr "riskAdjustedReturn") VUndefined
                        [CObj [strP "studio" "A24"]]
       = (Throw (TypeError msg), [CObj [strP "studio" "A24"]]).
Proof.
  split; [| split].
  - apply (proj1 (formatter_by_name (num 4.80) (VStr "Risk-Adjusted Return")
                    VUndefined [])).
    reflexivity.
  - apply (proj1 (proj2 (formatter_by_name (num 4.80) (VStr "riskAdjustedReturn")
                           VUndefined []) eq_refl) (Fin 4.80) "4.80");
      reflexivity.
  - apply (proj2 (proj2 (formatter_by_name (VRef 0) (VStr "riskAdjustedReturn")
                           VUndefined [CObj [strP "studio" "A24"]]) eq_refl)).
    reflexivity.
Defined.

End Extras.
